(** * Bouncing Blitz: collision and physics core

  A shallow embedding of the simulation core of the game:
  [Platform] (src/core/entities/Platform.ts), [PhysicsService]
  (src/core/services/PhysicsService.ts), the fixed-step loop and the
  collision response of [GameEngine] (src/core/GameEngine.ts) and
  [TrackEditorService.validateTrack].

  JavaScript numbers are idealised as real numbers: rounding is outside the
  model, and so are NaN and the infinities except in the ray test of
  three.js, which relies on them.  Objects that the code mutates in place
  are passed as explicit state. *)

From Stdlib Require Import Reals Lra Lia ZArith List String Bool.
From Stdlib Require Import DecimalString DecimalNat.
Import ListNotations.
Open Scope R_scope.

(** ** JavaScript primitives *)

Module JS.

(** Comparisons of numbers, as booleans. *)
Definition ltb (a b : R) : bool := if Rlt_dec a b then true else false.
Definition gtb (a b : R) : bool := ltb b a.
Definition leb (a b : R) : bool := if Rle_dec a b then true else false.
Definition geb (a b : R) : bool := leb b a.

(** The completion of a call that may throw. *)
Inductive Completion (A : Type) : Type :=
| Returned (a : A)
| Thrown (message : string).
Arguments Returned {A} a.
Arguments Thrown {A} message.

(** [Math.sign]. *)
Definition sign (a : R) : R :=
  if Rlt_dec 0 a then 1 else if Rlt_dec a 0 then -1 else 0.

(** Truthiness of an optional number: [undefined] and [0] are falsy. *)
Definition truthy (o : option R) : bool :=
  match o with
  | Some v => if Req_dec_T v 0 then false else true
  | None => false
  end.

(** [o || d] on an optional number. *)
Definition orElse (o : option R) (d : R) : R :=
  match o with
  | Some v => if Req_dec_T v 0 then d else v
  | None => d
  end.

(** [o || d] on an optional integer. *)
Definition orElseZ (o : option Z) (d : Z) : Z :=
  match o with
  | Some v => if Z.eqb v 0 then d else v
  | None => d
  end.

(** [o ?? d]. *)
Definition nullish {A : Type} (o : option A) (d : A) : A :=
  match o with
  | Some v => v
  | None => d
  end.

(** [Math.ceil], with an integer result. *)
Definition ceil (a : R) : Z := Zceil a.

(** A [Map] keeps its keys in insertion order; [set] on a present key
    replaces the value in place. *)
Definition Map (V : Type) : Type := list (string * V).

Fixpoint get {V : Type} (k : string) (m : Map V) : option V :=
  match m with
  | [] => None
  | (k', v) :: m' => if String.eqb k k' then Some v else get k m'
  end.

Fixpoint set {V : Type} (k : string) (v : V) (m : Map V) : Map V :=
  match m with
  | [] => [(k, v)]
  | (k', v') :: m' =>
      if String.eqb k k' then (k', v) :: m' else (k', v') :: set k v m'
  end.

Definition values {V : Type} (m : Map V) : list V := List.map snd m.

(** [m.forEach(f)] where [f] mutates the value it is given. *)
Definition forEachValue {V : Type} (f : V -> V) (m : Map V) : Map V :=
  List.map (fun kv => (fst kv, f (snd kv))) m.

(** [Math.round]: the nearest integer, a half rounded up. *)
Definition round (a : R) : Z := Zfloor (a + 1 / 2).

(** [m.delete(k)].  A map holds at most one entry for a key. *)
Fixpoint delete {V : Type} (k : string) (m : Map V) : Map V :=
  match m with
  | [] => []
  | (k', v) :: m' =>
      if String.eqb k k' then delete k m' else (k', v) :: delete k m'
  end.

(** The text of a counter [n] inside a template string. *)
Definition numberText (n : nat) : string :=
  NilEmpty.string_of_uint (Nat.to_uint n).

End JS.

(** ** Numbers of the ray test *)

(** A JavaScript number that may be infinite or [NaN].  The ray test of
    three.js divides by the components of the direction and relies on the
    reciprocal of zero being an infinity; elsewhere numbers stay real.  The
    model has one zero, so the reciprocal of zero is [Infinity]. *)
Module Number.

Inductive t : Type :=
| Finite (r : R)
| PositiveInfinity
| NegativeInfinity
| NaN.

(** [1 / d] *)
Definition reciprocal (d : R) : t :=
  if Req_dec_T d 0 then PositiveInfinity else Finite (1 / d).

(** [a * b] for a finite [a]; [0 * Infinity] is [NaN]. *)
Definition scale (a : R) (b : t) : t :=
  match b with
  | Finite r => Finite (a * r)
  | PositiveInfinity =>
      if JS.gtb a 0 then PositiveInfinity
      else if JS.ltb a 0 then NegativeInfinity
      else NaN
  | NegativeInfinity =>
      if JS.gtb a 0 then NegativeInfinity
      else if JS.ltb a 0 then PositiveInfinity
      else NaN
  | NaN => NaN
  end.

(** [a > b]: false when either side is [NaN]. *)
Definition gtb (a b : t) : bool :=
  match a, b with
  | Finite x, Finite y => JS.gtb x y
  | Finite _, NegativeInfinity => true
  | PositiveInfinity, Finite _ => true
  | PositiveInfinity, NegativeInfinity => true
  | _, _ => false
  end.

Definition ltb (a b : t) : bool := gtb b a.

(** [a >= b]: false when either side is [NaN]. *)
Definition geb (a b : t) : bool :=
  match a, b with
  | Finite x, Finite y => JS.geb x y
  | Finite _, NegativeInfinity => true
  | PositiveInfinity, Finite _ => true
  | PositiveInfinity, PositiveInfinity => true
  | PositiveInfinity, NegativeInfinity => true
  | NegativeInfinity, NegativeInfinity => true
  | _, _ => false
  end.

(** [isNaN(a)], also written [a !== a]. *)
Definition isNaN (a : t) : bool :=
  match a with
  | NaN => true
  | _ => false
  end.

Definition isFinite (a : t) : bool :=
  match a with
  | Finite _ => true
  | _ => false
  end.

End Number.

(** ** three.js value types *)

Module Vector3.

Record t : Type := mk { x : R; y : R; z : R }.

Definition zero : t := mk 0 0 0.

Definition add (a b : t) : t := mk (x a + x b) (y a + y b) (z a + z b).
Definition sub (a b : t) : t := mk (x a - x b) (y a - y b) (z a - z b).
Definition multiplyScalar (a : t) (s : R) : t :=
  mk (x a * s) (y a * s) (z a * s).
Definition divideScalar (a : t) (s : R) : t := multiplyScalar a (1 / s).
Definition dot (a b : t) : R := x a * x b + y a * y b + z a * z b.
Definition lengthSq (a : t) : R := dot a a.
Definition length (a : t) : R := sqrt (lengthSq a).

(** [normalize] divides by [length() || 1]. *)
Definition normalize (a : t) : t :=
  divideScalar a (if Req_dec_T (length a) 0 then 1 else length a).

Definition distanceTo (a b : t) : R := length (sub a b).

Definition with_x (a : t) (v : R) : t := mk v (y a) (z a).
Definition with_y (a : t) (v : R) : t := mk (x a) v (z a).
Definition with_z (a : t) (v : R) : t := mk (x a) (y a) v.

(** [a.lerp(v, alpha)] *)
Definition lerp (a v : t) (alpha : R) : t :=
  mk (x a + (x v - x a) * alpha)
     (y a + (y v - y a) * alpha)
     (z a + (z v - z a) * alpha).

(** [a.equals(b)] *)
Definition equals (a b : t) : bool :=
  (if Req_dec_T (x a) (x b) then true else false)
  && (if Req_dec_T (y a) (y b) then true else false)
  && (if Req_dec_T (z a) (z b) then true else false).

End Vector3.

Module Box3.

Record t : Type := mk { min : Vector3.t; max : Vector3.t }.

Definition isEmpty (b : t) : bool :=
JS.ltb (Vector3.x (max b)) (Vector3.x (min b))
|| JS.ltb (Vector3.y (max b)) (Vector3.y (min b))
|| JS.ltb (Vector3.z (max b)) (Vector3.z (min b)).

Definition getCenter (b : t) : Vector3.t :=
  if isEmpty b then Vector3.zero
  else Vector3.multiplyScalar (Vector3.add (min b) (max b)) (1 / 2).

Definition getSize (b : t) : Vector3.t :=
  if isEmpty b then Vector3.zero else Vector3.sub (max b) (min b).

Definition expandByScalar (b : t) (s : R) : t :=
  mk (Vector3.sub (min b) (Vector3.mk s s s))
     (Vector3.add (max b) (Vector3.mk s s s)).

Definition containsPoint (b : t) (p : Vector3.t) : bool :=
  JS.geb (Vector3.x p) (Vector3.x (min b))
  && JS.leb (Vector3.x p) (Vector3.x (max b))
  && JS.geb (Vector3.y p) (Vector3.y (min b))
  && JS.leb (Vector3.y p) (Vector3.y (max b))
  && JS.geb (Vector3.z p) (Vector3.z (min b))
  && JS.leb (Vector3.z p) (Vector3.z (max b)).

(** [setFromObject] on an unrotated box mesh of the given dimensions
    centred at [position]. *)
Definition setFromObject (position : Vector3.t) (w h d : R) : t :=
  let half := Vector3.mk (Rabs w / 2) (Rabs h / 2) (Rabs d / 2) in
  mk (Vector3.sub position half) (Vector3.add position half).

End Box3.

(** [THREE.Ray] (three.js, src/math/Ray.js).  The library is not part of the
    repository; [intersectBox] follows its slab test statement by
    statement. *)
Module Ray.
Record t : Type := mk { origin : Vector3.t; direction : Vector3.t }.

(** [ray.at(s, target)]: [origin + direction * s]. *)
Definition pointAt (ray : t) (s : R) : Vector3.t :=
  Vector3.add (origin ray) (Vector3.multiplyScalar (direction ray) s).

(** The first statements of [intersectBox] for one axis: with
    [invdir = 1 / d], the parameters [(lo - o) * invdir] and
    [(hi - o) * invdir], swapped unless [invdir >= 0]. *)
Definition slab (lo hi o d : R) : Number.t * Number.t :=
  let invdir := Number.reciprocal d in
  if Number.geb invdir (Number.Finite 0) then
    (Number.scale (lo - o) invdir, Number.scale (hi - o) invdir)
  else
    (Number.scale (hi - o) invdir, Number.scale (lo - o) invdir).

(** The statements that follow the parameters of the y axis, and again
    those of the z axis: the miss test, then
    [if (tymin > tmin || isNaN(tmin)) tmin = tymin] and
    [if (tymax < tmax || isNaN(tmax)) tmax = tymax]. *)
Definition narrow (t s : Number.t * Number.t)
  : option (Number.t * Number.t) :=
  let '(tmin, tmax) := t in
  let '(tsmin, tsmax) := s in
  if Number.gtb tmin tsmax || Number.gtb tsmin tmax then None
  else
    let tmin :=
      if Number.gtb tsmin tmin || Number.isNaN tmin then tsmin else tmin in
    let tmax :=
      if Number.ltb tsmax tmax || Number.isNaN tmax then tsmax else tmax in
    Some (tmin, tmax).

(** The parameter of the point that [intersectBox] returns: [None] where it
    returns [null]. *)
Definition intersectBoxParameter (ray : t) (box : Box3.t) : option Number.t :=
  let o := origin ray in
  let d := direction ray in
  let tx :=
    slab (Vector3.x (Box3.min box)) (Vector3.x (Box3.max box))
      (Vector3.x o) (Vector3.x d) in
  let ty :=
    slab (Vector3.y (Box3.min box)) (Vector3.y (Box3.max box))
      (Vector3.y o) (Vector3.y d) in
  match narrow tx ty with
  | None => None
  | Some t =>
      let tz :=
        slab (Vector3.z (Box3.min box)) (Vector3.z (Box3.max box))
          (Vector3.z o) (Vector3.z d) in
      match narrow t tz with
      | None => None
      | Some (tmin, tmax) =>
          if Number.ltb tmax (Number.Finite 0) then None
          else
            Some (if Number.geb tmin (Number.Finite 0) then tmin else tmax)
      end
  end.

(** [ray.intersectBox(box, target)]: [None] for [null], else the point
    written to [target].  At an infinite or [NaN] parameter the library
    writes a point with such coordinates, which the vectors of this model
    cannot hold; the origin stands for it.  That happens only for a ray
    whose direction is the zero vector (see [intersectBox_finite]), and the
    collision query returns before it reads the point of such a ray. *)
Definition intersectBox (ray : t) (box : Box3.t) : option Vector3.t :=
  match intersectBoxParameter ray box with
  | None => None
  | Some (Number.Finite s) => Some (pointAt ray s)
  | Some _ => Some (origin ray)
  end.

End Ray.

(** ** Platform (src/core/entities/Platform.ts) *)

Inductive PlatformType : Type :=
| NORMAL | START | FINISH | CHECKPOINT | BOOST | OBSTACLE | BOUNCE.

Inductive MoveAxis : Type := AxisX | AxisY | AxisZ.

Module PlatformConfig.

(** The rendering colour is left out. *)
Record t : Type := mk {
  width : R;
  depth : R;
  height : R;
  position : Vector3.t;
  isMoving : option bool;
  moveSpeed : option R;
  moveDistance : option R;
  moveAxis : option MoveAxis;
  type : option PlatformType;
  boostForce : option R;
  bounceForce : option R;
  checkpointIndex : option Z;
  isActive : option bool
}.

End PlatformConfig.

Module PlatformEffect.

Record t : Type := mk {
  boostForce : option R;
  bounceForce : option R;
  checkpointIndex : option Z
}.

Definition empty : t := mk None None None.

End PlatformEffect.

Module CollisionResult.

Record t : Type := mk {
  collides : bool;
  normal : option Vector3.t;
  penetration : option R;
  time : option R;
  point : option Vector3.t;
  platformType : option PlatformType;
  platformEffect : option PlatformEffect.t
}.

(** [{ collides: false }] *)
Definition noCollision : t := mk false None None None None None None.

End CollisionResult.

Module Platform.

(** [position] is [mesh.position]; [width], [height] and [depth] are the
    parameters of the mesh geometry. *)
Record t : Type := mk {
  position : Vector3.t;
  width : R;
  height : R;
  depth : R;
  isMoving : bool;
  moveSpeed : R;
  moveDistance : R;
  moveAxis : MoveAxis;
  initialPosition : Vector3.t;
  accumulatedTime : R;
  boundingBox : Box3.t;
  previousPosition : Vector3.t;
  velocity : Vector3.t;
  type : PlatformType;
  boostForce : R;
  bounceForce : R;
  checkpointIndex : Z;
  isActive : bool
}.

Definition maxPenetration : R := 1 / 10.

(** The body of the constructor: every field is taken from the
    configuration or defaulted. *)
Definition build (config : PlatformConfig.t) : t :=
  mk (PlatformConfig.position config)
     (PlatformConfig.width config)
     (PlatformConfig.height config)
     (PlatformConfig.depth config)
     (JS.nullish (PlatformConfig.isMoving config) false)
     (JS.orElse (PlatformConfig.moveSpeed config) 2)
     (JS.orElse (PlatformConfig.moveDistance config) 2)
     (JS.nullish (PlatformConfig.moveAxis config) AxisY)
     (PlatformConfig.position config)
     0
     (Box3.setFromObject (PlatformConfig.position config)
        (PlatformConfig.width config)
        (PlatformConfig.height config)
        (PlatformConfig.depth config))
     (PlatformConfig.position config)
     Vector3.zero
     (JS.nullish (PlatformConfig.type config) NORMAL)
     (JS.orElse (PlatformConfig.boostForce config) (3 / 2))
     (JS.orElse (PlatformConfig.bounceForce config) (3 / 2))
     (JS.orElseZ (PlatformConfig.checkpointIndex config) (-1))
     (JS.nullish (PlatformConfig.isActive config) true).

(** [new Platform(config)].  The constructor has no [throw] statement and no
    validation of its configuration, so it always returns. *)
Definition constructor (config : PlatformConfig.t) : JS.Completion t :=
  JS.Returned (build config).

Definition getVelocity (p : t) : Vector3.t := velocity p.
Definition getType (p : t) : PlatformType := type p.

Definition getPlatformEffect (p : t) : PlatformEffect.t :=
  match type p with
  | BOOST => PlatformEffect.mk (Some (boostForce p)) None None
  | BOUNCE => PlatformEffect.mk None (Some (bounceForce p)) None
  | CHECKPOINT => PlatformEffect.mk None None (Some (checkpointIndex p))
  | _ => PlatformEffect.empty
  end.

(** The distance from coordinate [q] to the nearer of the two faces of a
    slab centred at [c] with extent [s]. *)
Definition faceDistance (c s q : R) : R :=
  Rmin (Rabs (q - (c - s / 2))) (Rabs (q - (c + s / 2))).

Definition calculateCollisionNormal (p : t) (impactPoint : Vector3.t)
  : Vector3.t :=
  let center := Box3.getCenter (boundingBox p) in
  let size := Box3.getSize (boundingBox p) in
  let dx := faceDistance (Vector3.x center) (Vector3.x size)
              (Vector3.x impactPoint) in
  let dy := faceDistance (Vector3.y center) (Vector3.y size)
              (Vector3.y impactPoint) in
  let dz := faceDistance (Vector3.z center) (Vector3.z size)
              (Vector3.z impactPoint) in
  let normal :=
    if JS.ltb dx dy && JS.ltb dx dz then
      Vector3.mk (JS.sign (Vector3.x impactPoint - Vector3.x center)) 0 0
    else if JS.ltb dy dx && JS.ltb dy dz then
      Vector3.mk 0 (JS.sign (Vector3.y impactPoint - Vector3.y center)) 0
    else
      Vector3.mk 0 0 (JS.sign (Vector3.z impactPoint - Vector3.z center)) in
  Vector3.normalize normal.

(** What the specification asks of a contact normal: [n] is the signed unit
    axis of a face of the box that is nearest to [q], going by the face
    distances along each axis. *)
Definition isNearestFaceNormal (p : t) (q n : Vector3.t) : Prop :=
  let center := Box3.getCenter (boundingBox p) in
  let size := Box3.getSize (boundingBox p) in
  let dx := faceDistance (Vector3.x center) (Vector3.x size) (Vector3.x q) in
  let dy := faceDistance (Vector3.y center) (Vector3.y size) (Vector3.y q) in
  let dz := faceDistance (Vector3.z center) (Vector3.z size) (Vector3.z q) in
  exists sgn : R,
    (sgn = 1 \/ sgn = -1)
    /\ ((n = Vector3.mk sgn 0 0
         /\ Rabs (Vector3.x q - (Vector3.x center + sgn * (Vector3.x size / 2)))
            = dx
         /\ dx <= dy /\ dx <= dz)
        \/ (n = Vector3.mk 0 sgn 0
            /\ Rabs (Vector3.y q
                     - (Vector3.y center + sgn * (Vector3.y size / 2)))
               = dy
            /\ dy <= dx /\ dy <= dz)
        \/ (n = Vector3.mk 0 0 sgn
            /\ Rabs (Vector3.z q
                     - (Vector3.z center + sgn * (Vector3.z size / 2)))
               = dz
            /\ dz <= dx /\ dz <= dy)).

(** The contact points at which [calculateCollisionNormal] has one nearest
    axis to select, or selects z as a nearest one, and the point is off the
    centre plane of the box on that axis. *)
Definition selectsNearestFace (p : t) (q : Vector3.t) : Prop :=
  let center := Box3.getCenter (boundingBox p) in
  let size := Box3.getSize (boundingBox p) in
  let dx := faceDistance (Vector3.x center) (Vector3.x size) (Vector3.x q) in
  let dy := faceDistance (Vector3.y center) (Vector3.y size) (Vector3.y q) in
  let dz := faceDistance (Vector3.z center) (Vector3.z size) (Vector3.z q) in
  (dx < dy /\ dx < dz /\ Vector3.x q <> Vector3.x center)
  \/ (dy < dx /\ dy < dz /\ Vector3.y q <> Vector3.y center)
  \/ (dz <= dx /\ dz <= dy /\ Vector3.z q <> Vector3.z center).

Definition calculatePenetration (p : t) (point : Vector3.t) (radius : R)
  (normal : Vector3.t) : R :=
  let center := Box3.getCenter (boundingBox p) in
  let projected := Vector3.dot (Vector3.sub point center) normal in
  let penetration := radius - Rabs projected in
  Rmax 0 penetration.

Definition handlePenetration (p : t) (spherePosition : Vector3.t)
  (sphereRadius : R) : CollisionResult.t :=
  let center := Box3.getCenter (boundingBox p) in
  let normal := Vector3.normalize (Vector3.sub spherePosition center) in
  let penetration := sphereRadius + 1 / 100 in
  CollisionResult.mk true (Some normal) (Some penetration) None
    (Some spherePosition) (Some (type p)) (Some (getPlatformEffect p)).

Definition checkStaticSphereCollision (p : t) (spherePosition : Vector3.t)
  (sphereRadius : R) : CollisionResult.t :=
  let expandedBox := Box3.expandByScalar (boundingBox p) sphereRadius in
  if negb (Box3.containsPoint expandedBox spherePosition) then
    CollisionResult.noCollision
  else
    let normal := calculateCollisionNormal p spherePosition in
    let penetration :=
      calculatePenetration p spherePosition sphereRadius normal in
    CollisionResult.mk true (Some normal)
      (Some (Rmin penetration maxPenetration)) None
      (Some spherePosition) (Some (type p)) (Some (getPlatformEffect p)).

Section Query.

(** The ray/box test that the query calls, [None] for a miss.  The library's
    test is [Ray.intersectBox]; the query is stated for any test. *)
Variable intersectBox : Ray.t -> Box3.t -> option Vector3.t.

Definition checkSphereCollision (p : t) (spherePosition : Vector3.t)
  (sphereRadius : R) (sphereVelocity : Vector3.t) (deltaTime : R)
  : CollisionResult.t :=
  if JS.ltb (Vector3.lengthSq sphereVelocity) (1 / 10000)
     && negb (isMoving p) then
    checkStaticSphereCollision p spherePosition sphereRadius
  else
    let relativeVelocity := Vector3.sub sphereVelocity (velocity p) in
    let spherePath := Vector3.multiplyScalar relativeVelocity deltaTime in
    let sphereStart := spherePosition in
    let expandedBox := Box3.expandByScalar (boundingBox p) sphereRadius in
    (* [spherePath.normalize()] works in place: from here on [spherePath]
       is the direction of the ray. *)
    let spherePath := Vector3.normalize spherePath in
    let ray := Ray.mk sphereStart spherePath in
    match intersectBox ray expandedBox with
    | None =>
        if Box3.containsPoint expandedBox sphereStart then
          handlePenetration p sphereStart sphereRadius
        else CollisionResult.noCollision
    | Some intersectionPoint =>
        let pathLength := Vector3.length spherePath in
        if JS.ltb pathLength (1 / 10000) then CollisionResult.noCollision
        else
          let timeOfImpact :=
            Vector3.distanceTo sphereStart intersectionPoint / pathLength in
          if JS.gtb timeOfImpact 1 || JS.ltb timeOfImpact 0 then
            CollisionResult.noCollision
          else
            let impactPoint := intersectionPoint in
            let normal := calculateCollisionNormal p impactPoint in
            let penetration :=
              calculatePenetration p impactPoint sphereRadius normal in
            CollisionResult.mk true (Some normal)
              (Some (Rmin penetration maxPenetration)) (Some timeOfImpact)
              (Some impactPoint) (Some (type p))
              (Some (getPlatformEffect p))
    end.

End Query.

Definition getPosition (p : t) : Vector3.t := position p.

(** [update(deltaTime)]: the motion of a moving platform.  The colour of the
    material is left out. *)
Definition update (p : t) (deltaTime : R) : t :=
  if negb (isMoving p) then p
  else
    let previousPosition := position p in
    let accumulatedTime := accumulatedTime p + deltaTime in
    let offset := cos (accumulatedTime * moveSpeed p) * moveDistance p in
    let newPosition := initialPosition p in
    let newPosition :=
      match moveAxis p with
      | AxisX => Vector3.with_x newPosition (Vector3.x newPosition + offset)
      | AxisY => Vector3.with_y newPosition (Vector3.y newPosition + offset)
      | AxisZ => Vector3.with_z newPosition (Vector3.z newPosition + offset)
      end in
    let position := Vector3.lerp (position p) newPosition (1 / 10) in
    let velocity :=
      Vector3.divideScalar (Vector3.sub position previousPosition) deltaTime in
    mk position (width p) (height p) (depth p) (isMoving p) (moveSpeed p)
       (moveDistance p) (moveAxis p) (initialPosition p) accumulatedTime
       (Box3.setFromObject position (width p) (height p) (depth p))
       previousPosition velocity (type p) (boostForce p) (bounceForce p)
       (checkpointIndex p) (isActive p).

(** [isPointOnPlatform(point, threshold = 0.1)] *)
Definition isPointOnPlatform (p : t) (point : Vector3.t)
  (threshold : option R) : bool :=
  let threshold := JS.nullish threshold (1 / 10) in
  let position := getPosition p in
  JS.geb (Vector3.x point) (Vector3.x position - width p / 2 - threshold)
  && JS.leb (Vector3.x point) (Vector3.x position + width p / 2 + threshold)
  && JS.geb (Vector3.y point) (Vector3.y position)
  && JS.leb (Vector3.y point) (Vector3.y position + height p + threshold)
  && JS.geb (Vector3.z point) (Vector3.z position - depth p / 2 - threshold)
  && JS.leb (Vector3.z point) (Vector3.z position + depth p / 2 + threshold).

(** The coordinate of a vector along an axis. *)
Definition coordinate (a : MoveAxis) (v : Vector3.t) : R :=
  match a with
  | AxisX => Vector3.x v
  | AxisY => Vector3.y v
  | AxisZ => Vector3.z v
  end.

(** The platform is on the line through its initial position along its move
    axis, at most its move distance away from the initial position. *)
Definition withinTravel (p : t) : Prop :=
  forall a : MoveAxis,
    Rabs (coordinate a (position p) - coordinate a (initialPosition p))
    <= match a, moveAxis p with
       | AxisX, AxisX | AxisY, AxisY | AxisZ, AxisZ => Rabs (moveDistance p)
       | _, _ => 0
       end.

End Platform.

(** The record that the static test and the ray test return for a contact
    at [q]. *)
Definition contactResult (p : Platform.t) (q : Vector3.t) (r : R)
  (toi : option R) : CollisionResult.t :=
  CollisionResult.mk true
    (Some (Platform.calculateCollisionNormal p q))
    (Some (Rmin (Platform.calculatePenetration p q r
                   (Platform.calculateCollisionNormal p q))
             Platform.maxPenetration))
    toi (Some q) (Some (Platform.type p))
    (Some (Platform.getPlatformEffect p)).

(** ** PhysicsService (src/core/services/PhysicsService.ts) *)

(** A sphere mesh: its position and the radius of its geometry. *)
Module SphereMesh.
Record t : Type := mk { position : Vector3.t; radius : R }.
End SphereMesh.

Module PhysicsObject.

Record t : Type := mk {
  mesh : SphereMesh.t;
  velocity : Vector3.t;
  acceleration : Vector3.t;
  mass : R;
  restitution : R;
  friction : R;
  previousPosition : Vector3.t;
  previousVelocity : Vector3.t
}.

Definition position (o : t) : Vector3.t := SphereMesh.position (mesh o).
Definition radius (o : t) : R := SphereMesh.radius (mesh o).

Definition with_position (o : t) (p : Vector3.t) : t :=
  mk (SphereMesh.mk p (radius o)) (velocity o) (acceleration o) (mass o)
     (restitution o) (friction o) (previousPosition o) (previousVelocity o).

Definition with_velocity (o : t) (v : Vector3.t) : t :=
  mk (mesh o) v (acceleration o) (mass o) (restitution o) (friction o)
     (previousPosition o) (previousVelocity o).

End PhysicsObject.

Module PhysicsOptions.
Record t : Type := mk {
  mass : option R;
  restitution : option R;
  friction : option R
}.
End PhysicsOptions.

Module PhysicsConfig.
Record t : Type := mk {
  gravity : R;
  maxVelocity : R;
  minBounceVelocity : R;
  maxPredictionSteps : Z
}.
End PhysicsConfig.

Module PhysicsService.

(** [reported] collects the errors handed to the error service. *)
Record t : Type := mk {
  objects : JS.Map PhysicsObject.t;
  config : PhysicsConfig.t;
  reported : list string
}.

Definition defaultConfig : PhysicsConfig.t := PhysicsConfig.mk 20 30 (1 / 10) 3.

Definition initial : t := mk [] defaultConfig [].

(** Nothing in the [try] block throws, so the [catch] branch that reports
    'Failed to add physics object' is never taken. *)
Definition addObject (id : string) (mesh : SphereMesh.t)
  (options : PhysicsOptions.t) (s : t) : t :=
  let object :=
    PhysicsObject.mk mesh
      (Vector3.mk 0 0 0)
      (Vector3.mk 0 (- PhysicsConfig.gravity (config s)) 0)
      (JS.nullish (PhysicsOptions.mass options) 1)
      (JS.nullish (PhysicsOptions.restitution options) (1 / 2))
      (JS.nullish (PhysicsOptions.friction options) (1 / 5))
      (SphereMesh.position mesh)
      (Vector3.mk 0 0 0) in
  mk (JS.set id object (objects s)) (config s) (reported s).

Section Step.

Variable cfg : PhysicsConfig.t.

Definition updateObject (object : PhysicsObject.t) (deltaTime : R)
  : PhysicsObject.t :=
  let velocity :=
    Vector3.add (PhysicsObject.velocity object)
      (Vector3.multiplyScalar (PhysicsObject.acceleration object) deltaTime) in
  let velocity :=
    if JS.gtb (Vector3.length velocity) (PhysicsConfig.maxVelocity cfg) then
      Vector3.multiplyScalar (Vector3.normalize velocity)
        (PhysicsConfig.maxVelocity cfg)
    else velocity in
  let deltaPosition := Vector3.multiplyScalar velocity deltaTime in
  PhysicsObject.with_position
    (PhysicsObject.with_velocity object velocity)
    (Vector3.add (PhysicsObject.position object) deltaPosition).

(** The floor block of [checkBounds]. *)
Definition checkFloor (object : PhysicsObject.t) : PhysicsObject.t :=
  let position := PhysicsObject.position object in
  let velocity := PhysicsObject.velocity object in
  let radius := PhysicsObject.radius object in
  if JS.ltb (Vector3.y position - radius) 0 then
    let position := Vector3.with_y position radius in
    if JS.gtb (Rabs (Vector3.y velocity))
         (PhysicsConfig.minBounceVelocity cfg) then
      let velocity :=
        Vector3.with_y velocity
          (Rabs (Vector3.y velocity) * PhysicsObject.restitution object) in
      let velocity :=
        Vector3.with_x velocity
          (Vector3.x velocity * (1 - PhysicsObject.friction object)) in
      let velocity :=
        Vector3.with_z velocity
          (Vector3.z velocity * (1 - PhysicsObject.friction object)) in
      PhysicsObject.with_position
        (PhysicsObject.with_velocity object velocity) position
    else
      let velocity := Vector3.with_y velocity 0 in
      let position := Vector3.with_y position radius in
      PhysicsObject.with_position
        (PhysicsObject.with_velocity object velocity) position
  else object.

Definition bounds : R := 10.

(** The x and z blocks of [checkBounds]. *)
Definition checkSides (object : PhysicsObject.t) : PhysicsObject.t :=
  let position := PhysicsObject.position object in
  let velocity := PhysicsObject.velocity object in
  let '(position, velocity) :=
    if JS.gtb (Rabs (Vector3.x position)) bounds then
      (Vector3.with_x position (JS.sign (Vector3.x position) * bounds),
       Vector3.with_x velocity
         (Vector3.x velocity * - PhysicsObject.restitution object))
    else (position, velocity) in
  let '(position, velocity) :=
    if JS.gtb (Rabs (Vector3.z position)) bounds then
      (Vector3.with_z position (JS.sign (Vector3.z position) * bounds),
       Vector3.with_z velocity
         (Vector3.z velocity * - PhysicsObject.restitution object))
    else (position, velocity) in
  PhysicsObject.with_position
    (PhysicsObject.with_velocity object velocity) position.

Definition checkBounds (object : PhysicsObject.t) : PhysicsObject.t :=
  checkSides (checkFloor object).

(** The number of sub-steps [update] computes for an object. *)
Definition subSteps (object : PhysicsObject.t) (deltaTime : R) : Z :=
  Z.min
    (JS.ceil (Vector3.length (PhysicsObject.velocity object) * deltaTime))
    (PhysicsConfig.maxPredictionSteps cfg).

(** [for (let step = 0; step < subSteps; step++)], with [n] iterations
    left. *)
Fixpoint subStepLoop (n : nat) (subDelta : R) (object : PhysicsObject.t)
  : PhysicsObject.t :=
  match n with
  | O => object
  | S n' => subStepLoop n' subDelta (checkBounds (updateObject object subDelta))
  end.

(** The body of the [forEach] callback of [update]. *)
Definition updateOne (deltaTime : R) (object : PhysicsObject.t)
  : PhysicsObject.t :=
  let object :=
    PhysicsObject.mk (PhysicsObject.mesh object)
      (PhysicsObject.velocity object) (PhysicsObject.acceleration object)
      (PhysicsObject.mass object) (PhysicsObject.restitution object)
      (PhysicsObject.friction object)
      (PhysicsObject.position object) (PhysicsObject.velocity object) in
  let subSteps := subSteps object deltaTime in
  let subDelta := deltaTime / IZR subSteps in
  subStepLoop (Z.to_nat subSteps) subDelta object.

End Step.

Definition update (deltaTime : R) (s : t) : t :=
  mk (JS.forEachValue (updateOne (config s) deltaTime) (objects s))
     (config s) (reported s).

(** Hand an error message to the error service. *)
Definition report (message : string) (s : t) : t :=
  mk (objects s) (config s) (reported s ++ [message]).

Definition removeObject (id : string) (s : t) : t :=
  match JS.get id (objects s) with
  | None => report "Object not found for removal" s
  | Some _ => mk (JS.delete id (objects s)) (config s) (reported s)
  end.

Definition getPredictedPosition (id : string) (timeAhead : R) (s : t)
  : option Vector3.t :=
  match JS.get id (objects s) with
  | None => None
  | Some object =>
      let predictedPosition := PhysicsObject.position object in
      let predictedVelocity := PhysicsObject.velocity object in
      let predictedVelocity :=
        Vector3.add predictedVelocity
          (Vector3.multiplyScalar (PhysicsObject.acceleration object)
             timeAhead) in
      Some (Vector3.add predictedPosition
              (Vector3.multiplyScalar predictedVelocity timeAhead))
  end.

(** [applyImpulse(id, force)].  The caller's [force] vector is scaled in
    place as well; callers pass a fresh vector. *)
Definition applyImpulse (id : string) (force : Vector3.t) (s : t) : t :=
  match JS.get id (objects s) with
  | None => report "Object not found" s
  | Some object =>
      let impulse :=
        Vector3.multiplyScalar force (1 / PhysicsObject.mass object) in
      let object :=
        PhysicsObject.with_velocity object
          (Vector3.add (PhysicsObject.velocity object) impulse) in
      mk (JS.set id object (objects s)) (config s) (reported s)
  end.

Definition setGravity (gravity : R) (s : t) : t :=
  let cfg :=
    PhysicsConfig.mk gravity (PhysicsConfig.maxVelocity (config s))
      (PhysicsConfig.minBounceVelocity (config s))
      (PhysicsConfig.maxPredictionSteps (config s)) in
  mk (JS.forEachValue
        (fun object =>
           PhysicsObject.mk (PhysicsObject.mesh object)
             (PhysicsObject.velocity object)
             (Vector3.with_y (PhysicsObject.acceleration object) (- gravity))
             (PhysicsObject.mass object) (PhysicsObject.restitution object)
             (PhysicsObject.friction object)
             (PhysicsObject.previousPosition object)
             (PhysicsObject.previousVelocity object))
        (objects s))
     cfg (reported s).

Definition getVelocity (id : string) (s : t) : option Vector3.t :=
  match JS.get id (objects s) with
  | Some object => Some (PhysicsObject.velocity object)
  | None => None
  end.

Definition resetObject (id : string) (s : t) : t :=
  match JS.get id (objects s) with
  | Some object =>
      let object :=
        PhysicsObject.mk (PhysicsObject.mesh object)
          (Vector3.mk 0 0 0)
          (Vector3.mk 0 (- PhysicsConfig.gravity (config s)) 0)
          (PhysicsObject.mass object) (PhysicsObject.restitution object)
          (PhysicsObject.friction object)
          (PhysicsObject.previousPosition object)
          (PhysicsObject.previousVelocity object) in
      mk (JS.set id object (objects s)) (config s) (reported s)
  | None => s
  end.

(** What a sub-step keeps of a body. *)
Definition sameParameters (a b : PhysicsObject.t) : Prop :=
  PhysicsObject.radius a = PhysicsObject.radius b
  /\ PhysicsObject.acceleration a = PhysicsObject.acceleration b
  /\ PhysicsObject.mass a = PhysicsObject.mass b
  /\ PhysicsObject.restitution a = PhysicsObject.restitution b
  /\ PhysicsObject.friction a = PhysicsObject.friction b
  /\ PhysicsObject.previousPosition a = PhysicsObject.previousPosition b
  /\ PhysicsObject.previousVelocity a = PhysicsObject.previousVelocity b.

End PhysicsService.

(** ** LevelService (src/core/services/LevelService.ts) *)

Module TrackConfig.
Record t : Type := mk {
  width : R;
  length : R;
  gridSize : R;
  lanes : R;
  layers : R
}.
End TrackConfig.

(** A partial track configuration, as [setTrackConfig] takes it. *)
Module PartialTrackConfig.
Record t : Type := mk {
  width : option R;
  length : option R;
  gridSize : option R;
  lanes : option R;
  layers : option R
}.
End PartialTrackConfig.

Module GridPosition.
Record t : Type := mk { lane : R; section : R; layer : R }.
End GridPosition.

Module LevelService.

(** The scene, the grid helper and the race track record are left out. *)
Record t : Type := mk {
  trackConfig : TrackConfig.t;
  platforms : JS.Map Platform.t;
  nextCheckpointIndex : Z
}.

Definition defaultTrackConfig : TrackConfig.t := TrackConfig.mk 20 100 2 10 5.

Definition initial : t := mk defaultTrackConfig [] 0.

Definition gridToWorld (s : t) (gridPos : GridPosition.t) : Vector3.t :=
  let c := trackConfig s in
  let x :=
    (GridPosition.lane gridPos - TrackConfig.lanes c / 2)
    * TrackConfig.gridSize c in
  let y := GridPosition.layer gridPos * TrackConfig.gridSize c in
  let z := - GridPosition.section gridPos * TrackConfig.gridSize c in
  Vector3.mk x y z.

Definition worldToGrid (s : t) (worldPos : Vector3.t) : GridPosition.t :=
  let c := trackConfig s in
  GridPosition.mk
    (IZR (JS.round (Vector3.x worldPos / TrackConfig.gridSize c
                    + TrackConfig.lanes c / 2)))
    (IZR (JS.round (- Vector3.z worldPos / TrackConfig.gridSize c)))
    (IZR (JS.round (Vector3.y worldPos / TrackConfig.gridSize c))).

(** Nothing in the [try] block of [addPlatform] throws. *)
Definition addPlatform (id : string) (platform : Platform.t) (s : t) : t :=
  mk (trackConfig s) (JS.set id platform (platforms s)) (nextCheckpointIndex s).

Definition removePlatform (id : string) (s : t) : t :=
  match JS.get id (platforms s) with
  | Some _ =>
      mk (trackConfig s) (JS.delete id (platforms s)) (nextCheckpointIndex s)
  | None => s
  end.

Definition updatePlatforms (deltaTime : R) (s : t) : t :=
  mk (trackConfig s)
     (JS.forEachValue (fun platform => Platform.update platform deltaTime)
        (platforms s))
     (nextCheckpointIndex s).

Definition getTrackConfig (s : t) : TrackConfig.t := trackConfig s.

Definition setTrackConfig (config : PartialTrackConfig.t) (s : t) : t :=
  let c := trackConfig s in
  mk (TrackConfig.mk
        (JS.nullish (PartialTrackConfig.width config) (TrackConfig.width c))
        (JS.nullish (PartialTrackConfig.length config) (TrackConfig.length c))
        (JS.nullish (PartialTrackConfig.gridSize config)
           (TrackConfig.gridSize c))
        (JS.nullish (PartialTrackConfig.lanes config) (TrackConfig.lanes c))
        (JS.nullish (PartialTrackConfig.layers config) (TrackConfig.layers c)))
     (platforms s) (nextCheckpointIndex s).

Definition getPlatforms (s : t) : JS.Map Platform.t := platforms s.

Definition isPointOnPlatform (s : t) (point : Vector3.t) : bool :=
  existsb (fun platform => Platform.isPointOnPlatform platform point None)
    (JS.values (platforms s)).

(** [constrainPosition(position)] writes into [position] and returns that
    same vector. *)
Definition constrainPosition (s : t) (position : Vector3.t) : Vector3.t :=
  let c := trackConfig s in
  let halfWidth := TrackConfig.width c / 2 in
  let position :=
    Vector3.with_x position
      (Rmax (- halfWidth) (Rmin halfWidth (Vector3.x position))) in
  let position := Vector3.with_y position (Rmax 0 (Vector3.y position)) in
  let position :=
    Vector3.with_z position
      (Rmax (- TrackConfig.length c) (Rmin 0 (Vector3.z position))) in
  position.

Definition getTrackProgress (s : t) (position : Vector3.t) : R :=
  Rabs (Vector3.z position) / TrackConfig.length (trackConfig s).

Definition dispose (s : t) : t :=
  mk (trackConfig s) [] (nextCheckpointIndex s).

End LevelService.

(** ** InputService (src/core/services/InputService.ts) *)

Module InputState.
Record t : Type := mk {
  left : bool;
  right : bool;
  up : bool;
  down : bool;
  jump : bool
}.

Definition released : t := mk false false false false false.
End InputState.

Inductive InputAction : Type :=
| ActionLeft | ActionRight | ActionUp | ActionDown | ActionJump.

Module KeyBindings.
Record t : Type := mk {
  left : list string;
  right : list string;
  up : list string;
  down : list string;
  jump : list string
}.
End KeyBindings.

Module PartialKeyBindings.
Record t : Type := mk {
  left : option (list string);
  right : option (list string);
  up : option (list string);
  down : option (list string);
  jump : option (list string)
}.
End PartialKeyBindings.

Module InputService.

Record t : Type := mk {
  state : InputState.t;
  keyBindings : KeyBindings.t;
  isEnabled : bool;
  isEditorModalOpen : bool
}.

Definition defaultKeyBindings : KeyBindings.t :=
  KeyBindings.mk
    ["ArrowLeft"; "a"; "A"]%string
    ["ArrowRight"; "d"; "D"]%string
    ["ArrowUp"; "w"; "W"]%string
    ["ArrowDown"; "s"; "S"]%string
    ["Space"; " "]%string.

Definition initial : t :=
  mk InputState.released defaultKeyBindings false false.

(** [keys.includes(key)] *)
Definition includes (key : string) (keys : list string) : bool :=
  existsb (String.eqb key) keys.

Definition updateState (key : string) (isDown : bool) (s : t) : t :=
  let b := keyBindings s in
  let st := state s in
  mk (InputState.mk
        (if includes key (KeyBindings.left b) then isDown
         else InputState.left st)
        (if includes key (KeyBindings.right b) then isDown
         else InputState.right st)
        (if includes key (KeyBindings.up b) then isDown
         else InputState.up st)
        (if includes key (KeyBindings.down b) then isDown
         else InputState.down st)
        (if includes key (KeyBindings.jump b) then isDown
         else InputState.jump st))
     b (isEnabled s) (isEditorModalOpen s).

Definition resetState (s : t) : t :=
  mk InputState.released (keyBindings s) (isEnabled s) (isEditorModalOpen s).

Definition enable (s : t) : t :=
  if isEnabled s then s
  else mk (state s) (keyBindings s) true (isEditorModalOpen s).

Definition disable (s : t) : t :=
  if negb (isEnabled s) then s
  else resetState (mk (state s) (keyBindings s) false (isEditorModalOpen s)).

Definition setEditorModalOpen (isOpen : bool) (s : t) : t :=
  let s := mk (state s) (keyBindings s) (isEnabled s) isOpen in
  if isOpen then resetState s else s.

Definition isGameControl (key : string) (s : t) : bool :=
  let b := keyBindings s in
  includes key (KeyBindings.left b)
  || includes key (KeyBindings.right b)
  || includes key (KeyBindings.up b)
  || includes key (KeyBindings.down b)
  || includes key (KeyBindings.jump b).

(** [handleKeyDown(event)] for an event with the given [key].  The call of
    [event.preventDefault()] is left out. *)
Definition handleKeyDown (key : string) (s : t) : t :=
  if isEditorModalOpen s then s else updateState key true s.

Definition handleKeyUp (key : string) (s : t) : t :=
  if isEditorModalOpen s then s else updateState key false s.

(** A key event on the window: the handlers are registered only while the
    service is enabled. *)
Definition keydown (key : string) (s : t) : t :=
  if isEnabled s then handleKeyDown key s else s.

Definition keyup (key : string) (s : t) : t :=
  if isEnabled s then handleKeyUp key s else s.

Definition getState (s : t) : InputState.t :=
  if isEditorModalOpen s then InputState.released else state s.

Definition isActive (input : InputAction) (s : t) : bool :=
  if isEditorModalOpen s then false
  else
    match input with
    | ActionLeft => InputState.left (state s)
    | ActionRight => InputState.right (state s)
    | ActionUp => InputState.up (state s)
    | ActionDown => InputState.down (state s)
    | ActionJump => InputState.jump (state s)
    end.

Definition updateKeyBindings (newBindings : PartialKeyBindings.t) (s : t) : t :=
  let b := keyBindings s in
  mk (state s)
     (KeyBindings.mk
        (JS.nullish (PartialKeyBindings.left newBindings) (KeyBindings.left b))
        (JS.nullish (PartialKeyBindings.right newBindings)
           (KeyBindings.right b))
        (JS.nullish (PartialKeyBindings.up newBindings) (KeyBindings.up b))
        (JS.nullish (PartialKeyBindings.down newBindings) (KeyBindings.down b))
        (JS.nullish (PartialKeyBindings.jump newBindings) (KeyBindings.jump b)))
     (isEnabled s) (isEditorModalOpen s).

Definition dispose (s : t) : t := disable s.

(** [this.config.keyBindings[action]] *)
Definition bindingsFor (input : InputAction) (b : KeyBindings.t)
  : list string :=
  match input with
  | ActionLeft => KeyBindings.left b
  | ActionRight => KeyBindings.right b
  | ActionUp => KeyBindings.up b
  | ActionDown => KeyBindings.down b
  | ActionJump => KeyBindings.jump b
  end.

(** What can happen to the service: a call of one of its public methods, or
    a key event on the window. *)
Inductive Event : Type :=
| Enable
| Disable
| SetEditorModalOpen (isOpen : bool)
| KeyDown (key : string)
| KeyUp (key : string)
| UpdateKeyBindings (newBindings : PartialKeyBindings.t)
| Dispose.

Definition step (s : t) (e : Event) : t :=
  match e with
  | Enable => enable s
  | Disable => disable s
  | SetEditorModalOpen isOpen => setEditorModalOpen isOpen s
  | KeyDown key => keydown key s
  | KeyUp key => keyup key s
  | UpdateKeyBindings newBindings => updateKeyBindings newBindings s
  | Dispose => dispose s
  end.

Definition run (events : list Event) (s : t) : t := fold_left step events s.

End InputService.

(** ** DebugService (src/core/services/DebugService.ts) *)

Module DebugService.

Section Logs.

(** The type of the optional [data] of a log entry. *)
Variable Data : Type.

Record Entry : Type := mkEntry {
  timestamp : R;
  component : string;
  message : string;
  data : option Data
}.

Record t : Type := mk {
  logs : list Entry;
  startTime : R
}.

Definition maxLogs : nat := 1000.

(** [log(component, message, data)] at clock reading [now].  The output to
    the console is left out. *)
Definition log (now : R) (component message : string) (data : option Data)
  (s : t) : t :=
  let logs := logs s ++ [mkEntry (now - startTime s) component message data] in
  let logs := if (maxLogs <? List.length logs)%nat then List.tl logs else logs in
  mk logs (startTime s).

(** [new DebugService()] at clock reading [now]; the entry is logged at the
    later reading [now']. *)
Definition create (now now' : R) : t :=
  log now' "DebugService" "Debug service initialized" None (mk [] now).

Definition getLogs (s : t) : list Entry := logs s.

Definition getComponentLogs (component' : string) (s : t) : list Entry :=
  List.filter (fun entry => String.eqb (component entry) component') (logs s).

Definition clearLogs (now now' : R) (s : t) : t :=
  log now' "DebugService" "Logs cleared" None (mk [] now).

End Logs.

End DebugService.

(** ** ErrorService (src/core/services/ErrorService.ts) *)

Inductive ErrorSeverity : Type := LOW | MEDIUM | HIGH | CRITICAL.

Module GameEngineError.
Record t : Type := mk {
  message : string;
  component : string;
  action : string;
  timestamp : string;
  severity : ErrorSeverity
}.
End GameEngineError.

Module ErrorService.

Record t : Type := mk { errors : list GameEngineError.t }.

Definition maxStoredErrors : nat := 100.

Definition initial : t := mk [].

(** [handleError(error)].  The console output, the recovery stubs and the
    report of a critical error change no state. *)
Definition handleError (error : GameEngineError.t) (s : t) : t :=
  let errors := errors s ++ [error] in
  let errors :=
    if (maxStoredErrors <? List.length errors)%nat then List.tl errors
    else errors in
  mk errors.

Definition createUserMessage (error : GameEngineError.t) : string :=
  match GameEngineError.severity error with
  | LOW => "A minor issue occurred. You can continue playing."
  | MEDIUM =>
      "We encountered an issue. Some features might be temporarily unavailable."
  | HIGH => "We encountered a problem. The game will attempt to recover."
  | CRITICAL =>
      "An unexpected error occurred. Please save your progress and restart the game."
  end.

Definition getErrors (s : t) : list GameEngineError.t := errors s.

Definition clearErrors (s : t) : t := mk [].

End ErrorService.

(** ** GameEngine (src/core/GameEngine.ts) *)

(** The engine's own record of a physics object: the shared mesh, and a
    velocity vector and restitution of the engine's own. *)
Module EngineObject.

Record t : Type := mk {
  mesh : SphereMesh.t;
  velocity : Vector3.t;
  restitution : R
}.

Definition position (o : t) : Vector3.t := SphereMesh.position (mesh o).
Definition radius (o : t) : R := SphereMesh.radius (mesh o).

End EngineObject.

(** Calls that the collision handling makes on other objects. *)
Inductive Receiver : Type :=
| DebugServiceObject
| PlatformObject
| LevelServiceObject.

Record Call : Type := mkCall {
  receiver : Receiver;
  method : string;
  arguments : list R
}.

(** A call that is not made on the level service. *)
Definition notLevelCall (c : Call) : Prop := receiver c <> LevelServiceObject.

Module GameEngine.

Definition fixedTimeStep : R := 1 / 60.

(** *** The fixed-step loop *)

Record Loop (World : Type) : Type := mkLoop {
  isRunning : bool;
  lastFrameTime : R;
  accumulator : R;
  frameCount : Z;
  world : World
}.
Arguments mkLoop {World}.
Arguments isRunning {World}.
Arguments lastFrameTime {World}.
Arguments accumulator {World}.
Arguments frameCount {World}.
Arguments world {World}.

Section Loop.

Variable World : Type.

(** What [update] does with the capped time step: platforms, input,
    physics and collisions. *)
Variable step : R -> World -> World.

Definition update (deltaTime : R) (w : World) : World :=
  let cappedDeltaTime := Rmin deltaTime (1 / 10) in
  step cappedDeltaTime w.

(** [while (accumulator >= fixedTimeStep)], with [fuel] bounding the number
    of iterations. *)
Fixpoint drain (fuel : nat) (accumulator : R) (w : World)
  : option (R * World) :=
  if JS.geb accumulator fixedTimeStep then
    match fuel with
    | O => None
    | S fuel' =>
        drain fuel' (accumulator - fixedTimeStep) (update fixedTimeStep w)
    end
  else Some (accumulator, w).

(** One call of [gameLoop] at clock reading [currentTime] (milliseconds). *)
Definition gameLoop (fuel : nat) (currentTime : R) (s : Loop World)
  : option (Loop World) :=
  if negb (isRunning s) then Some s
  else
    let deltaTime := (currentTime - lastFrameTime s) / 1000 in
    let accumulator := accumulator s + deltaTime in
    match drain fuel accumulator (world s) with
    | None => None
    | Some (accumulator, w) =>
        Some (mkLoop true currentTime accumulator (frameCount s + 1) w)
    end.

End Loop.

(** *** Collision handling in [update] *)

Record Response : Type := mkResponse {
  object : EngineObject.t;
  isOnPlatform : bool;
  calls : list Call
}.

Definition logCall (message : string) (force : R) (velocity : Vector3.t)
  : Call :=
  mkCall DebugServiceObject message
    [force; Vector3.x velocity; Vector3.y velocity; Vector3.z velocity].

(** The platform-specific effects. *)
Definition applyEffects (effect : option PlatformEffect.t)
  (velocity : Vector3.t) (calls : list Call) : Vector3.t * list Call :=
  match effect with
  | None => (velocity, calls)
  | Some e =>
      let boostForce := PlatformEffect.boostForce e in
      let bounceForce := PlatformEffect.bounceForce e in
      let '(velocity, calls) :=
        match boostForce with
        | Some force =>
            if JS.truthy boostForce then
              let moveDir := Vector3.normalize velocity in
              let velocity :=
                Vector3.add velocity
                  (Vector3.multiplyScalar moveDir (force * 10)) in
              (velocity, calls ++ [logCall "Boost applied" force velocity])
            else (velocity, calls)
        | None => (velocity, calls)
        end in
      match bounceForce with
      | Some force =>
          if JS.truthy bounceForce then
            let velocity :=
              Vector3.with_y velocity
                (Rabs (Vector3.y velocity) * force * 2) in
            (velocity, calls ++ [logCall "Bounce applied" force velocity])
          else (velocity, calls)
      | None => (velocity, calls)
      end
  end.

(** The reflection block, taken when the object moves into the surface. *)
Definition reflect (platform : Platform.t) (normal : Vector3.t)
  (penetration : option R) (isOnPlatform : bool) (dot : R)
  (o : EngineObject.t) (calls : list Call) : EngineObject.t * list Call :=
  let velocity := EngineObject.velocity o in
  let reflection := Vector3.multiplyScalar normal (-2 * dot) in
  let velocity := Vector3.add velocity reflection in
  let velocity := Vector3.multiplyScalar velocity (EngineObject.restitution o) in
  let position :=
    match penetration with
    | Some depth =>
        if JS.truthy penetration then
          Vector3.add (EngineObject.position o)
            (Vector3.multiplyScalar normal depth)
        else EngineObject.position o
    | None => EngineObject.position o
    end in
  let platformVel := Platform.getVelocity platform in
  let calls := calls ++ [mkCall PlatformObject "getVelocity" []] in
  let velocity :=
    if JS.gtb (Vector3.length platformVel) 0 then
      Vector3.add velocity (Vector3.multiplyScalar platformVel (8 / 10))
    else velocity in
  let velocity :=
    if isOnPlatform then
      Vector3.with_z
        (Vector3.with_x velocity (Vector3.x velocity * (8 / 10)))
        (Vector3.z velocity * (8 / 10))
    else velocity in
  (EngineObject.mk (SphereMesh.mk position (EngineObject.radius o)) velocity
     (EngineObject.restitution o),
   calls).

(** The body of [platforms.forEach] once the collision is known. *)
Definition handleCollision (platform : Platform.t)
  (collision : CollisionResult.t) (st : Response) : Response :=
  match CollisionResult.collides collision, CollisionResult.normal collision with
  | true, Some normal =>
      let isOnPlatform := JS.gtb (Vector3.y normal) (1 / 2) in
      let o := object st in
      let '(velocity, calls) :=
        applyEffects (CollisionResult.platformEffect collision)
          (EngineObject.velocity o) (calls st) in
      let o := EngineObject.mk (EngineObject.mesh o) velocity
                 (EngineObject.restitution o) in
      let dot := Vector3.dot velocity normal in
      if JS.ltb dot 0 then
        let '(o, calls) :=
          reflect platform normal (CollisionResult.penetration collision)
            isOnPlatform dot o calls in
        mkResponse o isOnPlatform calls
      else mkResponse o isOnPlatform calls
  | _, _ => st
  end.

Section Collisions.

Variable intersectBox : Ray.t -> Box3.t -> option Vector3.t.

(** The platform loop of [update] for one object.  Every query uses the
    position cloned before the loop and the current velocity. *)
Definition resolveCollisions (platforms : JS.Map Platform.t)
  (cappedDeltaTime : R) (o : EngineObject.t) : Response :=
  let position := EngineObject.position o in
  let radius := EngineObject.radius o in
  fold_left
    (fun st platform =>
       let collision :=
         Platform.checkSphereCollision intersectBox platform position radius
           (EngineObject.velocity (object st)) cappedDeltaTime in
       handleCollision platform collision st)
    (JS.values platforms)
    (mkResponse o false []).

End Collisions.

(** What the specification asks of the calls made while a checkpoint
    collision is handled: one of them hands the checkpoint index [k] to the
    level service. *)
Definition notifiesCheckpoint (k : Z) (cs : list Call) : Prop :=
  exists c : Call,
    In c cs /\ receiver c = LevelServiceObject /\ In (IZR k) (arguments c).

(** *** Input handling in [update] *)

Definition moveForce : R := 5.
Definition jumpForce : R := 5.
Definition airControl : R := 3 / 10.

Section Input.

Variable intersectBox : Ray.t -> Box3.t -> option Vector3.t.

(** The grounded test of [handleInput]. *)
Definition isGrounded (platforms : JS.Map Platform.t) (deltaTime : R)
  (playerBall : EngineObject.t) : bool :=
  let position := EngineObject.position playerBall in
  let radius := EngineObject.radius playerBall in
  if JS.leb (Vector3.y position) (radius + 1 / 10) then true
  else
    fold_left
      (fun isGrounded platform =>
         let collision :=
           Platform.checkSphereCollision intersectBox platform position radius
             (EngineObject.velocity playerBall) deltaTime in
         match CollisionResult.collides collision,
               CollisionResult.normal collision with
         | true, Some normal =>
             if JS.gtb (Vector3.y normal) (1 / 2) then true else isGrounded
         | _, _ => isGrounded
         end)
      (JS.values platforms) false.

(** [handleInput(deltaTime)]: the impulses go to the physics service. *)
Definition handleInput (platforms : JS.Map Platform.t) (input : InputState.t)
  (deltaTime : R) (objects : JS.Map EngineObject.t)
  (physics : PhysicsService.t) : PhysicsService.t :=
  let moveForce := moveForce * deltaTime in
  match JS.get "player-ball" objects with
  | None => physics
  | Some playerBall =>
      let isGrounded := isGrounded platforms deltaTime playerBall in
      let controlMultiplier := if isGrounded then 1 else airControl in
      let physics :=
        if InputState.left input then
          PhysicsService.applyImpulse "player-ball"
            (Vector3.mk (- moveForce * controlMultiplier) 0 0) physics
        else physics in
      let physics :=
        if InputState.right input then
          PhysicsService.applyImpulse "player-ball"
            (Vector3.mk (moveForce * controlMultiplier) 0 0) physics
        else physics in
      let physics :=
        if InputState.up input then
          PhysicsService.applyImpulse "player-ball"
            (Vector3.mk 0 0 (- moveForce * controlMultiplier)) physics
        else physics in
      let physics :=
        if InputState.down input then
          PhysicsService.applyImpulse "player-ball"
            (Vector3.mk 0 0 (moveForce * controlMultiplier)) physics
        else physics in
      if InputState.jump input && isGrounded then
        PhysicsService.applyImpulse "player-ball"
          (Vector3.mk 0 jumpForce 0) physics
      else physics
  end.

(** The level-bounds block that follows the platform loop.  [position] is
    the vector cloned before the loop; [constrainPosition] writes into it and
    returns that same vector, so the comparisons that follow compare the
    constrained vector with itself. *)
Definition constrainToLevel (level : LevelService.t) (position : Vector3.t)
  (o : EngineObject.t) : EngineObject.t :=
  let constrainedPosition := LevelService.constrainPosition level position in
  let position := constrainedPosition in
  if negb (Vector3.equals position constrainedPosition) then
    let velocity := EngineObject.velocity o in
    let velocity :=
      if Req_dec_T (Vector3.x position) (Vector3.x constrainedPosition)
      then velocity
      else Vector3.with_x velocity
             (Vector3.x velocity * - EngineObject.restitution o) in
    let velocity :=
      if Req_dec_T (Vector3.y position) (Vector3.y constrainedPosition)
      then velocity
      else Vector3.with_y velocity
             (Vector3.y velocity * - EngineObject.restitution o) in
    let velocity :=
      if Req_dec_T (Vector3.z position) (Vector3.z constrainedPosition)
      then velocity
      else Vector3.with_z velocity
             (Vector3.z velocity * - EngineObject.restitution o) in
    EngineObject.mk
      (SphereMesh.mk constrainedPosition (EngineObject.radius o))
      velocity (EngineObject.restitution o)
  else o.

(** The body of [this.objects.forEach] in [update]: the platform loop and
    the level-bounds block. *)
Definition collideObject (level : LevelService.t) (cappedDeltaTime : R)
  (o : EngineObject.t) : Response :=
  let position := EngineObject.position o in
  let st :=
    resolveCollisions intersectBox (LevelService.getPlatforms level)
      cappedDeltaTime o in
  mkResponse (constrainToLevel level position (object st))
    (isOnPlatform st) (calls st).

End Input.

(** The engine's part of [addPhysicsObject]: the object is tracked with a
    velocity of its own, initially zero. *)
Definition trackObject (id : string) (mesh : SphereMesh.t)
  (options : PhysicsOptions.t) (objects : JS.Map EngineObject.t)
  : JS.Map EngineObject.t :=
  JS.set id
    (EngineObject.mk mesh (Vector3.mk 0 0 0)
       (JS.nullish (PhysicsOptions.restitution options) (1 / 2)))
    objects.


End GameEngine.

(** ** TrackEditorService.validateTrack (src/core/services/TrackEditorService.ts) *)

Module TrackEditorService.

Record Tally : Type := mkTally {
  hasStart : bool;
  hasFinish : bool;
  checkpoints : list string
}.

Definition visit (acc : Tally) (entry : string * Platform.t) : Tally :=
  match Platform.getType (snd entry) with
  | START => mkTally true (hasFinish acc) (checkpoints acc)
  | FINISH => mkTally (hasStart acc) true (checkpoints acc)
  | CHECKPOINT =>
      mkTally (hasStart acc) (hasFinish acc) (checkpoints acc ++ [fst entry])
  | _ => acc
  end.

Definition validateTrack (platforms : JS.Map Platform.t) : bool :=
  let tally := fold_left visit platforms (mkTally false false []) in
  hasStart tally && hasFinish tally
  && (0 <? List.length (checkpoints tally))%nat.

(** The number of platforms of a given type in the set. *)
Definition countType (ty : PlatformType) (platforms : JS.Map Platform.t) : nat :=
  List.length
    (List.filter
       (fun entry =>
          match Platform.getType (snd entry), ty with
          | NORMAL, NORMAL | START, START | FINISH, FINISH
          | CHECKPOINT, CHECKPOINT | BOOST, BOOST | OBSTACLE, OBSTACLE
          | BOUNCE, BOUNCE => true
          | _, _ => false
          end)
       platforms).

(** Validity as the specification words it: exactly one start, at least one
    finish, at least one checkpoint. *)
Definition specValid (platforms : JS.Map Platform.t) : Prop :=
  countType START platforms = 1%nat
  /\ (1 <= countType FINISH platforms)%nat
  /\ (1 <= countType CHECKPOINT platforms)%nat.

(** *** Platform editing *)

Inductive EditorMode : Type := PLACE | EDIT | DELETE.

Record EditorState : Type := mkEditorState {
  mode : EditorMode;
  selectedPlatformType : PlatformType;
  selectedPlatform : option string;
  isModified : bool
}.

(** [sceneReady] tells whether [initialize] has given the service a scene;
    [reported] collects the errors handed to the error service. *)
Record t : Type := mk {
  sceneReady : bool;
  state : EditorState;
  nextPlatformId : nat;
  reported : list string
}.

Definition initialState : EditorState := mkEditorState PLACE NORMAL None false.

Definition initial : t := mk false initialState 0 [].

Definition initialize (s : t) : t :=
  mk true (state s) (nextPlatformId s) (reported s).

Definition setMode (m : EditorMode) (s : t) : t :=
  mk (sceneReady s)
     (mkEditorState m (selectedPlatformType (state s))
        (selectedPlatform (state s)) (isModified (state s)))
     (nextPlatformId s) (reported s).

Definition setSelectedPlatformType (ty : PlatformType) (s : t) : t :=
  mk (sceneReady s)
     (mkEditorState (mode (state s)) ty (selectedPlatform (state s))
        (isModified (state s)))
     (nextPlatformId s) (reported s).

Definition setModified (b : bool) (s : t) : t :=
  mk (sceneReady s)
     (mkEditorState (mode (state s)) (selectedPlatformType (state s))
        (selectedPlatform (state s)) b)
     (nextPlatformId s) (reported s).

(** The identifier [`platform_${n}`]. *)
Definition platformId (n : nat) : string := "platform_" ++ JS.numberText n.

(** The configuration of a platform that the editor places. *)
Definition placedConfig (position : Vector3.t) (ty : PlatformType)
  : PlatformConfig.t :=
  PlatformConfig.mk 3 3 (1 / 2) position None None None None (Some ty)
    None None None None.

Definition createPlatform (position : Vector3.t) (s : t)
  (level : LevelService.t) : t * LevelService.t :=
  if negb (sceneReady s) then
    (mk (sceneReady s) (state s) (nextPlatformId s)
       (reported s ++ ["Scene not initialized"%string]),
     level)
  else
    let id := platformId (nextPlatformId s) in
    let s := mk (sceneReady s) (state s) (S (nextPlatformId s)) (reported s) in
    match
      Platform.constructor
        (placedConfig position (selectedPlatformType (state s)))
    with
    | JS.Returned platform =>
        (setModified true s, LevelService.addPlatform id platform level)
    | JS.Thrown _ =>
        (mk (sceneReady s) (state s) (nextPlatformId s)
           (reported s ++ ["Failed to create platform"%string]),
         level)
    end.

Definition deletePlatform (id : string) (s : t) (level : LevelService.t)
  : t * LevelService.t :=
  if negb (sceneReady s) then (s, level)
  else
    let level := LevelService.removePlatform id level in
    let selected :=
      match selectedPlatform (state s) with
      | Some sel => if String.eqb sel id then None else Some sel
      | None => None
      end in
    (mk (sceneReady s)
       (mkEditorState (mode (state s)) (selectedPlatformType (state s))
          selected true)
       (nextPlatformId s) (reported s),
     level).

Definition getState (s : t) : EditorState := state s.

Definition dispose (s : t) : t :=
  mk false initialState (nextPlatformId s) (reported s).

End TrackEditorService.

(** ** EditorGameEngine (src/core/EditorGameEngine.ts) *)

Module EditorGameEngine.

(** The camera position and the state of the editor controls. *)
Record t : Type := mk {
  isEditorMode : bool;
  cameraPosition : Vector3.t;
  isDragging : bool;
  previousMouseX : R;
  previousMouseY : R
}.

(** The camera part of [setEditorMode]. *)
Definition setEditorMode (enabled : bool) (s : t) : t :=
  mk enabled
     (if enabled then Vector3.mk 0 15 20 else Vector3.mk 0 10 15)
     (isDragging s) (previousMouseX s) (previousMouseY s).

(** [handleEditorMouseDown] for the middle button; the clicks of the other
    buttons go to the track editor and leave this state as it is. *)
Definition handleEditorMouseDown (button : Z) (clientX clientY : R) (s : t)
  : t :=
  if negb (isEditorMode s) then s
  else if Z.eqb button 1 then
    mk (isEditorMode s) (cameraPosition s) true clientX clientY
  else s.

Definition handleEditorMouseMove (clientX clientY : R) (s : t) : t :=
  if negb (isEditorMode s) || negb (isDragging s) then s
  else
    let deltaX := clientX - previousMouseX s in
    let deltaY := clientY - previousMouseY s in
    let rotationSpeed := 1 / 100 in
    let position := cameraPosition s in
    let position :=
      Vector3.with_x position
        (Vector3.x position * cos (deltaX * rotationSpeed)
         - Vector3.z position * sin (deltaX * rotationSpeed)) in
    let position :=
      Vector3.with_z position
        (Vector3.x position * sin (deltaX * rotationSpeed)
         + Vector3.z position * cos (deltaX * rotationSpeed)) in
    let position :=
      Vector3.with_y position
        (Rmax 5 (Rmin 30 (Vector3.y position - deltaY * (1 / 10)))) in
    mk (isEditorMode s) position (isDragging s) clientX clientY.

Definition handleEditorMouseUp (s : t) : t :=
  mk (isEditorMode s) (cameraPosition s) false
     (previousMouseX s) (previousMouseY s).

Definition handleEditorWheel (deltaY : R) (s : t) : t :=
  if negb (isEditorMode s) then s
  else
    let zoomSpeed := 1 / 1000 in
    let distance := Vector3.length (cameraPosition s) in
    let delta := deltaY * zoomSpeed * distance in
    let direction := Vector3.normalize (cameraPosition s) in
    let newDistance := Rmax 5 (Rmin 40 (distance + delta)) in
    mk (isEditorMode s) (Vector3.multiplyScalar direction newDistance)
       (isDragging s) (previousMouseX s) (previousMouseY s).

End EditorGameEngine.

(** ** Sample data *)

Module Examples.

(** The player ball as the application creates it. *)
Definition ball : SphereMesh.t := SphereMesh.mk (Vector3.mk 0 5 0) (1 / 2).

Definition ballOptions : PhysicsOptions.t :=
  PhysicsOptions.mk (Some 1) (Some (7 / 10)) (Some (1 / 10)).

Definition serviceWithBall : PhysicsService.t :=
  PhysicsService.addObject "player-ball" ball ballOptions
    PhysicsService.initial.

(** The physics object that [addObject] creates for the ball. *)
Definition restingBall : PhysicsObject.t :=
  PhysicsObject.mk ball (Vector3.mk 0 0 0)
    (Vector3.mk 0 (- PhysicsConfig.gravity PhysicsService.defaultConfig) 0)
    1 (7 / 10) (1 / 10) (Vector3.mk 0 5 0) (Vector3.mk 0 0 0).

(** A ball whose lower extent is below the floor after integration. *)
Definition sinking : PhysicsObject.t :=
  PhysicsObject.mk (SphereMesh.mk (Vector3.mk 0 (1 / 5) 0) (1 / 2))
    (Vector3.mk 1 (-2) 3) (Vector3.mk 0 (-20) 0) 1 (7 / 10) (1 / 10)
    (Vector3.mk 0 (1 / 4) 0) (Vector3.mk 1 (-2) 3).

(** A falling ball. *)
Definition falling : PhysicsObject.t :=
  PhysicsObject.mk ball (Vector3.mk 0 (-3) 0) (Vector3.mk 0 (-20) 0) 1
    (7 / 10) (1 / 10) (Vector3.mk 0 5 0) (Vector3.mk 0 0 0).

Definition serviceWithFalling : PhysicsService.t :=
  PhysicsService.mk [("player-ball"%string, falling)]
    PhysicsService.defaultConfig [].

(** A static slab of a given type: 4 wide, 1 high, 4 deep, centred at the
    origin. *)
Definition slabConfig (ty : PlatformType) : PlatformConfig.t :=
  PlatformConfig.mk 4 4 1 (Vector3.mk 0 0 0) None None None None
    (Some ty) None None None None.

Definition slab (ty : PlatformType) : Platform.t :=
  Platform.build (slabConfig ty).

(** The engine's record of a ball of radius [1/2] and restitution [7/10]. *)
Definition engineBall (position velocity : Vector3.t) : EngineObject.t :=
  EngineObject.mk (SphereMesh.mk position (1 / 2)) velocity (7 / 10).

(** The checkpoint of the test track: [checkpointIndex: 0] at grid position
    lane 5, section 15, layer 1. *)
Definition checkpoint1Config : PlatformConfig.t :=
  PlatformConfig.mk 4 2 (1 / 2) (Vector3.mk 0 2 (-30)) None None None None
    (Some CHECKPOINT) None None (Some 0%Z) None.

Definition checkpoint1 : Platform.t := Platform.build checkpoint1Config.

(** A platform as the track editor creates it, of a given type. *)
Definition editorConfig (ty : PlatformType) : PlatformConfig.t :=
  PlatformConfig.mk 3 3 (1 / 2) (Vector3.mk 0 0 0) None None None None
    (Some ty) None None None None.

Definition editorPlatform (ty : PlatformType) : Platform.t :=
  Platform.build (editorConfig ty).

(** A track with two start platforms, a finish and a checkpoint. *)
Definition twoStarts : JS.Map Platform.t :=
  [("platform_0"%string, editorPlatform START);
   ("platform_1"%string, editorPlatform START);
   ("platform_2"%string, editorPlatform FINISH);
   ("platform_3"%string, editorPlatform CHECKPOINT)].

(** A configuration with a zero width and a negative height. *)
Definition flatConfig : PlatformConfig.t :=
  PlatformConfig.mk 0 3 (-1) (Vector3.mk 0 0 0) None None None None
    None None None None None.

Definition masslessOptions : PhysicsOptions.t :=
  PhysicsOptions.mk (Some 0) None None.

(** A world that records the time step of every fixed-rate update. *)
Definition recordStep (dt : R) (w : list R) : list R := w ++ [dt].

(** A running loop with an empty accumulator, last run at time [0]. *)
Definition idleLoop : GameEngine.Loop (list R) :=
  GameEngine.mkLoop true 0 0 0 [].

(** A ray test that reports a hit at a given point. *)
Definition hitAt (point : Vector3.t) (ray : Ray.t) (box : Box3.t)
  : option Vector3.t := Some point.

(** A moving slab, before its first update. *)
Definition lift : Platform.t :=
  Platform.build
    (PlatformConfig.mk 4 4 1 (Vector3.mk 0 0 0) (Some true) None None None
       None None None None None).

End Examples.

(** * Properties *)

(** ** Numbers and vectors *)

Lemma ltb_true (a b : R) : JS.ltb a b = true <-> a < b.
Proof. unfold JS.ltb. destruct (Rlt_dec a b); intuition congruence. Qed.

Lemma ltb_false (a b : R) : JS.ltb a b = false <-> b <= a.
Proof.
  unfold JS.ltb. destruct (Rlt_dec a b); split; intros; try congruence; lra.
Qed.

Lemma leb_true (a b : R) : JS.leb a b = true <-> a <= b.
Proof. unfold JS.leb. destruct (Rle_dec a b); intuition congruence. Qed.

Lemma leb_false (a b : R) : JS.leb a b = false <-> b < a.
Proof.
  unfold JS.leb. destruct (Rle_dec a b); split; intros; try congruence; lra.
Qed.

Lemma gtb_true (a b : R) : JS.gtb a b = true <-> a > b.
Proof. unfold JS.gtb. rewrite ltb_true. lra. Qed.

Lemma gtb_false (a b : R) : JS.gtb a b = false <-> a <= b.
Proof. unfold JS.gtb. rewrite ltb_false. lra. Qed.

Lemma geb_true (a b : R) : JS.geb a b = true <-> a >= b.
Proof. unfold JS.geb. rewrite leb_true. lra. Qed.

Lemma geb_false (a b : R) : JS.geb a b = false <-> a < b.
Proof. unfold JS.geb. rewrite leb_false. lra. Qed.

Lemma sign_pos (a : R) : 0 < a -> JS.sign a = 1.
Proof. intros H. unfold JS.sign. destruct (Rlt_dec 0 a); [reflexivity | lra]. Qed.

Lemma sign_neg (a : R) : a < 0 -> JS.sign a = -1.
Proof.
  intros H. unfold JS.sign.
  destruct (Rlt_dec 0 a); [lra |]. destruct (Rlt_dec a 0); [reflexivity | lra].
Qed.

Lemma sign_zero : JS.sign 0 = 0.
Proof.
  unfold JS.sign.
  destruct (Rlt_dec 0 0); [lra |]. destruct (Rlt_dec 0 0); [lra | reflexivity].
Qed.

Lemma abs_sign_mult (a b : R) : a <> 0 -> 0 <= b -> Rabs (JS.sign a * b) = b.
Proof.
  intros Ha Hb.
  destruct (Rlt_dec 0 a).
  - rewrite sign_pos by assumption. rewrite Rabs_right; lra.
  - rewrite sign_neg by lra. rewrite Rabs_left1; lra.
Qed.

Lemma vector_eq (a b : Vector3.t) :
  Vector3.x a = Vector3.x b -> Vector3.y a = Vector3.y b ->
  Vector3.z a = Vector3.z b -> a = b.
Proof. destruct a, b; simpl; intros; subst; reflexivity. Qed.

Lemma lengthSq_nonneg (a : Vector3.t) : 0 <= Vector3.lengthSq a.
Proof. unfold Vector3.lengthSq, Vector3.dot. nra. Qed.

Lemma length_zero : Vector3.length (Vector3.mk 0 0 0) = 0.
Proof.
  unfold Vector3.length, Vector3.lengthSq, Vector3.dot; simpl.
  replace (0 * 0 + 0 * 0 + 0 * 0) with 0 by lra. apply sqrt_0.
Qed.

Lemma length_pos (a : Vector3.t) : a <> Vector3.mk 0 0 0 -> 0 < Vector3.length a.
Proof.
  intros Ha. unfold Vector3.length. apply sqrt_lt_R0.
  destruct a as [ax ay az]. unfold Vector3.lengthSq, Vector3.dot; simpl.
  destruct (Req_dec_T ax 0) as [-> | Hx]; [| nra].
  destruct (Req_dec_T ay 0) as [-> | Hy]; [| nra].
  destruct (Req_dec_T az 0) as [-> | Hz]; [| nra].
  exfalso. apply Ha. reflexivity.
Qed.

(** The length of a vector along one axis is the absolute value of its
    component. *)
Lemma length_axis (s : R) :
  Vector3.length (Vector3.mk s 0 0) = Rabs s
  /\ Vector3.length (Vector3.mk 0 s 0) = Rabs s
  /\ Vector3.length (Vector3.mk 0 0 s) = Rabs s.
Proof.
  unfold Vector3.length, Vector3.lengthSq, Vector3.dot; simpl.
  repeat split.
  - replace (s * s + 0 * 0 + 0 * 0) with (Rsqr s) by (unfold Rsqr; lra).
    apply sqrt_Rsqr_abs.
  - replace (0 * 0 + s * s + 0 * 0) with (Rsqr s) by (unfold Rsqr; lra).
    apply sqrt_Rsqr_abs.
  - replace (0 * 0 + 0 * 0 + s * s) with (Rsqr s) by (unfold Rsqr; lra).
    apply sqrt_Rsqr_abs.
Qed.

Lemma normalize_zero : Vector3.normalize (Vector3.mk 0 0 0) = Vector3.mk 0 0 0.
Proof.
  unfold Vector3.normalize. rewrite length_zero.
  destruct (Req_dec_T 0 0); [| congruence].
  apply vector_eq; simpl; lra.
Qed.

Lemma normalize_unit (a : Vector3.t) : Vector3.length a = 1 -> Vector3.normalize a = a.
Proof.
  intros H. unfold Vector3.normalize. rewrite H.
  destruct (Req_dec_T 1 0); [lra |].
  apply vector_eq; simpl; lra.
Qed.

(** ** JavaScript maps *)

Lemma get_set_same {V : Type} (k : string) (v : V) (m : JS.Map V) :
  JS.get k (JS.set k v m) = Some v.
Proof.
  induction m as [| [k' v'] m IH]; simpl.
  - rewrite String.eqb_refl. reflexivity.
  - destruct (String.eqb k k') eqn:E; simpl; rewrite E; [reflexivity | exact IH].
Qed.

Lemma get_forEachValue {V : Type} (f : V -> V) (k : string) (m : JS.Map V) :
  JS.get k (JS.forEachValue f m) = option_map f (JS.get k m).
Proof.
  induction m as [| [k' v'] m IH]; simpl; [reflexivity |].
  destruct (String.eqb k k'); [reflexivity | exact IH].
Qed.

(** ** The integrator *)

Section Integrator.

Variable cfg : PhysicsConfig.t.

Lemma radius_updateObject (o : PhysicsObject.t) (dt : R) :
  PhysicsObject.radius (PhysicsService.updateObject cfg o dt)
  = PhysicsObject.radius o.
Proof. reflexivity. Qed.

Lemma radius_checkFloor (o : PhysicsObject.t) :
  PhysicsObject.radius (PhysicsService.checkFloor cfg o) = PhysicsObject.radius o.
Proof.
  unfold PhysicsService.checkFloor.
  destruct (JS.ltb _ 0); [| reflexivity].
  destruct (JS.gtb _ _); reflexivity.
Qed.

Lemma radius_checkSides (o : PhysicsObject.t) :
  PhysicsObject.radius (PhysicsService.checkSides o) = PhysicsObject.radius o.
Proof.
  unfold PhysicsService.checkSides.
  destruct (JS.gtb _ _); destruct (JS.gtb _ _); reflexivity.
Qed.

Lemma radius_checkBounds (o : PhysicsObject.t) :
  PhysicsObject.radius (PhysicsService.checkBounds cfg o) = PhysicsObject.radius o.
Proof.
  unfold PhysicsService.checkBounds.
  rewrite radius_checkSides. apply radius_checkFloor.
Qed.

(** The floor block leaves the body on or above the contact height. *)
Lemma checkFloor_above (o : PhysicsObject.t) :
  Vector3.y (PhysicsObject.position (PhysicsService.checkFloor cfg o))
  >= PhysicsObject.radius o.
Proof.
  unfold PhysicsService.checkFloor.
  destruct (JS.ltb _ 0) eqn:E.
  - destruct (JS.gtb _ _); simpl; lra.
  - apply ltb_false in E. lra.
Qed.

(** The side blocks change neither the height nor the vertical velocity. *)
Lemma checkSides_vertical (o : PhysicsObject.t) :
  Vector3.y (PhysicsObject.position (PhysicsService.checkSides o))
  = Vector3.y (PhysicsObject.position o)
  /\ Vector3.y (PhysicsObject.velocity (PhysicsService.checkSides o))
     = Vector3.y (PhysicsObject.velocity o).
Proof.
  unfold PhysicsService.checkSides.
  destruct (JS.gtb _ _); destruct (JS.gtb _ _); simpl; split; reflexivity.
Qed.

(** The side blocks leave the body inside the world bounds. *)
Lemma checkSides_inside (o : PhysicsObject.t) :
  Rabs (Vector3.x (PhysicsObject.position (PhysicsService.checkSides o))) <= 10
  /\ Rabs (Vector3.z (PhysicsObject.position (PhysicsService.checkSides o))) <= 10.
Proof.
  unfold PhysicsService.checkSides, PhysicsService.bounds.
  assert (clamp : forall q, Rabs q > 10 -> Rabs (JS.sign q * 10) <= 10).
  { intros q Hq. rewrite abs_sign_mult; try lra.
    intros ->. rewrite Rabs_R0 in Hq. lra. }
  destruct (JS.gtb (Rabs (Vector3.x _)) 10) eqn:Ex;
    [apply gtb_true in Ex | apply gtb_false in Ex];
    simpl;
    (destruct (JS.gtb (Rabs (Vector3.z _)) 10) eqn:Ez;
      [apply gtb_true in Ez | apply gtb_false in Ez]);
    simpl; split; auto.
Qed.

(** The horizontal velocities after the side blocks. *)
Lemma checkSides_velocity (o : PhysicsObject.t) :
  let wall (q : R) :=
    if JS.gtb (Rabs q) 10 then - PhysicsObject.restitution o else 1 in
  Vector3.x (PhysicsObject.velocity (PhysicsService.checkSides o))
  = Vector3.x (PhysicsObject.velocity o)
    * wall (Vector3.x (PhysicsObject.position o))
  /\ Vector3.z (PhysicsObject.velocity (PhysicsService.checkSides o))
     = Vector3.z (PhysicsObject.velocity o)
       * wall (Vector3.z (PhysicsObject.position o)).
Proof.
  unfold PhysicsService.checkSides, PhysicsService.bounds.
  destruct (JS.gtb (Rabs (Vector3.x _)) 10);
    simpl; destruct (JS.gtb (Rabs (Vector3.z _)) 10); simpl; split; lra.
Qed.

(** After at least one sub-step the loop ends on a [checkBounds]. *)
Lemma subStepLoop_last (n : nat) (subDelta : R) (o : PhysicsObject.t) :
  exists b : PhysicsObject.t,
    PhysicsObject.radius b = PhysicsObject.radius o
    /\ PhysicsService.subStepLoop cfg (S n) subDelta o
       = PhysicsService.checkBounds cfg b.
Proof.
  revert o. induction n as [| n IH]; intros o.
  - exists (PhysicsService.updateObject cfg o subDelta). split; reflexivity.
  - destruct (IH (PhysicsService.checkBounds cfg
                    (PhysicsService.updateObject cfg o subDelta)))
      as [b [Hr Hb]].
    exists b. split.
    + rewrite Hr, radius_checkBounds. reflexivity.
    + exact Hb.
Qed.

Lemma subSteps_at_rest (o : PhysicsObject.t) (dt : R) :
  (0 <= PhysicsConfig.maxPredictionSteps cfg)%Z ->
  PhysicsObject.velocity o = Vector3.mk 0 0 0 ->
  PhysicsService.subSteps cfg o dt = 0%Z.
Proof.
  intros Hmax Hv. unfold PhysicsService.subSteps, JS.ceil.
  rewrite Hv, length_zero.
  rewrite (Zceil_eq 0 (0 * dt)) by (simpl; lra).
  lia.
Qed.

Lemma subSteps_moving (o : PhysicsObject.t) (dt : R) :
  (1 <= PhysicsConfig.maxPredictionSteps cfg)%Z ->
  PhysicsObject.velocity o <> Vector3.mk 0 0 0 ->
  0 < dt ->
  (1 <= PhysicsService.subSteps cfg o dt)%Z.
Proof.
  intros Hmax Hv Hdt. unfold PhysicsService.subSteps, JS.ceil.
  pose proof (length_pos _ Hv) as Hlen.
  pose proof (Zceil_bound (Vector3.length (PhysicsObject.velocity o) * dt))
    as [_ Hup].
  assert (0 < IZR (Zceil (Vector3.length (PhysicsObject.velocity o) * dt)))
    as Hpos by nra.
  apply lt_IZR in Hpos. lia.
Qed.

(** An update of a body at rest changes only its history fields. *)
Lemma updateOne_at_rest (o : PhysicsObject.t) (dt : R) :
  (0 <= PhysicsConfig.maxPredictionSteps cfg)%Z ->
  PhysicsObject.velocity o = Vector3.mk 0 0 0 ->
  let o' := PhysicsService.updateOne cfg dt o in
  PhysicsObject.mesh o' = PhysicsObject.mesh o
  /\ PhysicsObject.velocity o' = PhysicsObject.velocity o
  /\ PhysicsObject.acceleration o' = PhysicsObject.acceleration o.
Proof.
  intros Hmax Hv. unfold PhysicsService.updateOne.
  rewrite subSteps_at_rest by assumption.
  simpl. repeat split; reflexivity.
Qed.

Lemma updateOne_in_bounds (o : PhysicsObject.t) (dt : R) :
  (1 <= PhysicsService.subSteps cfg o dt)%Z ->
  let o' := PhysicsService.updateOne cfg dt o in
  PhysicsObject.radius o' = PhysicsObject.radius o
  /\ Vector3.y (PhysicsObject.position o') >= PhysicsObject.radius o
  /\ Rabs (Vector3.x (PhysicsObject.position o')) <= 10
  /\ Rabs (Vector3.z (PhysicsObject.position o')) <= 10.
Proof.
  intros Hsteps. unfold PhysicsService.updateOne.
  set (o1 := PhysicsObject.mk _ _ _ _ _ _ _ _).
  assert (Hsame : PhysicsService.subSteps cfg o1 dt
                  = PhysicsService.subSteps cfg o dt) by reflexivity.
  rewrite Hsame.
  destruct (Z.to_nat (PhysicsService.subSteps cfg o dt)) as [| n] eqn:En;
    [lia |].
  destruct (subStepLoop_last n (dt / IZR (PhysicsService.subSteps cfg o dt)) o1)
    as [b [Hr Hb]].
  rewrite Hb. unfold PhysicsService.checkBounds.
  pose proof (checkSides_inside (PhysicsService.checkFloor cfg b)) as [Hx Hz].
  pose proof (checkSides_vertical (PhysicsService.checkFloor cfg b)) as [Hy _].
  pose proof (checkFloor_above b) as Hfloor.
  rewrite radius_checkSides, radius_checkFloor, Hy.
  change (PhysicsObject.radius o1) with (PhysicsObject.radius o) in Hr.
  rewrite Hr in *. repeat split; assumption.
Qed.

End Integrator.

(** ** Floor contact, bodies at rest and world bounds *)

(** C2.  When [checkBounds] receives a body whose lower extent is below
    [y = 0], the body leaves it at the contact height [y = radius].  If the
    vertical speed exceeds the threshold [0.1], the vertical velocity becomes
    [|vy| * restitution] and the horizontal velocities are multiplied by
    [1 - friction]; otherwise the vertical velocity becomes [0].  The side
    blocks that follow multiply a horizontal velocity by [-restitution] only
    for a coordinate outside the world bounds. *)
Theorem checkBounds_floor_contact (o : PhysicsObject.t) :
  Vector3.y (PhysicsObject.position o) - PhysicsObject.radius o < 0 ->
  let v := PhysicsObject.velocity o in
  let o' := PhysicsService.checkBounds PhysicsService.defaultConfig o in
  let v' := PhysicsObject.velocity o' in
  let wall (q : R) :=
    if JS.gtb (Rabs q) 10 then - PhysicsObject.restitution o else 1 in
  Vector3.y (PhysicsObject.position o') = PhysicsObject.radius o
  /\ (Rabs (Vector3.y v) > 1 / 10 ->
      Vector3.y v' = Rabs (Vector3.y v) * PhysicsObject.restitution o
      /\ Vector3.x v'
         = Vector3.x v * (1 - PhysicsObject.friction o)
           * wall (Vector3.x (PhysicsObject.position o))
      /\ Vector3.z v'
         = Vector3.z v * (1 - PhysicsObject.friction o)
           * wall (Vector3.z (PhysicsObject.position o)))
  /\ (Rabs (Vector3.y v) <= 1 / 10 ->
      Vector3.y v' = 0
      /\ Vector3.x v' = Vector3.x v * wall (Vector3.x (PhysicsObject.position o))
      /\ Vector3.z v' = Vector3.z v * wall (Vector3.z (PhysicsObject.position o))).
Proof.
  intros Hlow v o' v' wall.
  subst o' v'. unfold PhysicsService.checkBounds.
  set (f := PhysicsService.checkFloor PhysicsService.defaultConfig o).
  pose proof (checkSides_vertical f) as [Hy Hvy].
  pose proof (checkSides_velocity f) as [Hvx Hvz]. simpl in Hvx, Hvz.
  rewrite Hy, Hvy, Hvx, Hvz. clear Hy Hvy Hvx Hvz.
  subst f wall v. unfold PhysicsService.checkFloor.
  rewrite (proj2 (ltb_true _ _) Hlow). simpl PhysicsConfig.minBounceVelocity.
  split; [| split].
  - destruct (JS.gtb _ _); reflexivity.
  - intros Hfast. rewrite (proj2 (gtb_true _ _) Hfast). simpl.
    repeat split; reflexivity.
  - intros Hslow. rewrite (proj2 (gtb_false _ _) Hslow). simpl.
    repeat split; reflexivity.
Qed.

Lemma checkBounds_floor_contact_witness :
  Vector3.y (PhysicsObject.position Examples.sinking)
  - PhysicsObject.radius Examples.sinking < 0
  /\ Vector3.y
       (PhysicsObject.position
          (PhysicsService.checkBounds PhysicsService.defaultConfig
             Examples.sinking))
     = 1 / 2.
Proof.
  assert (H : Vector3.y (PhysicsObject.position Examples.sinking)
              - PhysicsObject.radius Examples.sinking < 0)
    by (unfold Examples.sinking, PhysicsObject.position, PhysicsObject.radius;
        simpl; lra).
  split; [exact H |].
  exact (proj1 (checkBounds_floor_contact Examples.sinking H)).
Defined.

(** C9.  A body whose velocity is exactly zero gets a sub-step count of [0],
    so no number of calls of [update] changes its position or its velocity,
    whatever its acceleration is: gravity never sets a resting body in
    motion. *)
Theorem update_body_at_rest (s : PhysicsService.t) (dt : R) (id : string)
  (o : PhysicsObject.t) (n : nat) :
  (0 <= PhysicsConfig.maxPredictionSteps (PhysicsService.config s))%Z ->
  JS.get id (PhysicsService.objects s) = Some o ->
  PhysicsObject.velocity o = Vector3.mk 0 0 0 ->
  PhysicsService.subSteps (PhysicsService.config s) o dt = 0%Z
  /\ exists o' : PhysicsObject.t,
       JS.get id (PhysicsService.objects (Nat.iter n (PhysicsService.update dt) s))
       = Some o'
       /\ PhysicsObject.position o' = PhysicsObject.position o
       /\ PhysicsObject.velocity o' = PhysicsObject.velocity o
       /\ PhysicsObject.acceleration o' = PhysicsObject.acceleration o.
Proof.
  intros Hmax Hget Hv. split; [apply subSteps_at_rest; assumption |].
  induction n as [| n IH]; simpl.
  - exists o. repeat split; assumption.
  - destruct IH as [o1 [Hget1 [Hp [Hv1 Ha]]]].
    assert (Hcfg : forall k, PhysicsService.config
                     (Nat.iter k (PhysicsService.update dt) s)
                   = PhysicsService.config s).
    { induction k; simpl; [reflexivity | assumption]. }
    unfold PhysicsService.update at 1. simpl.
    rewrite get_forEachValue, Hget1. simpl.
    eexists. split; [reflexivity |].
    rewrite Hcfg.
    destruct (updateOne_at_rest (PhysicsService.config s) o1 dt Hmax)
      as [Hm [Hv2 Ha2]]; [congruence |].
    unfold PhysicsObject.position in *.
    rewrite Hm, Hv2, Ha2. repeat split; assumption.
Qed.

Lemma update_body_at_rest_witness :
  exists o' : PhysicsObject.t,
    JS.get "player-ball"
      (PhysicsService.objects
         (Nat.iter 3 (PhysicsService.update (1 / 60)) Examples.serviceWithBall))
    = Some o'
    /\ PhysicsObject.position o' = PhysicsObject.position Examples.restingBall
    /\ PhysicsObject.velocity o' = PhysicsObject.velocity Examples.restingBall
    /\ PhysicsObject.acceleration o'
       = PhysicsObject.acceleration Examples.restingBall.
Proof.
  refine (proj2 (update_body_at_rest Examples.serviceWithBall (1 / 60)
                   "player-ball" Examples.restingBall 3 _ _ _)).
  - simpl. lia.
  - reflexivity.
  - reflexivity.
Defined.

(** C10.  When [update] runs at least one sub-step for a body, the body ends
    the call on or above the floor contact height and inside the world
    bounds: [y >= radius], [|x| <= 10] and [|z| <= 10]. *)
Theorem update_keeps_body_in_bounds (s : PhysicsService.t) (dt : R)
  (id : string) (o : PhysicsObject.t) :
  JS.get id (PhysicsService.objects s) = Some o ->
  (1 <= PhysicsService.subSteps (PhysicsService.config s) o dt)%Z ->
  exists o' : PhysicsObject.t,
    JS.get id (PhysicsService.objects (PhysicsService.update dt s)) = Some o'
    /\ PhysicsObject.radius o' = PhysicsObject.radius o
    /\ Vector3.y (PhysicsObject.position o') >= PhysicsObject.radius o'
    /\ Rabs (Vector3.x (PhysicsObject.position o')) <= 10
    /\ Rabs (Vector3.z (PhysicsObject.position o')) <= 10.
Proof.
  intros Hget Hsteps.
  exists (PhysicsService.updateOne (PhysicsService.config s) dt o).
  split.
  - unfold PhysicsService.update. simpl.
    rewrite get_forEachValue, Hget. reflexivity.
  - destruct (updateOne_in_bounds (PhysicsService.config s) o dt Hsteps)
      as [Hr [Hy [Hx Hz]]].
    rewrite Hr. repeat split; assumption.
Qed.

Lemma update_keeps_body_in_bounds_witness :
  exists o' : PhysicsObject.t,
    JS.get "player-ball"
      (PhysicsService.objects
         (PhysicsService.update (1 / 60) Examples.serviceWithFalling))
    = Some o'
    /\ PhysicsObject.radius o' = PhysicsObject.radius Examples.falling
    /\ Vector3.y (PhysicsObject.position o') >= PhysicsObject.radius o'
    /\ Rabs (Vector3.x (PhysicsObject.position o')) <= 10
    /\ Rabs (Vector3.z (PhysicsObject.position o')) <= 10.
Proof.
  apply (update_keeps_body_in_bounds Examples.serviceWithFalling (1 / 60)
           "player-ball" Examples.falling).
  - reflexivity.
  - apply subSteps_moving.
    + simpl. lia.
    + simpl. intros H. inversion H. lra.
    + lra.
Defined.

(** ** Track validation *)

Lemma visit_fold (ps : JS.Map Platform.t) :
  forall acc : TrackEditorService.Tally,
    let r := fold_left TrackEditorService.visit ps acc in
    TrackEditorService.hasStart r
    = (TrackEditorService.hasStart acc
       || (0 <? TrackEditorService.countType START ps)%nat)
    /\ TrackEditorService.hasFinish r
       = (TrackEditorService.hasFinish acc
          || (0 <? TrackEditorService.countType FINISH ps)%nat)
    /\ List.length (TrackEditorService.checkpoints r)
       = (List.length (TrackEditorService.checkpoints acc)
          + TrackEditorService.countType CHECKPOINT ps)%nat.
Proof.
  induction ps as [| [id p] ps IH]; intros acc; simpl.
  - rewrite !orb_false_r. repeat split.
    unfold TrackEditorService.countType. simpl. lia.
  - destruct (IH (TrackEditorService.visit acc (id, p))) as [Hs [Hf Hc]].
    rewrite Hs, Hf, Hc. clear IH Hs Hf Hc.
    unfold TrackEditorService.visit, TrackEditorService.countType; simpl.
    destruct (Platform.getType p); simpl;
      rewrite ?orb_true_r, ?length_app; simpl;
      repeat split; try reflexivity; try lia.
Qed.

(** C4, as the code has it.  [validateTrack] returns [true] exactly when the
    platform set contains at least one start, at least one finish and at
    least one checkpoint; it does not count the start platforms. *)
Theorem validateTrack_at_least_one_each (ps : JS.Map Platform.t) :
  TrackEditorService.validateTrack ps = true
  <-> (1 <= TrackEditorService.countType START ps)%nat
      /\ (1 <= TrackEditorService.countType FINISH ps)%nat
      /\ (1 <= TrackEditorService.countType CHECKPOINT ps)%nat.
Proof.
  unfold TrackEditorService.validateTrack.
  destruct (visit_fold ps (TrackEditorService.mkTally false false []))
    as [Hs [Hf Hc]].
  rewrite Hs, Hf, Hc. simpl.
  rewrite !andb_true_iff, !Nat.ltb_lt. lia.
Qed.

(** C4 as stated fails: a track with two start platforms passes. *)
Lemma validateTrack_two_starts :
  TrackEditorService.validateTrack Examples.twoStarts = true
  /\ TrackEditorService.countType START Examples.twoStarts = 2%nat
  /\ ~ TrackEditorService.specValid Examples.twoStarts.
Proof.
  split; [reflexivity |]. split; [reflexivity |].
  intros [H _]. discriminate H.
Qed.

(** ** Construction *)

(** C8, as the code has it.  The platform constructor accepts every
    configuration and stores width, height and depth as given; [addObject]
    reports no error and stores the mass as given, [1] only when none is
    given. *)
Theorem construction_never_rejects (config : PlatformConfig.t) (id : string)
  (mesh : SphereMesh.t) (options : PhysicsOptions.t) (s : PhysicsService.t) :
  (exists p : Platform.t,
     Platform.constructor config = JS.Returned p
     /\ Platform.width p = PlatformConfig.width config
     /\ Platform.height p = PlatformConfig.height config
     /\ Platform.depth p = PlatformConfig.depth config)
  /\ PhysicsService.reported (PhysicsService.addObject id mesh options s)
     = PhysicsService.reported s
  /\ exists o : PhysicsObject.t,
       JS.get id
         (PhysicsService.objects (PhysicsService.addObject id mesh options s))
       = Some o
       /\ PhysicsObject.mass o = JS.nullish (PhysicsOptions.mass options) 1.
Proof.
  split; [| split].
  - exists (Platform.build config). repeat split.
  - reflexivity.
  - unfold PhysicsService.addObject. simpl. rewrite get_set_same.
    eexists. split; reflexivity.
Qed.

(** C8 as stated fails: a platform of width [0] and height [-1] is
    constructed, with a box of no volume, and a body of mass [0] is added
    without any error being reported. *)
Lemma construction_accepts_degenerate :
  PlatformConfig.width Examples.flatConfig <= 0
  /\ PlatformConfig.height Examples.flatConfig <= 0
  /\ (exists p : Platform.t,
        Platform.constructor Examples.flatConfig = JS.Returned p
        /\ Platform.width p = 0
        /\ Vector3.x (Box3.min (Platform.boundingBox p))
           = Vector3.x (Box3.max (Platform.boundingBox p)))
  /\ (exists o : PhysicsObject.t,
        JS.get "player-ball"
          (PhysicsService.objects
             (PhysicsService.addObject "player-ball" Examples.ball
                Examples.masslessOptions PhysicsService.initial))
        = Some o
        /\ PhysicsObject.mass o = 0)
  /\ PhysicsService.reported
       (PhysicsService.addObject "player-ball" Examples.ball
          Examples.masslessOptions PhysicsService.initial)
     = [].
Proof.
  split; [simpl; lra |]. split; [simpl; lra |]. split; [| split].
  - eexists. split; [reflexivity |]. split; [reflexivity |].
    simpl. rewrite Rabs_R0. lra.
  - eexists. split; reflexivity.
  - reflexivity.
Qed.

(** ** The fixed-step loop *)

Section LoopFacts.

Variable World : Type.
Variable step : R -> World -> World.

(** The cap inside [update] never changes the fixed time step. *)
Lemma update_fixed_step (w : World) :
  GameEngine.update World step GameEngine.fixedTimeStep w = step (1 / 60) w.
Proof.
  unfold GameEngine.update, GameEngine.fixedTimeStep.
  rewrite Rmin_left by lra. reflexivity.
Qed.

(** An accumulator holding [n] whole steps is drained by exactly [n]
    updates, given fuel for them. *)
Lemma drain_runs (n : nat) :
  forall (acc : R) (w : World) (fuel : nat),
    INR n * GameEngine.fixedTimeStep <= acc
    < (INR n + 1) * GameEngine.fixedTimeStep ->
    (n <= fuel)%nat ->
    GameEngine.drain World step fuel acc w
    = Some (acc - INR n * GameEngine.fixedTimeStep,
            Nat.iter n (step (1 / 60)) w).
Proof.
  induction n as [| n IH]; intros acc w fuel Hacc Hfuel.
  - simpl in Hacc.
    assert (Hstop : JS.geb acc GameEngine.fixedTimeStep = false)
      by (apply geb_false; lra).
    destruct fuel; simpl; rewrite Hstop; f_equal; f_equal; simpl; lra.
  - rewrite S_INR in Hacc.
    assert (Hgo : JS.geb acc GameEngine.fixedTimeStep = true).
    { apply geb_true. pose proof (pos_INR n).
      unfold GameEngine.fixedTimeStep in *. nra. }
    destruct fuel as [| fuel]; [lia |]. cbn [GameEngine.drain]. rewrite Hgo.
    rewrite IH; [| lra | lia].
    rewrite update_fixed_step, <- Nat.iter_succ_r.
    f_equal. f_equal. rewrite S_INR. lra.
Qed.

End LoopFacts.

(** C5 at a stalled frame.  One second after the previous frame an idle loop
    accumulates the whole second and runs sixty fixed-rate updates in the
    one frame, each with the step [1/60]: more than the
    [ceil(0.1 / (1/60)) = 6] updates that a cap of [0.1] seconds on the
    frame delta would allow. *)
Theorem stalled_frame_runs_sixty_updates :
  exists s' : GameEngine.Loop (list R),
    GameEngine.gameLoop (list R) Examples.recordStep 60 1000 Examples.idleLoop
    = Some s'
    /\ GameEngine.world s' = List.repeat (1 / 60) 60
    /\ JS.ceil ((1 / 10) / GameEngine.fixedTimeStep) = 6%Z
    /\ (6 < Z.of_nat (List.length (GameEngine.world s')))%Z.
Proof.
  unfold GameEngine.gameLoop, Examples.idleLoop.
  cbn [GameEngine.isRunning GameEngine.lastFrameTime GameEngine.accumulator
       GameEngine.world GameEngine.frameCount negb].
  rewrite (drain_runs (list R) Examples.recordStep 60).
  - eexists. split; [reflexivity |]. simpl GameEngine.world.
    split; [reflexivity |]. split.
    + unfold JS.ceil, GameEngine.fixedTimeStep. apply Zceil_eq. simpl. lra.
    + simpl. lia.
  - unfold GameEngine.fixedTimeStep. simpl. lra.
  - lia.
Qed.

(** ** Bounding boxes *)

Lemma setFromObject_not_empty (position : Vector3.t) (w h d : R) :
  Box3.isEmpty (Box3.setFromObject position w h d) = false.
Proof.
  unfold Box3.isEmpty, Box3.setFromObject; simpl.
  pose proof (Rabs_pos w). pose proof (Rabs_pos h). pose proof (Rabs_pos d).
  rewrite !(proj2 (ltb_false _ _)) by lra. reflexivity.
Qed.

(** The box built for a mesh is centred at the mesh position. *)
Lemma setFromObject_center (position : Vector3.t) (w h d : R) :
  Box3.getCenter (Box3.setFromObject position w h d) = position.
Proof.
  unfold Box3.getCenter. rewrite setFromObject_not_empty.
  apply vector_eq; simpl; lra.
Qed.

Lemma setFromObject_size (position : Vector3.t) (w h d : R) :
  Box3.getSize (Box3.setFromObject position w h d)
  = Vector3.mk (Rabs w) (Rabs h) (Rabs d).
Proof.
  unfold Box3.getSize. rewrite setFromObject_not_empty.
  apply vector_eq; simpl; lra.
Qed.


(** ** Collision normals *)

(** [normalize] leaves the candidate normals of [calculateCollisionNormal]
    as they are. *)
Lemma normalize_sign (a : R) :
  Vector3.normalize (Vector3.mk (JS.sign a) 0 0) = Vector3.mk (JS.sign a) 0 0
  /\ Vector3.normalize (Vector3.mk 0 (JS.sign a) 0) = Vector3.mk 0 (JS.sign a) 0
  /\ Vector3.normalize (Vector3.mk 0 0 (JS.sign a)) = Vector3.mk 0 0 (JS.sign a).
Proof.
  destruct (length_axis (JS.sign a)) as [Hx [Hy Hz]].
  destruct (Rlt_dec 0 a) as [Hpos | Hnpos].
  - rewrite sign_pos in * by assumption.
    rewrite Rabs_right in Hx, Hy, Hz by lra.
    repeat split; apply normalize_unit; assumption.
  - destruct (Rlt_dec a 0) as [Hneg | Hnneg].
    + rewrite sign_neg in * by assumption.
      rewrite Rabs_left in Hx, Hy, Hz by lra.
      repeat split; apply normalize_unit; lra.
    + replace a with 0 by lra. rewrite sign_zero.
      repeat split; apply normalize_zero.
Qed.


Section NormalFacts.

Variable p : Platform.t.
Variable q : Vector3.t.

Let center := Box3.getCenter (Platform.boundingBox p).
Let size := Box3.getSize (Platform.boundingBox p).
Let dx := Platform.faceDistance (Vector3.x center) (Vector3.x size) (Vector3.x q).
Let dy := Platform.faceDistance (Vector3.y center) (Vector3.y size) (Vector3.y q).
Let dz := Platform.faceDistance (Vector3.z center) (Vector3.z size) (Vector3.z q).

Lemma normal_x :
  dx < dy -> dx < dz ->
  Platform.calculateCollisionNormal p q
  = Vector3.mk (JS.sign (Vector3.x q - Vector3.x center)) 0 0.
Proof.
  intros H1 H2. unfold Platform.calculateCollisionNormal.
  fold center size dx dy dz.
  rewrite (proj2 (ltb_true dx dy) H1), (proj2 (ltb_true dx dz) H2). simpl.
  apply normalize_sign.
Qed.

Lemma normal_y :
  dy < dx -> dy < dz ->
  Platform.calculateCollisionNormal p q
  = Vector3.mk 0 (JS.sign (Vector3.y q - Vector3.y center)) 0.
Proof.
  intros H1 H2. unfold Platform.calculateCollisionNormal.
  fold center size dx dy dz.
  rewrite (proj2 (ltb_false dx dy)) by lra.
  rewrite (proj2 (ltb_true dy dx) H1), (proj2 (ltb_true dy dz) H2). simpl.
  apply normalize_sign.
Qed.

(** Whenever neither [dx] nor [dy] is strictly the smallest, the normal is
    along z. *)
Lemma normal_z :
  ~ (dx < dy /\ dx < dz) -> ~ (dy < dx /\ dy < dz) ->
  Platform.calculateCollisionNormal p q
  = Vector3.mk 0 0 (JS.sign (Vector3.z q - Vector3.z center)).
Proof.
  intros H1 H2. unfold Platform.calculateCollisionNormal.
  fold center size dx dy dz.
  assert (E1 : JS.ltb dx dy && JS.ltb dx dz = false).
  { apply andb_false_iff.
    destruct (Rlt_dec dx dy); [| left; apply ltb_false; lra].
    right. apply ltb_false. lra. }
  assert (E2 : JS.ltb dy dx && JS.ltb dy dz = false).
  { apply andb_false_iff.
    destruct (Rlt_dec dy dx); [| left; apply ltb_false; lra].
    right. apply ltb_false. lra. }
  rewrite E1, E2. apply normalize_sign.
Qed.

End NormalFacts.



(** ** The ray test of three.js *)

(** Decide the comparisons of real numbers in the goal. *)
Ltac decide_comparisons :=
  repeat match goal with
  | |- context [JS.gtb ?a ?b] =>
      first [ rewrite (proj2 (gtb_true a b)) by lra
            | rewrite (proj2 (gtb_false a b)) by lra ]
  | |- context [JS.ltb ?a ?b] =>
      first [ rewrite (proj2 (ltb_true a b)) by lra
            | rewrite (proj2 (ltb_false a b)) by lra ]
  | |- context [JS.geb ?a ?b] =>
      first [ rewrite (proj2 (geb_true a b)) by lra
            | rewrite (proj2 (geb_false a b)) by lra ]
  | |- context [JS.leb ?a ?b] =>
      first [ rewrite (proj2 (leb_true a b)) by lra
            | rewrite (proj2 (leb_false a b)) by lra ]
  end.

(** A parameter that is not above zero does not exceed one that is not
    below zero. *)
Lemma gtb_low_high (a b : Number.t) :
  Number.gtb a (Number.Finite 0) = false ->
  Number.ltb b (Number.Finite 0) = false ->
  Number.gtb a b = false.
Proof.
  unfold Number.ltb.
  destruct a as [x | | |], b as [y | | |]; cbn [Number.gtb];
    try reflexivity; try discriminate.
  intros Hx Hy. apply gtb_false in Hx. apply gtb_false in Hy.
  apply gtb_false. lra.
Qed.

(** Along each axis, a ray that starts between the two planes of the slab
    enters it at a parameter that is not above zero and leaves it at one
    that is not below zero. *)
Lemma slab_inside (lo hi o d : R) :
  lo <= o <= hi ->
  Number.gtb (fst (Ray.slab lo hi o d)) (Number.Finite 0) = false
  /\ Number.ltb (snd (Ray.slab lo hi o d)) (Number.Finite 0) = false.
Proof.
  intros [Hlo Hhi]. unfold Ray.slab, Number.reciprocal, Number.ltb.
  destruct (Req_dec_T d 0) as [Hd | Hd].
  - cbn [Number.geb fst snd Number.scale].
    split.
    + rewrite (proj2 (gtb_false (lo - o) 0)) by lra.
      destruct (JS.ltb (lo - o) 0); reflexivity.
    + destruct (JS.gtb (hi - o) 0) eqn:Hg; [reflexivity |].
      rewrite (proj2 (ltb_false (hi - o) 0)) by lra. reflexivity.
  - cbn [Number.geb].
    destruct (Rlt_dec 0 d) as [Hpos | Hneg].
    + assert (Hinv : 0 < 1 / d)
        by (apply Rdiv_lt_0_compat; lra).
      rewrite (proj2 (geb_true (1 / d) 0)) by lra.
      cbn [fst snd Number.scale Number.gtb].
      split; apply gtb_false; nra.
    + assert (Hinv : 1 / d < 0).
      { assert (Hd' : d < 0) by lra.
        unfold Rdiv. rewrite Rmult_1_l. apply Rinv_lt_0_compat. exact Hd'. }
      rewrite (proj2 (geb_false (1 / d) 0)) by lra.
      cbn [fst snd Number.scale Number.gtb].
      split; apply gtb_false; nra.
Qed.

(** Narrowing two such intervals never reports a miss and gives such an
    interval again. *)
Lemma narrow_inside (t s : Number.t * Number.t) :
  Number.gtb (fst t) (Number.Finite 0) = false ->
  Number.ltb (snd t) (Number.Finite 0) = false ->
  Number.gtb (fst s) (Number.Finite 0) = false ->
  Number.ltb (snd s) (Number.Finite 0) = false ->
  exists u : Number.t * Number.t,
    Ray.narrow t s = Some u
    /\ Number.gtb (fst u) (Number.Finite 0) = false
    /\ Number.ltb (snd u) (Number.Finite 0) = false.
Proof.
  destruct t as [tmin tmax], s as [smin smax]. cbn [fst snd].
  intros Htmin Htmax Hsmin Hsmax. unfold Ray.narrow.
  rewrite (gtb_low_high tmin smax Htmin Hsmax).
  rewrite (gtb_low_high smin tmax Hsmin Htmax). cbn [orb].
  eexists. split; [reflexivity |]. cbn [fst snd].
  split.
  - destruct (Number.gtb smin tmin || Number.isNaN tmin); assumption.
  - destruct (Number.ltb smax tmax || Number.isNaN tmax); assumption.
Qed.

(** The ray test never misses a box from a point inside it, whatever the
    direction of the ray is. *)
Lemma intersectBox_inside (ray : Ray.t) (box : Box3.t) :
  Box3.containsPoint box (Ray.origin ray) = true ->
  Ray.intersectBox ray box <> None.
Proof.
  intros Hin. unfold Box3.containsPoint in Hin.
  repeat (apply andb_true_iff in Hin; destruct Hin as [Hin ?]).
  repeat match goal with
         | H : JS.geb _ _ = true |- _ => apply geb_true in H
         | H : JS.leb _ _ = true |- _ => apply leb_true in H
         end.
  unfold Ray.intersectBox, Ray.intersectBoxParameter.
  destruct (slab_inside (Vector3.x (Box3.min box)) (Vector3.x (Box3.max box))
              (Vector3.x (Ray.origin ray)) (Vector3.x (Ray.direction ray)))
    as [Hx1 Hx2]; [lra |].
  destruct (slab_inside (Vector3.y (Box3.min box)) (Vector3.y (Box3.max box))
              (Vector3.y (Ray.origin ray)) (Vector3.y (Ray.direction ray)))
    as [Hy1 Hy2]; [lra |].
  destruct (slab_inside (Vector3.z (Box3.min box)) (Vector3.z (Box3.max box))
              (Vector3.z (Ray.origin ray)) (Vector3.z (Ray.direction ray)))
    as [Hz1 Hz2]; [lra |].
  destruct (narrow_inside _ _ Hx1 Hx2 Hy1 Hy2) as [u [-> [Hu1 Hu2]]].
  destruct (narrow_inside _ _ Hu1 Hu2 Hz1 Hz2) as [[tmin tmax] [-> [_ Hw]]].
  cbn [snd] in Hw. rewrite Hw.
  destruct (Number.geb tmin (Number.Finite 0)); [destruct tmin | destruct tmax];
    discriminate.
Qed.

(** Along an axis the two parameters are both finite, when the direction
    has a component along it, or both not. *)
Lemma slab_finite (lo hi o d : R) :
  Number.isFinite (fst (Ray.slab lo hi o d))
  = (if Req_dec_T d 0 then false else true)
  /\ Number.isFinite (snd (Ray.slab lo hi o d))
     = (if Req_dec_T d 0 then false else true).
Proof.
  unfold Ray.slab, Number.reciprocal.
  destruct (Req_dec_T d 0).
  - cbn [Number.geb fst snd Number.scale].
    destruct (JS.gtb (lo - o) 0), (JS.ltb (lo - o) 0),
      (JS.gtb (hi - o) 0), (JS.ltb (hi - o) 0); split; reflexivity.
  - destruct (Number.geb _ _); split; reflexivity.
Qed.

(** Narrowing keeps an interval with finite ends finite, makes any interval
    finite that meets a finite one, and leaves the ends of two intervals
    without finite ends not finite. *)
Lemma narrow_finite (t s u : Number.t * Number.t) (a b : bool) :
  Number.isFinite (fst t) = a -> Number.isFinite (snd t) = a ->
  Number.isFinite (fst s) = b -> Number.isFinite (snd s) = b ->
  Ray.narrow t s = Some u ->
  Number.isFinite (fst u) = (a || b) /\ Number.isFinite (snd u) = (a || b).
Proof.
  destruct t as [tmin tmax], s as [smin smax]. cbn [fst snd].
  intros H1 H2 H3 H4. unfold Ray.narrow, Number.ltb.
  destruct tmin as [x1 | | |], tmax as [x2 | | |];
    cbn [Number.isFinite] in H1, H2; subst a; try discriminate H2;
    destruct smin as [y1 | | |], smax as [y2 | | |];
    cbn [Number.isFinite] in H3, H4; subst b; try discriminate H4;
    cbn [Number.gtb Number.isNaN orb];
    repeat match goal with
           | |- context [JS.gtb ?p ?q] => destruct (JS.gtb p q)
           end;
    cbn [orb]; intros Hu; try discriminate Hu;
    injection Hu as <-; split; reflexivity.
Qed.

(** The parameter of a hit is finite unless the direction of the ray is the
    zero vector. *)
Lemma intersectBox_finite (ray : Ray.t) (box : Box3.t) (s : Number.t) :
  Ray.direction ray <> Vector3.mk 0 0 0 ->
  Ray.intersectBoxParameter ray box = Some s ->
  Number.isFinite s = true.
Proof.
  intros Hdir. unfold Ray.intersectBoxParameter.
  destruct (slab_finite (Vector3.x (Box3.min box)) (Vector3.x (Box3.max box))
              (Vector3.x (Ray.origin ray)) (Vector3.x (Ray.direction ray)))
    as [Hx1 Hx2].
  destruct (slab_finite (Vector3.y (Box3.min box)) (Vector3.y (Box3.max box))
              (Vector3.y (Ray.origin ray)) (Vector3.y (Ray.direction ray)))
    as [Hy1 Hy2].
  destruct (slab_finite (Vector3.z (Box3.min box)) (Vector3.z (Box3.max box))
              (Vector3.z (Ray.origin ray)) (Vector3.z (Ray.direction ray)))
    as [Hz1 Hz2].
  destruct (Ray.narrow _ _) as [u |] eqn:Hu; [| discriminate].
  destruct (narrow_finite _ _ _ _ _ Hx1 Hx2 Hy1 Hy2 Hu) as [Hu1 Hu2].
  destruct (Ray.narrow u _) as [[tmin tmax] |] eqn:Hw; [| discriminate].
  destruct (narrow_finite _ _ _ _ _ Hu1 Hu2 Hz1 Hz2 Hw) as [Hw1 Hw2].
  cbn [fst snd] in Hw1, Hw2.
  assert (Hsome : ((if Req_dec_T (Vector3.x (Ray.direction ray)) 0
                    then false else true)
                   || (if Req_dec_T (Vector3.y (Ray.direction ray)) 0
                       then false else true)
                   || (if Req_dec_T (Vector3.z (Ray.direction ray)) 0
                       then false else true)) = true).
  { destruct (Req_dec_T (Vector3.x (Ray.direction ray)) 0) as [Ex |];
      [| reflexivity].
    destruct (Req_dec_T (Vector3.y (Ray.direction ray)) 0) as [Ey |];
      [| reflexivity].
    destruct (Req_dec_T (Vector3.z (Ray.direction ray)) 0) as [Ez |];
      [| reflexivity].
    exfalso. apply Hdir. apply vector_eq; assumption. }
  rewrite Hsome in Hw1, Hw2.
  destruct (Number.ltb tmax (Number.Finite 0)); [discriminate |].
  intros Hs. injection Hs as <-.
  destruct (Number.geb tmin (Number.Finite 0)); assumption.
Qed.

(** The box of the sample slab, expanded by the radius [1/2]. *)
Lemma slab_expanded (ty : PlatformType) :
  Box3.expandByScalar (Platform.boundingBox (Examples.slab ty)) (1 / 2)
  = Box3.mk (Vector3.mk (- 5 / 2) (- 1) (- 5 / 2))
      (Vector3.mk (5 / 2) 1 (5 / 2)).
Proof.
  unfold Box3.expandByScalar, Examples.slab, Platform.build,
    Box3.setFromObject.
  cbn [Platform.boundingBox Examples.slabConfig PlatformConfig.position
       PlatformConfig.width PlatformConfig.height PlatformConfig.depth
       Box3.min Box3.max].
  rewrite !(Rabs_right 4), !(Rabs_right 1) by lra.
  f_equal; apply vector_eq; simpl; lra.
Qed.

(** A ray that goes straight down above the middle of the expanded slab:
    from above the box it hits the top face, from inside the box it hits
    the bottom face, where it leaves. *)
Lemma intersectBox_downward (h : R) :
  - 1 <= h ->
  Ray.intersectBox (Ray.mk (Vector3.mk 0 h 0) (Vector3.mk 0 (- 1) 0))
    (Box3.mk (Vector3.mk (- 5 / 2) (- 1) (- 5 / 2))
       (Vector3.mk (5 / 2) 1 (5 / 2)))
  = Some (Vector3.mk 0 (if Rle_dec 1 h then 1 else - 1) 0).
Proof.
  intros Hh.
  unfold Ray.intersectBox, Ray.intersectBoxParameter, Ray.slab,
    Number.reciprocal.
  cbn [Ray.origin Ray.direction Box3.min Box3.max Vector3.x Vector3.y
       Vector3.z].
  destruct (Req_dec_T 0 0) as [_ | Hne]; [| exfalso; apply Hne; reflexivity].
  destruct (Req_dec_T (- 1) 0) as [Heq | _]; [lra |].
  cbn [Number.geb Number.scale].
  decide_comparisons.
  unfold Ray.narrow, Number.ltb.
  cbn [Number.gtb Number.isNaN orb].
  destruct (Rle_dec 1 h) as [Habove | Hinside].
  - decide_comparisons. cbn [Number.geb]. decide_comparisons.
    unfold Ray.pointAt. f_equal. apply vector_eq; simpl; lra.
  - decide_comparisons. cbn [Number.geb]. decide_comparisons.
    unfold Ray.pointAt. f_equal. apply vector_eq; simpl; lra.
Qed.

(** ** The branches of the collision query *)

Section QueryFacts.

Variable intersectBox : Ray.t -> Box3.t -> option Vector3.t.

Lemma query_branches (p : Platform.t) (pos : Vector3.t) (r : R)
  (v : Vector3.t) (dt : R) :
  let c := Platform.checkSphereCollision intersectBox p pos r v dt in
  c = CollisionResult.noCollision
  \/ c = Platform.handlePenetration p pos r
  \/ exists (q : Vector3.t) (toi : option R), c = contactResult p q r toi.
Proof.
  unfold Platform.checkSphereCollision.
  destruct (JS.ltb _ _ && negb _).
  - unfold Platform.checkStaticSphereCollision.
    destruct (negb _); [left; reflexivity |].
    right; right. exists pos, None. reflexivity.
  - destruct (intersectBox _ _) as [ip |].
    + destruct (JS.ltb _ _); [left; reflexivity |].
      destruct (JS.gtb _ 1 || JS.ltb _ 0); [left; reflexivity |].
      right; right. eexists ip, (Some _). reflexivity.
    + destruct (Box3.containsPoint _ _); [right; left | left]; reflexivity.
Qed.

(** The static test is taken for a slow sphere on a static platform. *)
Lemma query_static (p : Platform.t) (pos : Vector3.t) (r : R)
  (v : Vector3.t) (dt : R) :
  Vector3.lengthSq v < 1 / 10000 ->
  Platform.isMoving p = false ->
  Box3.containsPoint (Box3.expandByScalar (Platform.boundingBox p) r) pos
  = true ->
  Platform.checkSphereCollision intersectBox p pos r v dt
  = contactResult p pos r None.
Proof.
  intros Hv Hstatic Hin. unfold Platform.checkSphereCollision.
  rewrite (proj2 (ltb_true _ _) Hv), Hstatic. simpl.
  unfold Platform.checkStaticSphereCollision. rewrite Hin. reflexivity.
Qed.

(** Every contact found by the static test or the ray test carries a
    penetration within the limit. *)
Lemma contact_penetration_clamped (p : Platform.t) (q : Vector3.t) (r : R)
  (toi : option R) :
  exists d : R,
    CollisionResult.penetration (contactResult p q r toi) = Some d
    /\ 0 <= d <= Platform.maxPenetration.
Proof.
  eexists. split; [reflexivity |].
  unfold Platform.calculatePenetration, Platform.maxPenetration.
  split.
  - apply Rmin_glb; [apply Rmax_l | lra].
  - apply Rmin_r.
Qed.

End QueryFacts.

(** The slab is centred at the origin and reaches [2], [1/2] and [2] from
    it. *)
Lemma slab_center (ty : PlatformType) :
  Box3.getCenter (Platform.boundingBox (Examples.slab ty)) = Vector3.mk 0 0 0.
Proof. apply setFromObject_center. Qed.

Lemma slab_size (ty : PlatformType) :
  Box3.getSize (Platform.boundingBox (Examples.slab ty)) = Vector3.mk 4 1 4.
Proof.
  unfold Examples.slab, Platform.build; simpl.
  rewrite setFromObject_size. apply vector_eq; simpl; apply Rabs_right; lra.
Qed.

Lemma slab_contains (ty : PlatformType) (pos : Vector3.t) :
  - 5 / 2 <= Vector3.x pos <= 5 / 2 -> - 1 <= Vector3.y pos <= 1 ->
  - 5 / 2 <= Vector3.z pos <= 5 / 2 ->
  Box3.containsPoint
    (Box3.expandByScalar (Platform.boundingBox (Examples.slab ty)) (1 / 2)) pos
  = true.
Proof.
  intros Hx Hy Hz.
  unfold Box3.containsPoint, Examples.slab, Platform.build; simpl.
  rewrite !(Rabs_right 4), !(Rabs_right 1) by lra.
  rewrite !(proj2 (geb_true _ _)), !(proj2 (leb_true _ _)) by lra.
  reflexivity.
Qed.


Lemma normalize_axis (s : R) :
  s <> 0 ->
  Vector3.normalize (Vector3.mk s 0 0) = Vector3.mk (JS.sign s) 0 0
  /\ Vector3.normalize (Vector3.mk 0 s 0) = Vector3.mk 0 (JS.sign s) 0
  /\ Vector3.normalize (Vector3.mk 0 0 s) = Vector3.mk 0 0 (JS.sign s).
Proof.
  intros Hs. unfold Vector3.normalize.
  destruct (length_axis s) as [-> [-> ->]].
  assert (Habs : Rabs s <> 0) by (apply Rabs_no_R0; assumption).
  destruct (Req_dec_T (Rabs s) 0); [contradiction |].
  assert (Hdiv : s * (1 / Rabs s) = JS.sign s).
  { destruct (Rlt_dec 0 s).
    - rewrite sign_pos, Rabs_right by lra. field. lra.
    - rewrite sign_neg, Rabs_left by lra. field. lra. }
  repeat split; apply vector_eq; simpl; try lra; exact Hdiv.
Qed.

(** Every reported collision carries the effect payload of its platform. *)
Lemma query_effect (intersectBox : Ray.t -> Box3.t -> option Vector3.t)
  (p : Platform.t) (pos : Vector3.t) (r : R) (v : Vector3.t) (dt : R) :
  let c := Platform.checkSphereCollision intersectBox p pos r v dt in
  CollisionResult.collides c = true ->
  CollisionResult.platformEffect c = Some (Platform.getPlatformEffect p).
Proof.
  intros c Hc. subst c.
  destruct (query_branches intersectBox p pos r v dt)
    as [E | [E | [q [toi E]]]]; rewrite E in *.
  - discriminate Hc.
  - reflexivity.
  - reflexivity.
Qed.

(** ** Collision handling *)

(** [handleCollision] on a reported collision, step by step. *)
Lemma handleCollision_reported (platform : Platform.t)
  (c : CollisionResult.t) (n : Vector3.t) (st : GameEngine.Response) :
  CollisionResult.collides c = true ->
  CollisionResult.normal c = Some n ->
  let o := GameEngine.object st in
  let ve :=
    GameEngine.applyEffects (CollisionResult.platformEffect c)
      (EngineObject.velocity o) (GameEngine.calls st) in
  let o1 :=
    EngineObject.mk (EngineObject.mesh o) (fst ve) (EngineObject.restitution o) in
  let on := JS.gtb (Vector3.y n) (1 / 2) in
  let dot := Vector3.dot (fst ve) n in
  GameEngine.handleCollision platform c st
  = if JS.ltb dot 0 then
      GameEngine.mkResponse
        (fst (GameEngine.reflect platform n (CollisionResult.penetration c)
                on dot o1 (snd ve)))
        on
        (snd (GameEngine.reflect platform n (CollisionResult.penetration c)
                on dot o1 (snd ve)))
    else GameEngine.mkResponse o1 on (snd ve).
Proof.
  intros Hc Hn. unfold GameEngine.handleCollision. rewrite Hc, Hn.
  destruct (GameEngine.applyEffects _ _ _) as [velocity calls]. simpl.
  destruct (JS.ltb _ 0); reflexivity.
Qed.


(** A payload without forces changes nothing and logs nothing. *)
Lemma applyEffects_none (k : option Z) (u : Vector3.t) (cs : list Call) :
  GameEngine.applyEffects (Some (PlatformEffect.mk None None k)) u cs = (u, cs).
Proof. reflexivity. Qed.

(** The vertical velocity after the reflection block. *)
Lemma reflect_vertical (platform : Platform.t) (n : Vector3.t)
  (depth : option R) (on : bool) (dot : R) (o : EngineObject.t)
  (cs : list Call) :
  Vector3.y (EngineObject.velocity
               (fst (GameEngine.reflect platform n depth on dot o cs)))
  = (Vector3.y (EngineObject.velocity o) + Vector3.y n * (-2 * dot))
    * EngineObject.restitution o
    + (if JS.gtb (Vector3.length (Platform.velocity platform)) 0
       then Vector3.y (Platform.velocity platform) * (8 / 10) else 0).
Proof.
  unfold GameEngine.reflect, Platform.getVelocity. simpl.
  destruct (JS.gtb _ 0); destruct on; simpl; lra.
Qed.

(** The position after the reflection block. *)
Lemma reflect_position (platform : Platform.t) (n : Vector3.t) (d : R)
  (on : bool) (dot : R) (o : EngineObject.t) (cs : list Call) :
  d <> 0 ->
  EngineObject.position
    (fst (GameEngine.reflect platform n (Some d) on dot o cs))
  = Vector3.add (EngineObject.position o) (Vector3.multiplyScalar n d).
Proof.
  intros Hd. unfold GameEngine.reflect, JS.truthy. simpl.
  destruct (Req_dec_T d 0); [contradiction | reflexivity].
Qed.

Lemma applyEffects_calls (e : option PlatformEffect.t) (u : Vector3.t)
  (cs : list Call) :
  Forall notLevelCall cs ->
  Forall notLevelCall (snd (GameEngine.applyEffects e u cs)).
Proof.
  intros Hcs. unfold GameEngine.applyEffects.
  destruct e as [[boost bounce k] |]; [| exact Hcs]. simpl.
  assert (Hlog : forall m f w, notLevelCall (GameEngine.logCall m f w))
    by (intros; unfold notLevelCall; simpl; discriminate).
  destruct boost as [f |]; [destruct (JS.truthy (Some f)) |];
    (destruct bounce as [g |]; [destruct (JS.truthy (Some g)) |]); simpl;
    repeat (apply Forall_app; split); auto.
Qed.

Lemma reflect_calls (platform : Platform.t) (n : Vector3.t)
  (depth : option R) (on : bool) (dot : R) (o : EngineObject.t)
  (cs : list Call) :
  Forall notLevelCall cs ->
  Forall notLevelCall (snd (GameEngine.reflect platform n depth on dot o cs)).
Proof.
  intros Hcs. unfold GameEngine.reflect. simpl.
  apply Forall_app. split; [exact Hcs |].
  constructor; [| constructor]. unfold notLevelCall; simpl; discriminate.
Qed.

(** Handling a collision makes no call on the level service. *)
Lemma handleCollision_calls (platform : Platform.t) (c : CollisionResult.t)
  (st : GameEngine.Response) :
  Forall notLevelCall (GameEngine.calls st) ->
  Forall notLevelCall (GameEngine.calls (GameEngine.handleCollision platform c st)).
Proof.
  intros Hst.
  destruct (CollisionResult.collides c) eqn:Hc;
    [| unfold GameEngine.handleCollision; rewrite Hc; exact Hst].
  destruct (CollisionResult.normal c) as [n |] eqn:Hn;
    [| unfold GameEngine.handleCollision; rewrite Hc, Hn; exact Hst].
  rewrite (handleCollision_reported platform c n st Hc Hn).
  destruct (JS.ltb _ 0); cbn [GameEngine.calls].
  - apply reflect_calls. apply applyEffects_calls. exact Hst.
  - apply applyEffects_calls. exact Hst.
Qed.

Lemma resolveCollisions_calls
  (intersectBox : Ray.t -> Box3.t -> option Vector3.t)
  (platforms : JS.Map Platform.t) (dt : R) (o : EngineObject.t) :
  Forall notLevelCall
    (GameEngine.calls (GameEngine.resolveCollisions intersectBox platforms dt o)).
Proof.
  unfold GameEngine.resolveCollisions.
  assert (H : forall ps st,
             Forall notLevelCall (GameEngine.calls st) ->
             Forall notLevelCall
               (GameEngine.calls
                  (fold_left
                     (fun st platform =>
                        GameEngine.handleCollision platform
                          (Platform.checkSphereCollision intersectBox platform
                             (EngineObject.position o) (EngineObject.radius o)
                             (EngineObject.velocity (GameEngine.object st)) dt)
                          st)
                     ps st))).
  { induction ps as [| p ps IH]; intros st Hst; simpl; [exact Hst |].
    apply IH. apply handleCollision_calls. exact Hst. }
  apply H. constructor.
Qed.

Lemma no_level_call_no_notification (k : Z) (cs : list Call) :
  Forall notLevelCall cs -> ~ GameEngine.notifiesCheckpoint k cs.
Proof.
  intros Hcs [c [Hin [Hrecv _]]].
  rewrite Forall_forall in Hcs. exact (Hcs c Hin Hrecv).
Qed.


(** The effects leave a zero velocity zero. *)
Lemma applyEffects_at_rest (e : option PlatformEffect.t) (cs : list Call) :
  fst (GameEngine.applyEffects e (Vector3.mk 0 0 0) cs) = Vector3.mk 0 0 0.
Proof.
  unfold GameEngine.applyEffects.
  destruct e as [[boost bounce k] |]; [| reflexivity].
  cbn [PlatformEffect.boostForce PlatformEffect.bounceForce].
  assert (Hboost : forall f : R,
             Vector3.add (Vector3.mk 0 0 0)
               (Vector3.multiplyScalar
                  (Vector3.normalize (Vector3.mk 0 0 0)) (f * 10))
             = Vector3.mk 0 0 0).
  { intros f. rewrite normalize_zero. apply vector_eq; simpl; lra. }
  assert (Hbounce : forall g : R,
             Vector3.with_y (Vector3.mk 0 0 0)
               (Rabs (Vector3.y (Vector3.mk 0 0 0)) * g * 2)
             = Vector3.mk 0 0 0).
  { intros g. apply vector_eq; simpl; try reflexivity.
    rewrite Rabs_R0. lra. }
  destruct boost as [f |]; [destruct (JS.truthy (Some f)) |];
    rewrite ?Hboost;
    (destruct bounce as [g |]; [destruct (JS.truthy (Some g)) |]);
    cbn [fst]; rewrite ?Hbounce; reflexivity.
Qed.

(** Handling a collision leaves an object with zero velocity as it is. *)
Lemma handleCollision_at_rest (platform : Platform.t) (c : CollisionResult.t)
  (st : GameEngine.Response) :
  EngineObject.velocity (GameEngine.object st) = Vector3.mk 0 0 0 ->
  GameEngine.object (GameEngine.handleCollision platform c st)
  = GameEngine.object st.
Proof.
  intros Hv.
  destruct (CollisionResult.collides c) eqn:Hc;
    [| unfold GameEngine.handleCollision; rewrite Hc; reflexivity].
  destruct (CollisionResult.normal c) as [n |] eqn:Hn;
    [| unfold GameEngine.handleCollision; rewrite Hc, Hn; reflexivity].
  rewrite (handleCollision_reported platform c n st Hc Hn).
  rewrite Hv, applyEffects_at_rest.
  rewrite (proj2 (ltb_false _ 0))
    by (unfold Vector3.dot; simpl; lra).
  cbn [GameEngine.object]. rewrite <- Hv.
  destruct (GameEngine.object st). reflexivity.
Qed.

(** A vector equals itself. *)
Lemma equals_same (a : Vector3.t) : Vector3.equals a a = true.
Proof.
  unfold Vector3.equals.
  destruct (Req_dec_T (Vector3.x a) (Vector3.x a)); [| congruence].
  destruct (Req_dec_T (Vector3.y a) (Vector3.y a)); [| congruence].
  destruct (Req_dec_T (Vector3.z a) (Vector3.z a)); [| congruence].
  reflexivity.
Qed.

(** ** The penetration limit *)

Lemma length_multiplyScalar (a : Vector3.t) (s : R) :
  Vector3.length (Vector3.multiplyScalar a s) = Vector3.length a * Rabs s.
Proof.
  unfold Vector3.length.
  replace (Vector3.lengthSq (Vector3.multiplyScalar a s))
    with (Vector3.lengthSq a * Rsqr s)
    by (unfold Vector3.lengthSq, Vector3.dot, Rsqr; simpl; lra).
  rewrite sqrt_mult; [| apply lengthSq_nonneg | apply Rle_0_sqr].
  rewrite sqrt_Rsqr_abs. reflexivity.
Qed.

Lemma sign_abs_le_1 (a : R) : Rabs (JS.sign a) <= 1.
Proof.
  destruct (Rlt_dec 0 a).
  - rewrite sign_pos by assumption. rewrite Rabs_right; lra.
  - destruct (Rlt_dec a 0).
    + rewrite sign_neg by assumption. rewrite Rabs_left; lra.
    + replace a with 0 by lra. rewrite sign_zero, Rabs_R0. lra.
Qed.

(** The computed normal is never longer than a unit vector. *)
Lemma calculateCollisionNormal_length (p : Platform.t) (q : Vector3.t) :
  Vector3.length (Platform.calculateCollisionNormal p q) <= 1.
Proof.
  set (center := Box3.getCenter (Platform.boundingBox p)).
  set (size := Box3.getSize (Platform.boundingBox p)).
  set (dx := Platform.faceDistance (Vector3.x center) (Vector3.x size)
               (Vector3.x q)).
  set (dy := Platform.faceDistance (Vector3.y center) (Vector3.y size)
               (Vector3.y q)).
  set (dz := Platform.faceDistance (Vector3.z center) (Vector3.z size)
               (Vector3.z q)).
  destruct (Rlt_dec dx dy) as [Hxy | Hxy];
    destruct (Rlt_dec dx dz) as [Hxz | Hxz];
    try (rewrite normal_x by assumption;
         rewrite (proj1 (length_axis _)); apply sign_abs_le_1);
    (destruct (Rlt_dec dy dx) as [Hyx | Hyx];
     destruct (Rlt_dec dy dz) as [Hyz | Hyz];
     try (rewrite normal_y by assumption;
          rewrite (proj1 (proj2 (length_axis _))); apply sign_abs_le_1);
     (rewrite normal_z by (fold center size dx dy dz; lra);
      rewrite (proj2 (proj2 (length_axis _))); apply sign_abs_le_1)).
Qed.

(** For a contact found by the static test or by the ray test the
    reflection block moves the body by at most the limit. *)
Lemma contact_correction_bounded (platform p : Platform.t) (q : Vector3.t)
  (r : R) (toi : option R) (on : bool) (dot : R) (o : EngineObject.t)
  (cs : list Call) :
  let c := contactResult p q r toi in
  Vector3.length
    (Vector3.sub
       (EngineObject.position
          (fst (GameEngine.reflect platform
                  (Platform.calculateCollisionNormal p q)
                  (CollisionResult.penetration c) on dot o cs)))
       (EngineObject.position o))
  <= Platform.maxPenetration.
Proof.
  intros c.
  destruct (contact_penetration_clamped p q r toi) as [d [Hd [Hd0 Hd1]]].
  fold c in Hd. rewrite Hd. unfold Platform.maxPenetration in *.
  destruct (Req_dec_T d 0) as [-> | Hnz].
  - assert (Hsame : EngineObject.position
                      (fst (GameEngine.reflect platform
                              (Platform.calculateCollisionNormal p q)
                              (Some 0) on dot o cs))
                    = EngineObject.position o).
    { unfold GameEngine.reflect, JS.truthy. simpl.
      destruct (Req_dec_T 0 0); [reflexivity | congruence]. }
    rewrite Hsame.
    replace (Vector3.sub (EngineObject.position o) (EngineObject.position o))
      with (Vector3.mk 0 0 0)
      by (apply vector_eq; simpl; lra).
    rewrite length_zero. lra.
  - rewrite reflect_position by assumption.
    replace (Vector3.sub _ _)
      with (Vector3.multiplyScalar (Platform.calculateCollisionNormal p q) d)
      by (apply vector_eq; simpl; lra).
    rewrite length_multiplyScalar, (Rabs_right d) by lra.
    pose proof (calculateCollisionNormal_length p q) as Hn.
    assert (0 <= Vector3.length (Platform.calculateCollisionNormal p q))
      by apply sqrt_pos.
    nra.
Qed.

(** With the ray test of the library the query never falls back to
    [handlePenetration]: every collision it reports is a contact found by
    the static test or by the ray test. *)
Lemma query_contact (p : Platform.t) (pos : Vector3.t) (r : R)
  (v : Vector3.t) (dt : R) :
  let c := Platform.checkSphereCollision Ray.intersectBox p pos r v dt in
  CollisionResult.collides c = true ->
  exists (q : Vector3.t) (toi : option R), c = contactResult p q r toi.
Proof.
  intros c Hc. subst c. revert Hc.
  unfold Platform.checkSphereCollision.
  destruct (JS.ltb _ _ && negb _).
  - unfold Platform.checkStaticSphereCollision.
    destruct (negb _); [discriminate |].
    intros _. exists pos, None. reflexivity.
  - destruct (Ray.intersectBox _ _) as [ip |] eqn:Hray.
    + destruct (JS.ltb _ _); [discriminate |].
      destruct (JS.gtb _ 1 || JS.ltb _ 0); [discriminate |].
      intros _. eexists ip, (Some _). reflexivity.
    + destruct (Box3.containsPoint _ _) eqn:Hin; [| discriminate].
      exfalso. revert Hray. apply intersectBox_inside. exact Hin.
Qed.

(** C1.  Every collision that the swept-sphere query reports, with the ray
    test of the library, carries a penetration between [0] and the limit
    [0.1], and handling it in the response moves the body by at most [0.1].
    The fallback [handlePenetration], which would report the radius plus
    [0.01], is never taken: the ray test does not miss from inside the
    expanded box. *)
Theorem penetration_within_limit (p : Platform.t) (pos : Vector3.t) (r : R)
  (v : Vector3.t) (dt : R) (st : GameEngine.Response) :
  let c := Platform.checkSphereCollision Ray.intersectBox p pos r v dt in
  CollisionResult.collides c = true ->
  (exists d : R,
     CollisionResult.penetration c = Some d
     /\ 0 <= d <= Platform.maxPenetration)
  /\ Platform.maxPenetration = 1 / 10
  /\ Vector3.distanceTo
       (EngineObject.position
          (GameEngine.object (GameEngine.handleCollision p c st)))
       (EngineObject.position (GameEngine.object st))
     <= Platform.maxPenetration.
Proof.
  intros c Hc.
  destruct (query_contact p pos r v dt Hc) as [q [toi Hq]].
  fold c in Hq. clearbody c. subst c.
  split; [apply contact_penetration_clamped |].
  split; [reflexivity |].
  rewrite (handleCollision_reported p _ (Platform.calculateCollisionNormal p q)
             st Hc eq_refl).
  unfold Vector3.distanceTo.
  destruct (JS.ltb _ 0).
  - cbn [GameEngine.object].
    match goal with
    | |- context [GameEngine.reflect p _ _ _ _ ?o _] =>
        change (EngineObject.position (GameEngine.object st))
          with (EngineObject.position o)
    end.
    apply (contact_correction_bounded p p q r toi).
  - cbn [GameEngine.object].
    replace (Vector3.sub _ _) with (Vector3.mk 0 0 0)
      by (apply vector_eq; unfold Vector3.sub, EngineObject.position;
          cbn [EngineObject.mesh Vector3.x Vector3.y Vector3.z]; lra).
    rewrite length_zero. unfold Platform.maxPenetration. lra.
Qed.

(** A ball of radius [1/2] that falls at speed [3] from height [3/2] onto
    the slab is stopped by the ray test at the top face of the expanded box,
    half a unit below. *)
Lemma falling_ball_meets_slab :
  Platform.checkSphereCollision Ray.intersectBox (Examples.slab NORMAL)
    (Vector3.mk 0 (3 / 2) 0) (1 / 2) (Vector3.mk 0 (- 3) 0) (1 / 60)
  = contactResult (Examples.slab NORMAL) (Vector3.mk 0 1 0) (1 / 2)
      (Some (1 / 2)).
Proof.
  unfold Platform.checkSphereCollision.
  rewrite (proj2 (ltb_false (Vector3.lengthSq (Vector3.mk 0 (- 3) 0))
                    (1 / 10000)))
    by (unfold Vector3.lengthSq, Vector3.dot; simpl; lra).
  cbn [andb]. rewrite slab_expanded.
  replace (Vector3.multiplyScalar
             (Vector3.sub (Vector3.mk 0 (- 3) 0)
                (Platform.velocity (Examples.slab NORMAL))) (1 / 60))
    with (Vector3.mk 0 (- (1 / 20)) 0)
    by (apply vector_eq; simpl; lra).
  destruct (normalize_axis (- (1 / 20))) as [_ [-> _]]; [lra |].
  rewrite sign_neg by lra.
  rewrite intersectBox_downward by lra.
  destruct (Rle_dec 1 (3 / 2)) as [_ | Hn]; [| lra].
  assert (Hlen : Vector3.length (Vector3.mk 0 (- 1) 0) = 1)
    by (rewrite (proj1 (proj2 (length_axis (- 1)))); rewrite Rabs_left; lra).
  assert (Hdist : Vector3.distanceTo (Vector3.mk 0 (3 / 2) 0)
                    (Vector3.mk 0 1 0) = 1 / 2).
  { unfold Vector3.distanceTo.
    replace (Vector3.sub (Vector3.mk 0 (3 / 2) 0) (Vector3.mk 0 1 0))
      with (Vector3.mk 0 (1 / 2) 0) by (apply vector_eq; simpl; lra).
    rewrite (proj1 (proj2 (length_axis (1 / 2)))).
    rewrite Rabs_right; lra. }
  rewrite Hlen, Hdist. replace (1 / 2 / 1) with (1 / 2) by lra.
  decide_comparisons. reflexivity.
Qed.

Lemma penetration_within_limit_witness :
  (exists d : R,
     CollisionResult.penetration
       (Platform.checkSphereCollision Ray.intersectBox (Examples.slab NORMAL)
          (Vector3.mk 0 (3 / 2) 0) (1 / 2) (Vector3.mk 0 (- 3) 0) (1 / 60))
     = Some d
     /\ 0 <= d <= Platform.maxPenetration)
  /\ Platform.maxPenetration = 1 / 10
  /\ Vector3.distanceTo
       (EngineObject.position
          (GameEngine.object
             (GameEngine.handleCollision (Examples.slab NORMAL)
                (Platform.checkSphereCollision Ray.intersectBox
                   (Examples.slab NORMAL) (Vector3.mk 0 (3 / 2) 0) (1 / 2)
                   (Vector3.mk 0 (- 3) 0) (1 / 60))
                (GameEngine.mkResponse
                   (Examples.engineBall (Vector3.mk 0 (3 / 2) 0)
                      (Vector3.mk 0 0 0))
                   false []))))
       (EngineObject.position
          (GameEngine.object
             (GameEngine.mkResponse
                (Examples.engineBall (Vector3.mk 0 (3 / 2) 0)
                   (Vector3.mk 0 0 0))
                false [])))
     <= Platform.maxPenetration.
Proof.
  apply (penetration_within_limit (Examples.slab NORMAL)
           (Vector3.mk 0 (3 / 2) 0) (1 / 2) (Vector3.mk 0 (- 3) 0) (1 / 60)
           (GameEngine.mkResponse
              (Examples.engineBall (Vector3.mk 0 (3 / 2) 0)
                 (Vector3.mk 0 0 0))
              false [])).
  rewrite falling_ball_meets_slab. reflexivity.
Defined.

(** The same ball with its centre already inside the expanded box: the ray
    test reports the point where the ray leaves the box, [7/4] below, which
    is further than the query accepts; there is no collision, and no
    fallback. *)
Lemma falling_ball_inside_slab :
  Platform.checkSphereCollision Ray.intersectBox (Examples.slab NORMAL)
    (Vector3.mk 0 (3 / 4) 0) (1 / 2) (Vector3.mk 0 (- 3) 0) (1 / 60)
  = CollisionResult.noCollision.
Proof.
  unfold Platform.checkSphereCollision.
  rewrite (proj2 (ltb_false (Vector3.lengthSq (Vector3.mk 0 (- 3) 0))
                    (1 / 10000)))
    by (unfold Vector3.lengthSq, Vector3.dot; simpl; lra).
  cbn [andb]. rewrite slab_expanded.
  replace (Vector3.multiplyScalar
             (Vector3.sub (Vector3.mk 0 (- 3) 0)
                (Platform.velocity (Examples.slab NORMAL))) (1 / 60))
    with (Vector3.mk 0 (- (1 / 20)) 0)
    by (apply vector_eq; simpl; lra).
  destruct (normalize_axis (- (1 / 20))) as [_ [-> _]]; [lra |].
  rewrite sign_neg by lra.
  rewrite intersectBox_downward by lra.
  destruct (Rle_dec 1 (3 / 4)) as [Hn | _]; [lra |].
  assert (Hlen : Vector3.length (Vector3.mk 0 (- 1) 0) = 1)
    by (rewrite (proj1 (proj2 (length_axis (- 1)))); rewrite Rabs_left; lra).
  assert (Hdist : Vector3.distanceTo (Vector3.mk 0 (3 / 4) 0)
                    (Vector3.mk 0 (- 1) 0) = 7 / 4).
  { unfold Vector3.distanceTo.
    replace (Vector3.sub (Vector3.mk 0 (3 / 4) 0) (Vector3.mk 0 (- 1) 0))
      with (Vector3.mk 0 (7 / 4) 0) by (apply vector_eq; simpl; lra).
    rewrite (proj1 (proj2 (length_axis (7 / 4)))).
    rewrite Rabs_right; lra. }
  rewrite Hlen, Hdist. replace (7 / 4 / 1) with (7 / 4) by lra.
  decide_comparisons. reflexivity.
Qed.

(** ** Contact normals *)

(** Decide a goal on absolute values and minima by cases. *)
Ltac split_abs :=
  unfold Platform.faceDistance, Rmin, Rmax, Rabs;
  repeat match goal with
  | |- context [Rcase_abs ?a] => destruct (Rcase_abs a)
  end;
  repeat match goal with
  | |- context [Rle_dec ?a ?b] => destruct (Rle_dec a b)
  end;
  lra.

(** Above or below the middle of the slab the nearest face is the top or
    the bottom face. *)
Lemma slab_selects_vertical (ty : PlatformType) (h : R) :
  0 < Rabs h < 5 / 2 ->
  Platform.selectsNearestFace (Examples.slab ty) (Vector3.mk 0 h 0).
Proof.
  intros Hh. unfold Platform.selectsNearestFace.
  rewrite slab_center, slab_size. cbn [Vector3.x Vector3.y Vector3.z].
  right; left. repeat split.
  - revert Hh. split_abs.
  - revert Hh. split_abs.
  - intros ->. rewrite Rabs_R0 in Hh. lra.
Qed.

Lemma slab_normal_vertical (ty : PlatformType) (h : R) :
  0 < Rabs h < 5 / 2 ->
  Platform.calculateCollisionNormal (Examples.slab ty) (Vector3.mk 0 h 0)
  = Vector3.mk 0 (JS.sign h) 0.
Proof.
  intros Hh. rewrite normal_y.
  - rewrite slab_center. cbn [Vector3.y]. f_equal. f_equal. lra.
  - rewrite slab_center, slab_size. cbn [Vector3.x Vector3.y Vector3.z].
    revert Hh. split_abs.
  - rewrite slab_center, slab_size. cbn [Vector3.x Vector3.y Vector3.z].
    revert Hh. split_abs.
Qed.


(** C7 at a tie.  A ball of radius [1/2] at rest at [(1.75, 0.25, 0.125)]
    overlaps the static slab near its edge: the nearest faces are the +x
    face and the top face, both [0.25] away, and the z faces are [1.875]
    away.  Neither [dx] nor [dy] is strictly the smallest, so
    [calculateCollisionNormal] falls through to its last branch and the
    reported normal is [(0, 0, 1)], the axis of the farthest faces. *)
Theorem tied_faces_select_far_axis :
  let p := Examples.slab NORMAL in
  let pos := Vector3.mk (7 / 4) (1 / 4) (1 / 8) in
  let c :=
    Platform.checkSphereCollision Ray.intersectBox p pos (1 / 2)
      (Vector3.mk 0 0 0) (1 / 60) in
  let center := Box3.getCenter (Platform.boundingBox p) in
  let size := Box3.getSize (Platform.boundingBox p) in
  CollisionResult.collides c = true
  /\ CollisionResult.point c = Some pos
  /\ Platform.faceDistance (Vector3.x center) (Vector3.x size) (Vector3.x pos)
     = 1 / 4
  /\ Platform.faceDistance (Vector3.y center) (Vector3.y size) (Vector3.y pos)
     = 1 / 4
  /\ Platform.faceDistance (Vector3.z center) (Vector3.z size) (Vector3.z pos)
     = 15 / 8
  /\ CollisionResult.normal c = Some (Vector3.mk 0 0 1)
  /\ ~ Platform.isNearestFaceNormal p pos (Vector3.mk 0 0 1).
Proof.
  intros p pos c center size.
  assert (Hq : c = contactResult p pos (1 / 2) None).
  { apply query_static.
    - unfold Vector3.lengthSq, Vector3.dot; simpl. lra.
    - reflexivity.
    - apply slab_contains; simpl; lra. }
  assert (Hcenter : center = Vector3.mk 0 0 0) by apply slab_center.
  assert (Hsize : size = Vector3.mk 4 1 4) by apply slab_size.
  assert (Hdx : Platform.faceDistance (Vector3.x center) (Vector3.x size)
                  (Vector3.x pos) = 1 / 4).
  { rewrite Hcenter, Hsize. cbn [Vector3.x pos]. split_abs. }
  assert (Hdy : Platform.faceDistance (Vector3.y center) (Vector3.y size)
                  (Vector3.y pos) = 1 / 4).
  { rewrite Hcenter, Hsize. cbn [Vector3.y pos]. split_abs. }
  assert (Hdz : Platform.faceDistance (Vector3.z center) (Vector3.z size)
                  (Vector3.z pos) = 15 / 8).
  { rewrite Hcenter, Hsize. cbn [Vector3.z pos]. split_abs. }
  split; [rewrite Hq; reflexivity |].
  split; [rewrite Hq; reflexivity |].
  split; [exact Hdx |]. split; [exact Hdy |]. split; [exact Hdz |].
  split.
  - rewrite Hq. unfold contactResult. cbn [CollisionResult.normal].
    rewrite normal_z.
    + fold center. rewrite Hcenter. cbn [Vector3.z pos].
      rewrite sign_pos by lra. reflexivity.
    + fold center size. rewrite Hdx, Hdy. lra.
    + fold center size. rewrite Hdx, Hdy. lra.
  - unfold Platform.isNearestFaceNormal. fold center size.
    rewrite Hdx, Hdy, Hdz.
    intros [sgn [_ [[H _] | [[H _] | [_ [_ [H _]]]]]]].
    + inversion H. lra.
    + inversion H. lra.
    + lra.
Qed.

(** At the centre of the slab the selected axis has [Math.sign(0) = 0]: the
    reported normal is the zero vector, a unit axis of no face. *)
Lemma centred_ball_has_zero_normal :
  let p := Examples.slab NORMAL in
  let c :=
    Platform.checkSphereCollision Ray.intersectBox p (Vector3.mk 0 0 0)
      (1 / 2) (Vector3.mk 0 0 0) (1 / 60) in
  CollisionResult.collides c = true
  /\ CollisionResult.normal c = Some (Vector3.mk 0 0 0).
Proof.
  intros p c.
  assert (Hq : c = contactResult p (Vector3.mk 0 0 0) (1 / 2) None).
  { apply query_static.
    - unfold Vector3.lengthSq, Vector3.dot; simpl. lra.
    - reflexivity.
    - apply slab_contains; simpl; lra. }
  split; [rewrite Hq; reflexivity |].
  rewrite Hq. unfold contactResult. cbn [CollisionResult.normal].
  rewrite normal_y.
  - unfold p. rewrite slab_center. cbn [Vector3.y].
    replace (0 - 0) with 0 by lra. rewrite sign_zero. reflexivity.
  - unfold p. rewrite slab_center, slab_size.
    cbn [Vector3.x Vector3.y Vector3.z]. split_abs.
  - unfold p. rewrite slab_center, slab_size.
    cbn [Vector3.x Vector3.y Vector3.z]. split_abs.
Qed.

(** ** The bounce effect *)






(** ** Checkpoints *)

(** C6, as the code has it.  The query attaches the checkpoint index of a
    checkpoint platform to the effect payload of the collision, and the
    response never reads it: handling the collision gives the same result
    whatever index the payload carries, it makes no call on the level
    service, and the whole platform loop hands no checkpoint index to the
    level service. *)
Theorem checkpoint_index_not_passed_on
  (intersectBox : Ray.t -> Box3.t -> option Vector3.t)
  (p : Platform.t) (pos : Vector3.t) (r : R) (v : Vector3.t) (dt : R)
  (st : GameEngine.Response) :
  Platform.type p = CHECKPOINT ->
  let c := Platform.checkSphereCollision intersectBox p pos r v dt in
  CollisionResult.collides c = true ->
  CollisionResult.platformEffect c
  = Some (PlatformEffect.mk None None (Some (Platform.checkpointIndex p)))
  /\ (forall k : option Z,
        GameEngine.handleCollision p
          (CollisionResult.mk (CollisionResult.collides c)
             (CollisionResult.normal c) (CollisionResult.penetration c)
             (CollisionResult.time c) (CollisionResult.point c)
             (CollisionResult.platformType c)
             (Some (PlatformEffect.mk None None k)))
          st
        = GameEngine.handleCollision p c st)
  /\ (Forall notLevelCall (GameEngine.calls st) ->
      Forall notLevelCall
        (GameEngine.calls (GameEngine.handleCollision p c st)))
  /\ (forall (platforms : JS.Map Platform.t) (o : EngineObject.t) (k : Z),
        ~ GameEngine.notifiesCheckpoint k
            (GameEngine.calls
               (GameEngine.resolveCollisions intersectBox platforms dt o))).
Proof.
  intros Hty c Hc.
  assert (He : CollisionResult.platformEffect c
               = Some (PlatformEffect.mk None None
                         (Some (Platform.checkpointIndex p)))).
  { unfold c. rewrite query_effect by exact Hc.
    unfold Platform.getPlatformEffect. rewrite Hty. reflexivity. }
  split; [exact He |]. split; [| split].
  - intros k. destruct c as [co no pe ti po ty ef].
    cbn [CollisionResult.platformEffect] in He. rewrite He. reflexivity.
  - apply handleCollision_calls.
  - intros platforms o k.
    apply no_level_call_no_notification, resolveCollisions_calls.
Qed.

Lemma checkpoint1_contains :
  Box3.containsPoint
    (Box3.expandByScalar (Platform.boundingBox Examples.checkpoint1) (1 / 2))
    (Vector3.mk 0 (27 / 10) (-30))
  = true.
Proof.
  unfold Box3.containsPoint, Examples.checkpoint1, Platform.build; simpl.
  rewrite !(Rabs_right 4), !(Rabs_right (1 / 2)), !(Rabs_right 2) by lra.
  rewrite !(proj2 (geb_true _ _)), !(proj2 (leb_true _ _)) by lra.
  reflexivity.
Qed.

Lemma checkpoint_index_not_passed_on_witness :
  let pos := Vector3.mk 0 (27 / 10) (-30) in
  let c :=
    Platform.checkSphereCollision Ray.intersectBox Examples.checkpoint1 pos
      (1 / 2) (Vector3.mk 0 0 0) (1 / 60) in
  CollisionResult.platformEffect c
  = Some (PlatformEffect.mk None None (Some (-1)%Z)).
Proof.
  intros pos c.
  refine (proj1 (checkpoint_index_not_passed_on Ray.intersectBox
                   Examples.checkpoint1 pos (1 / 2) (Vector3.mk 0 0 0) (1 / 60)
                   (GameEngine.mkResponse
                      (Examples.engineBall pos (Vector3.mk 0 0 0)) false [])
                   eq_refl _)).
  rewrite query_static.
  - reflexivity.
  - unfold Vector3.lengthSq, Vector3.dot; simpl. lra.
  - reflexivity.
  - apply checkpoint1_contains.
Defined.

(** C6 as stated fails: the ball resting on the checkpoint of the test track
    is reported as colliding with it, with the index in the payload, and the
    platform loop makes no call at all, so none on the level service. *)
Lemma checkpoint_collision_not_notified :
  let pos := Vector3.mk 0 (27 / 10) (-30) in
  let ballAtRest := Examples.engineBall pos (Vector3.mk 0 0 0) in
  let c :=
    Platform.checkSphereCollision Ray.intersectBox Examples.checkpoint1 pos
      (1 / 2) (Vector3.mk 0 0 0) (1 / 60) in
  let response :=
    GameEngine.resolveCollisions Ray.intersectBox
      [("checkpoint1"%string, Examples.checkpoint1)] (1 / 60) ballAtRest in
  CollisionResult.collides c = true
  /\ CollisionResult.platformType c = Some CHECKPOINT
  /\ CollisionResult.platformEffect c
     = Some (PlatformEffect.mk None None (Some (-1)%Z))
  /\ GameEngine.calls response = []
  /\ ~ GameEngine.notifiesCheckpoint (-1) (GameEngine.calls response).
Proof.
  intros pos ballAtRest c response.
  assert (Hq : c = contactResult Examples.checkpoint1 pos (1 / 2) None).
  { apply query_static.
    - unfold Vector3.lengthSq, Vector3.dot; simpl. lra.
    - reflexivity.
    - apply checkpoint1_contains. }
  assert (Hcalls : GameEngine.calls response = []).
  { unfold response, GameEngine.resolveCollisions, JS.values.
    cbn [List.map fold_left snd GameEngine.object].
    change (Platform.checkSphereCollision Ray.intersectBox Examples.checkpoint1
              (EngineObject.position ballAtRest) (EngineObject.radius ballAtRest)
              (EngineObject.velocity ballAtRest) (1 / 60)) with c.
    rewrite (handleCollision_reported Examples.checkpoint1 c
               (Platform.calculateCollisionNormal Examples.checkpoint1 pos));
      [| rewrite Hq; reflexivity | rewrite Hq; reflexivity].
    replace (CollisionResult.platformEffect c)
      with (Some (PlatformEffect.mk None None (Some (-1)%Z)))
      by (rewrite Hq; reflexivity).
    rewrite applyEffects_none. cbn [fst snd GameEngine.object GameEngine.calls].
    rewrite (proj2 (ltb_false _ 0)); [reflexivity |].
    unfold Vector3.dot, ballAtRest; simpl. lra. }
  split; [rewrite Hq; reflexivity |].
  split; [rewrite Hq; reflexivity |].
  split; [rewrite Hq; reflexivity |].
  split; [exact Hcalls |].
  rewrite Hcalls. intros [call [Hin _]]. destruct Hin.
Qed.

(** * Further properties *)

(** ** Moving platforms *)

Lemma update_keeps_parameters (p : Platform.t) (dt : R) :
  Platform.initialPosition (Platform.update p dt) = Platform.initialPosition p
  /\ Platform.moveAxis (Platform.update p dt) = Platform.moveAxis p
  /\ Platform.moveDistance (Platform.update p dt) = Platform.moveDistance p
  /\ Platform.isMoving (Platform.update p dt) = Platform.isMoving p.
Proof.
  unfold Platform.update. destruct (Platform.isMoving p) eqn:E; simpl;
    repeat split; auto.
Qed.

(** One update keeps the platform within its travel. *)
Lemma update_withinTravel (p : Platform.t) (dt : R) :
  Platform.withinTravel p -> Platform.withinTravel (Platform.update p dt).
Proof.
  intros Hp. unfold Platform.update.
  destruct (Platform.isMoving p); simpl; [| exact Hp].
  intros a. specialize (Hp a). unfold Platform.withinTravel in *.
  cbn [Platform.position Platform.initialPosition Platform.moveAxis
       Platform.moveDistance].
  set (offset := cos ((Platform.accumulatedTime p + dt) * Platform.moveSpeed p)
                 * Platform.moveDistance p).
  assert (Hoff : Rabs offset <= Rabs (Platform.moveDistance p)).
  { unfold offset. rewrite Rabs_mult.
    pose proof (COS_bound ((Platform.accumulatedTime p + dt)
                           * Platform.moveSpeed p)) as [Hlo Hhi].
    pose proof (Rabs_pos (Platform.moveDistance p)).
    assert (Rabs (cos ((Platform.accumulatedTime p + dt)
                       * Platform.moveSpeed p)) <= 1)
      by (apply Rabs_le; lra).
    nra. }
  revert Hp Hoff.
  generalize (Rabs_pos (Platform.moveDistance p)).
  destruct a, (Platform.moveAxis p);
    unfold Platform.coordinate, Vector3.lerp; simpl;
    unfold Rabs;
    repeat match goal with
    | |- context [Rcase_abs ?e] => destruct (Rcase_abs e)
    end;
    intros; lra.
Qed.

(** The box of an updated platform is the box of its mesh. *)
Lemma update_box (p : Platform.t) (dt : R) :
  Platform.boundingBox p
  = Box3.setFromObject (Platform.position p) (Platform.width p)
      (Platform.height p) (Platform.depth p) ->
  Platform.boundingBox (Platform.update p dt)
  = Box3.setFromObject (Platform.position (Platform.update p dt))
      (Platform.width (Platform.update p dt))
      (Platform.height (Platform.update p dt))
      (Platform.depth (Platform.update p dt)).
Proof.
  intros Hp. unfold Platform.update.
  destruct (Platform.isMoving p); simpl; [reflexivity | exact Hp].
Qed.

(** X1.  A platform made by the constructor and updated any number of times,
    with any time steps, stays on the line through its initial position
    along its move axis, at most its move distance away from it, and its
    bounding box stays centred at its position. *)
Theorem platform_stays_within_travel (config : PlatformConfig.t)
  (steps : list R) :
  let p := fold_left Platform.update steps (Platform.build config) in
  Platform.withinTravel p
  /\ Box3.getCenter (Platform.boundingBox p) = Platform.position p
  /\ Platform.initialPosition p = PlatformConfig.position config.
Proof.
  assert (H : forall (p0 : Platform.t),
             Platform.withinTravel p0 ->
             Platform.boundingBox p0
             = Box3.setFromObject (Platform.position p0) (Platform.width p0)
                 (Platform.height p0) (Platform.depth p0) ->
             let p := fold_left Platform.update steps p0 in
             Platform.withinTravel p
             /\ Platform.boundingBox p
                = Box3.setFromObject (Platform.position p) (Platform.width p)
                    (Platform.height p) (Platform.depth p)
             /\ Platform.initialPosition p = Platform.initialPosition p0).
  { induction steps as [| dt steps IH]; intros p0 Hin Hbox; simpl.
    - repeat split; assumption.
    - destruct (IH (Platform.update p0 dt)) as [H1 [H2 H3]].
      + apply update_withinTravel. exact Hin.
      + apply update_box. exact Hbox.
      + repeat split; try assumption.
        rewrite H3. apply update_keeps_parameters. }
  destruct (H (Platform.build config)) as [H1 [H2 H3]].
  - intros a. unfold Platform.build; simpl.
    replace (Platform.coordinate a (PlatformConfig.position config)
             - Platform.coordinate a (PlatformConfig.position config))
      with 0 by lra.
    rewrite Rabs_R0.
    destruct a, (JS.nullish (PlatformConfig.moveAxis config) AxisY);
      try apply Rabs_pos; lra.
  - reflexivity.
  - split; [exact H1 |]. split; [| exact H3].
    rewrite H2. apply setFromObject_center.
Qed.

(** ** Construction defaults *)

Lemma orElse_nonzero (o : option R) (d : R) : d <> 0 -> JS.orElse o d <> 0.
Proof.
  intros Hd. unfold JS.orElse. destruct o as [v |]; [| exact Hd].
  destruct (Req_dec_T v 0); assumption.
Qed.

(** X2.  The constructor replaces a configured value of zero by its default:
    a constructed platform never has a zero boost force, bounce force, move
    speed or move distance, and never a checkpoint index of [0] (a checkpoint
    configured with index [0] gets [-1]).  Non-zero values are kept. *)
Theorem constructor_replaces_zero (config : PlatformConfig.t) :
  exists p : Platform.t,
    Platform.constructor config = JS.Returned p
    /\ Platform.boostForce p <> 0
    /\ Platform.bounceForce p <> 0
    /\ Platform.moveSpeed p <> 0
    /\ Platform.moveDistance p <> 0
    /\ Platform.checkpointIndex p <> 0%Z
    /\ (PlatformConfig.checkpointIndex config = Some 0%Z ->
        Platform.checkpointIndex p = (-1)%Z)
    /\ (forall k : Z,
          PlatformConfig.checkpointIndex config = Some k -> k <> 0%Z ->
          Platform.checkpointIndex p = k)
    /\ (forall f : R,
          PlatformConfig.boostForce config = Some f -> f <> 0 ->
          Platform.boostForce p = f)
    /\ (forall f : R,
          PlatformConfig.bounceForce config = Some f -> f <> 0 ->
          Platform.bounceForce p = f).
Proof.
  exists (Platform.build config). split; [reflexivity |].
  unfold Platform.build; simpl.
  repeat split; try (apply orElse_nonzero; lra).
  - unfold JS.orElseZ.
    destruct (PlatformConfig.checkpointIndex config) as [k |]; [| lia].
    destruct (Z.eqb k 0) eqn:E; [lia | apply Z.eqb_neq; exact E].
  - intros ->. reflexivity.
  - intros k -> Hk. unfold JS.orElseZ.
    apply Z.eqb_neq in Hk. rewrite Hk. reflexivity.
  - intros f -> Hf. unfold JS.orElse.
    destruct (Req_dec_T f 0); [contradiction | reflexivity].
  - intros f -> Hf. unfold JS.orElse.
    destruct (Req_dec_T f 0); [contradiction | reflexivity].
Qed.

(** ** Points on a platform *)

(** X3.  For a constructed platform with non-negative dimensions and a
    non-negative threshold, every point of the upper half of the bounding box
    is on the platform, and no point below the centre of the box is, not even
    one inside the box. *)
Theorem isPointOnPlatform_upper_half (config : PlatformConfig.t)
  (point : Vector3.t) (threshold : option R) :
  0 <= PlatformConfig.width config ->
  0 <= PlatformConfig.height config ->
  0 <= PlatformConfig.depth config ->
  0 <= JS.nullish threshold (1 / 10) ->
  let p := Platform.build config in
  (Box3.containsPoint (Platform.boundingBox p) point = true ->
   Vector3.y (Platform.position p) <= Vector3.y point ->
   Platform.isPointOnPlatform p point threshold = true)
  /\ (Vector3.y point < Vector3.y (Platform.position p) ->
      Platform.isPointOnPlatform p point threshold = false).
Proof.
  intros Hw Hh Hd Ht p. split.
  - unfold Box3.containsPoint, Platform.isPointOnPlatform, p, Platform.build.
    simpl. rewrite !(Rabs_right _ (Rle_ge _ _ Hw)),
      !(Rabs_right _ (Rle_ge _ _ Hh)), !(Rabs_right _ (Rle_ge _ _ Hd)).
    rewrite !andb_true_iff, !geb_true, !leb_true. lra.
  - intros Hlow. unfold Platform.isPointOnPlatform, Platform.getPosition.
    rewrite (proj2 (geb_false (Vector3.y point) _)) by exact Hlow.
    rewrite !andb_false_r. reflexivity.
Qed.

Lemma isPointOnPlatform_upper_half_witness :
  Platform.isPointOnPlatform (Examples.slab NORMAL)
    (Vector3.mk 1 (1 / 4) (-1)) None = true
  /\ Platform.isPointOnPlatform (Examples.slab NORMAL)
       (Vector3.mk 1 (- 1 / 4) (-1)) None = false.
Proof.
  split.
  - refine (proj1 (isPointOnPlatform_upper_half (Examples.slabConfig NORMAL)
                     (Vector3.mk 1 (1 / 4) (-1)) None _ _ _ _) _ _);
      try (simpl; lra).
    unfold Box3.containsPoint, Platform.build; simpl.
    rewrite !(Rabs_right 4), !(Rabs_right 1) by lra.
    rewrite !(proj2 (geb_true _ _)), !(proj2 (leb_true _ _)) by lra.
    reflexivity.
  - refine (proj2 (isPointOnPlatform_upper_half (Examples.slabConfig NORMAL)
                     (Vector3.mk 1 (- 1 / 4) (-1)) None _ _ _ _) _);
      simpl; lra.
Defined.

(** ** The ray test of the collision query *)

Lemma normalize_length (a : Vector3.t) :
  a <> Vector3.mk 0 0 0 -> Vector3.length (Vector3.normalize a) = 1.
Proof.
  intros Ha. pose proof (length_pos a Ha) as Hpos.
  unfold Vector3.normalize, Vector3.divideScalar.
  destruct (Req_dec_T (Vector3.length a) 0); [lra |].
  rewrite length_multiplyScalar.
  rewrite Rabs_right.
  - field. lra.
  - apply Rle_ge. apply Rlt_le. apply Rdiv_lt_0_compat; lra.
Qed.

Lemma distanceTo_nonneg (a b : Vector3.t) : 0 <= Vector3.distanceTo a b.
Proof. unfold Vector3.distanceTo, Vector3.length. apply sqrt_pos. Qed.

(** X4.  When the ray test is taken and hits with a non-zero relative
    displacement, the in-place [normalize()] has made the path a unit vector:
    the time of impact is the distance from the sphere to the hit point in
    world units, whatever the speed and the time step are, and the hit is
    accepted exactly when that distance is at most [1]. *)
Theorem ray_hit_time_is_distance
  (intersectBox : Ray.t -> Box3.t -> option Vector3.t)
  (p : Platform.t) (pos : Vector3.t) (r : R) (v : Vector3.t) (dt : R)
  (hit : Vector3.t) :
  JS.ltb (Vector3.lengthSq v) (1 / 10000) && negb (Platform.isMoving p)
  = false ->
  Vector3.multiplyScalar (Vector3.sub v (Platform.velocity p)) dt
  <> Vector3.mk 0 0 0 ->
  intersectBox
    (Ray.mk pos
       (Vector3.normalize
          (Vector3.multiplyScalar (Vector3.sub v (Platform.velocity p)) dt)))
    (Box3.expandByScalar (Platform.boundingBox p) r)
  = Some hit ->
  let c := Platform.checkSphereCollision intersectBox p pos r v dt in
  let d := Vector3.distanceTo pos hit in
  (d <= 1 -> c = contactResult p hit r (Some d))
  /\ (1 < d -> c = CollisionResult.noCollision).
Proof.
  intros Hbranch Hpath Hhit c d. subst c.
  unfold Platform.checkSphereCollision.
  rewrite Hbranch, Hhit, (normalize_length _ Hpath).
  rewrite (proj2 (ltb_false 1 (1 / 10000))) by lra.
  replace (Vector3.distanceTo pos hit / 1) with d by (unfold d; field).
  pose proof (distanceTo_nonneg pos hit) as Hd. fold d in Hd.
  split; intros Hle.
  - rewrite (proj2 (gtb_false d 1)) by lra.
    rewrite (proj2 (ltb_false d 0)) by lra. reflexivity.
  - rewrite (proj2 (gtb_true d 1)) by lra. reflexivity.
Qed.

Lemma ray_hit_time_is_distance_witness :
  let c :=
    Platform.checkSphereCollision (Examples.hitAt (Vector3.mk 0 1 0))
      (Examples.slab NORMAL) (Vector3.mk 0 2 0) (1 / 2) (Vector3.mk 0 (-3) 0)
      (1 / 60) in
  let d := Vector3.distanceTo (Vector3.mk 0 2 0) (Vector3.mk 0 1 0) in
  (d <= 1 ->
   c = contactResult (Examples.slab NORMAL) (Vector3.mk 0 1 0) (1 / 2) (Some d))
  /\ (1 < d -> c = CollisionResult.noCollision).
Proof.
  apply (ray_hit_time_is_distance (Examples.hitAt (Vector3.mk 0 1 0))
           (Examples.slab NORMAL) (Vector3.mk 0 2 0) (1 / 2)
           (Vector3.mk 0 (-3) 0) (1 / 60) (Vector3.mk 0 1 0)).
  - apply andb_false_iff. left. apply ltb_false.
    unfold Vector3.lengthSq, Vector3.dot; simpl. lra.
  - simpl. intros H. inversion H. lra.
  - reflexivity.
Defined.

(** X5.  When the sphere has no displacement relative to the platform (the
    same velocity, or a zero time step) and the static test is not taken, a
    hit of the ray test gives no collision, also when the centre of the
    sphere is inside the expanded box. *)
Theorem no_relative_motion_no_contact
  (intersectBox : Ray.t -> Box3.t -> option Vector3.t)
  (p : Platform.t) (pos : Vector3.t) (r : R) (v : Vector3.t) (dt : R)
  (hit : Vector3.t) :
  JS.ltb (Vector3.lengthSq v) (1 / 10000) && negb (Platform.isMoving p)
  = false ->
  v = Platform.velocity p \/ dt = 0 ->
  intersectBox (Ray.mk pos (Vector3.mk 0 0 0))
    (Box3.expandByScalar (Platform.boundingBox p) r)
  = Some hit ->
  Platform.checkSphereCollision intersectBox p pos r v dt
  = CollisionResult.noCollision.
Proof.
  intros Hbranch Hrel Hhit.
  assert (Hpath : Vector3.multiplyScalar (Vector3.sub v (Platform.velocity p)) dt
                  = Vector3.mk 0 0 0).
  { apply vector_eq; simpl; destruct Hrel as [-> | ->]; lra. }
  unfold Platform.checkSphereCollision.
  rewrite Hbranch, Hpath, normalize_zero, Hhit, length_zero.
  rewrite (proj2 (ltb_true 0 (1 / 10000))) by lra. reflexivity.
Qed.

Lemma no_relative_motion_no_contact_witness :
  Platform.checkSphereCollision (Examples.hitAt (Vector3.mk 0 (1 / 4) 0))
    Examples.lift (Vector3.mk 0 (1 / 4) 0) (1 / 2) (Vector3.mk 0 0 0) (1 / 60)
  = CollisionResult.noCollision
  /\ Box3.containsPoint
       (Box3.expandByScalar (Platform.boundingBox Examples.lift) (1 / 2))
       (Vector3.mk 0 (1 / 4) 0)
     = true.
Proof.
  split.
  - apply (no_relative_motion_no_contact
             (Examples.hitAt (Vector3.mk 0 (1 / 4) 0)) Examples.lift
             (Vector3.mk 0 (1 / 4) 0) (1 / 2) (Vector3.mk 0 0 0) (1 / 60)
             (Vector3.mk 0 (1 / 4) 0)).
    + apply andb_false_iff. right. reflexivity.
    + left. reflexivity.
    + reflexivity.
  - unfold Box3.containsPoint, Examples.lift, Platform.build; simpl.
    rewrite !(Rabs_right 4), !(Rabs_right 1) by lra.
    rewrite !(proj2 (geb_true _ _)), !(proj2 (leb_true _ _)) by lra.
    reflexivity.
Defined.

(** ** More on JavaScript maps *)

Lemma get_set_other {V : Type} (k k' : string) (v : V) (m : JS.Map V) :
  k' <> k -> JS.get k' (JS.set k v m) = JS.get k' m.
Proof.
  intros Hk. apply String.eqb_neq in Hk.
  induction m as [| [k0 v0] m IH]; simpl.
  - rewrite Hk. reflexivity.
  - destruct (String.eqb k k0) eqn:E; simpl.
    + apply String.eqb_eq in E. subst k0. rewrite Hk. reflexivity.
    + destruct (String.eqb k' k0); [reflexivity | exact IH].
Qed.

Lemma get_delete_same {V : Type} (k : string) (m : JS.Map V) :
  JS.get k (JS.delete k m) = None.
Proof.
  induction m as [| [k0 v0] m IH]; simpl; [reflexivity |].
  destruct (String.eqb k k0) eqn:E; simpl; [exact IH |].
  rewrite E. exact IH.
Qed.

Lemma get_delete_other {V : Type} (k k' : string) (m : JS.Map V) :
  k' <> k -> JS.get k' (JS.delete k m) = JS.get k' m.
Proof.
  intros Hk.
  induction m as [| [k0 v0] m IH]; simpl; [reflexivity |].
  destruct (String.eqb k k0) eqn:E; simpl.
  - apply String.eqb_eq in E. subst k0.
    apply String.eqb_neq in Hk. rewrite Hk. exact IH.
  - destruct (String.eqb k' k0); [reflexivity | exact IH].
Qed.

(** ** Bodies of the physics service *)

(** X6.  After [removeObject(id)] no body is stored under [id] and every
    other body is as before; the error 'Object not found for removal' is
    reported exactly when no body was stored under [id]. *)
Theorem removeObject_lookup (id id' : string) (s : PhysicsService.t) :
  JS.get id (PhysicsService.objects (PhysicsService.removeObject id s)) = None
  /\ (id' <> id ->
      JS.get id' (PhysicsService.objects (PhysicsService.removeObject id s))
      = JS.get id' (PhysicsService.objects s))
  /\ PhysicsService.reported (PhysicsService.removeObject id s)
     = match JS.get id (PhysicsService.objects s) with
       | Some _ => PhysicsService.reported s
       | None =>
           PhysicsService.reported s ++ ["Object not found for removal"%string]
       end
  /\ forall (mesh : SphereMesh.t) (options : PhysicsOptions.t),
       JS.get id
         (PhysicsService.objects
            (PhysicsService.removeObject id
               (PhysicsService.addObject id mesh options s)))
       = None
       /\ PhysicsService.reported
            (PhysicsService.removeObject id
               (PhysicsService.addObject id mesh options s))
          = PhysicsService.reported s.
Proof.
  unfold PhysicsService.removeObject.
  split; [| split; [| split]].
  - destruct (JS.get id (PhysicsService.objects s)) eqn:E; simpl.
    + apply get_delete_same.
    + exact E.
  - intros Hne. destruct (JS.get id (PhysicsService.objects s)); simpl.
    + apply get_delete_other. exact Hne.
    + reflexivity.
  - destruct (JS.get id (PhysicsService.objects s)); reflexivity.
  - intros mesh options. unfold PhysicsService.addObject. simpl.
    rewrite get_set_same. simpl. split; [apply get_delete_same | reflexivity].
Qed.

(** X7.  [applyImpulse(id, force)] on a stored body of non-zero mass adds
    [force / mass] to its velocity and changes nothing else of it, nor any
    other body, nor the reported errors; for an unknown [id] it reports
    'Object not found' and changes no body. *)
Theorem applyImpulse_effect (id : string) (force : Vector3.t)
  (s : PhysicsService.t) :
  (forall o : PhysicsObject.t,
     JS.get id (PhysicsService.objects s) = Some o ->
     PhysicsObject.mass o <> 0 ->
     JS.get id (PhysicsService.objects (PhysicsService.applyImpulse id force s))
     = Some
         (PhysicsObject.with_velocity o
            (Vector3.add (PhysicsObject.velocity o)
               (Vector3.multiplyScalar force (1 / PhysicsObject.mass o))))
     /\ (forall id' : string,
           id' <> id ->
           JS.get id'
             (PhysicsService.objects (PhysicsService.applyImpulse id force s))
           = JS.get id' (PhysicsService.objects s))
     /\ PhysicsService.reported (PhysicsService.applyImpulse id force s)
        = PhysicsService.reported s)
  /\ (JS.get id (PhysicsService.objects s) = None ->
      PhysicsService.objects (PhysicsService.applyImpulse id force s)
      = PhysicsService.objects s
      /\ PhysicsService.reported (PhysicsService.applyImpulse id force s)
         = PhysicsService.reported s ++ ["Object not found"%string]).
Proof.
  unfold PhysicsService.applyImpulse. split.
  - intros o Ho _. rewrite Ho. simpl. split; [apply get_set_same |].
    split; [| reflexivity].
    intros id' Hne. apply get_set_other. exact Hne.
  - intros Hnone. rewrite Hnone. split; reflexivity.
Qed.

Lemma applyImpulse_effect_witness :
  JS.get "player-ball"
    (PhysicsService.objects
       (PhysicsService.applyImpulse "player-ball" (Vector3.mk 0 5 0)
          Examples.serviceWithBall))
  = Some
      (PhysicsObject.with_velocity Examples.restingBall
         (Vector3.add (PhysicsObject.velocity Examples.restingBall)
            (Vector3.multiplyScalar (Vector3.mk 0 5 0)
               (1 / PhysicsObject.mass Examples.restingBall)))).
Proof.
  refine (proj1 (proj1 (applyImpulse_effect "player-ball" (Vector3.mk 0 5 0)
                          Examples.serviceWithBall)
                   Examples.restingBall _ _)).
  - reflexivity.
  - simpl. lra.
Defined.

(** X8.  As long as the speed limit does not cut the new velocity,
    [getPredictedPosition(id, dt)] is the position that [updateObject] gives
    the body for the same time step; for an unknown [id] it is [null]. *)
Theorem predicted_position_is_integrated (id : string) (dt : R)
  (s : PhysicsService.t) (o : PhysicsObject.t) :
  JS.get id (PhysicsService.objects s) = Some o ->
  Vector3.length
    (Vector3.add (PhysicsObject.velocity o)
       (Vector3.multiplyScalar (PhysicsObject.acceleration o) dt))
  <= PhysicsConfig.maxVelocity (PhysicsService.config s) ->
  PhysicsService.getPredictedPosition id dt s
  = Some (PhysicsObject.position
            (PhysicsService.updateObject (PhysicsService.config s) o dt)).
Proof.
  intros Ho Hslow. unfold PhysicsService.getPredictedPosition. rewrite Ho.
  unfold PhysicsService.updateObject.
  rewrite (proj2 (gtb_false _ _) Hslow). reflexivity.
Qed.

Lemma predicted_position_is_integrated_witness :
  PhysicsService.getPredictedPosition "player-ball" (1 / 60)
    Examples.serviceWithFalling
  = Some (PhysicsObject.position
            (PhysicsService.updateObject PhysicsService.defaultConfig
               Examples.falling (1 / 60))).
Proof.
  apply (predicted_position_is_integrated "player-ball" (1 / 60)
           Examples.serviceWithFalling Examples.falling).
  - reflexivity.
  - replace (Vector3.add _ _) with (Vector3.mk 0 (- (10 / 3)) 0)
      by (apply vector_eq; simpl; lra).
    rewrite (proj1 (proj2 (length_axis _))). simpl.
    rewrite Rabs_left; lra.
Defined.

Lemma getPredictedPosition_unknown (id : string) (dt : R)
  (s : PhysicsService.t) :
  JS.get id (PhysicsService.objects s) = None ->
  PhysicsService.getPredictedPosition id dt s = None.
Proof.
  intros H. unfold PhysicsService.getPredictedPosition. rewrite H. reflexivity.
Qed.

(** ** Bounds and bookkeeping of the integrator *)

Section IntegratorFacts.

Variable cfg : PhysicsConfig.t.

Lemma checkBounds_sameParameters (o : PhysicsObject.t) :
  PhysicsService.sameParameters (PhysicsService.checkBounds cfg o) o.
Proof.
  unfold PhysicsService.checkBounds, PhysicsService.checkSides,
    PhysicsService.checkFloor, PhysicsService.sameParameters.
  destruct (JS.ltb _ 0); [destruct (JS.gtb _ _) |]; simpl;
    destruct (JS.gtb _ _); simpl; destruct (JS.gtb _ _); simpl;
    repeat split; reflexivity.
Qed.

Lemma substep_sameParameters (o : PhysicsObject.t) (dt : R) :
  PhysicsService.sameParameters
    (PhysicsService.checkBounds cfg (PhysicsService.updateObject cfg o dt)) o.
Proof.
  destruct (checkBounds_sameParameters (PhysicsService.updateObject cfg o dt))
    as [H1 [H2 [H3 [H4 [H5 [H6 H7]]]]]].
  unfold PhysicsService.sameParameters. rewrite H1, H2, H3, H4, H5, H6, H7.
  repeat split; reflexivity.
Qed.

Lemma subStepLoop_sameParameters (n : nat) (dt : R) (o : PhysicsObject.t) :
  PhysicsService.sameParameters (PhysicsService.subStepLoop cfg n dt o) o.
Proof.
  revert o. induction n as [| n IH]; intros o; simpl.
  - unfold PhysicsService.sameParameters. repeat split; reflexivity.
  - destruct (IH (PhysicsService.checkBounds cfg
                    (PhysicsService.updateObject cfg o dt)))
      as [H1 [H2 [H3 [H4 [H5 [H6 H7]]]]]].
    destruct (substep_sameParameters o dt)
      as [G1 [G2 [G3 [G4 [G5 [G6 G7]]]]]].
    unfold PhysicsService.sameParameters.
    rewrite H1, H2, H3, H4, H5, H6, H7, G1, G2, G3, G4, G5, G6, G7.
    repeat split; reflexivity.
Qed.

Lemma checkFloor_fixed (o : PhysicsObject.t) :
  PhysicsObject.radius o <= Vector3.y (PhysicsObject.position o) ->
  PhysicsService.checkFloor cfg o = o.
Proof.
  intros H. unfold PhysicsService.checkFloor.
  rewrite (proj2 (ltb_false _ 0)) by lra. reflexivity.
Qed.

Lemma checkSides_fixed (o : PhysicsObject.t) :
  Rabs (Vector3.x (PhysicsObject.position o)) <= 10 ->
  Rabs (Vector3.z (PhysicsObject.position o)) <= 10 ->
  PhysicsService.checkSides o = o.
Proof.
  intros Hx Hz. unfold PhysicsService.checkSides, PhysicsService.bounds.
  rewrite (proj2 (gtb_false _ 10) Hx), (proj2 (gtb_false _ 10) Hz).
  destruct o as [[p r] v a m e f pp pv]. reflexivity.
Qed.

End IntegratorFacts.

(** X10.  [checkBounds] is idempotent: a body that has passed it once is on
    or above the floor and inside the walls, and passes it again
    unchanged. *)
Theorem checkBounds_idempotent (cfg : PhysicsConfig.t) (o : PhysicsObject.t) :
  PhysicsService.checkBounds cfg (PhysicsService.checkBounds cfg o)
  = PhysicsService.checkBounds cfg o.
Proof.
  pose proof (checkSides_inside (PhysicsService.checkFloor cfg o)) as [Hx Hz].
  pose proof (checkSides_vertical (PhysicsService.checkFloor cfg o)) as [Hy _].
  pose proof (checkFloor_above cfg o) as Hfloor.
  pose proof (radius_checkBounds cfg o) as Hr.
  unfold PhysicsService.checkBounds at 1.
  fold (PhysicsService.checkBounds cfg o) in Hx, Hz, Hy.
  rewrite checkFloor_fixed by (rewrite Hr, Hy; lra).
  apply checkSides_fixed; assumption.
Qed.

(** X11.  [update] records the position and the velocity that a stored body
    had on entry as its previous position and velocity, and keeps its mass,
    restitution, friction, acceleration and radius. *)
Theorem update_bookkeeping (s : PhysicsService.t) (dt : R) (id : string)
  (o : PhysicsObject.t) :
  JS.get id (PhysicsService.objects s) = Some o ->
  exists o' : PhysicsObject.t,
    JS.get id (PhysicsService.objects (PhysicsService.update dt s)) = Some o'
    /\ PhysicsObject.previousPosition o' = PhysicsObject.position o
    /\ PhysicsObject.previousVelocity o' = PhysicsObject.velocity o
    /\ PhysicsObject.mass o' = PhysicsObject.mass o
    /\ PhysicsObject.restitution o' = PhysicsObject.restitution o
    /\ PhysicsObject.friction o' = PhysicsObject.friction o
    /\ PhysicsObject.acceleration o' = PhysicsObject.acceleration o
    /\ PhysicsObject.radius o' = PhysicsObject.radius o.
Proof.
  intros Hget.
  exists (PhysicsService.updateOne (PhysicsService.config s) dt o). split.
  - unfold PhysicsService.update. simpl.
    rewrite get_forEachValue, Hget. reflexivity.
  - unfold PhysicsService.updateOne.
    set (o1 := PhysicsObject.mk _ _ _ _ _ _ _ _).
    destruct (subStepLoop_sameParameters (PhysicsService.config s)
                (Z.to_nat (PhysicsService.subSteps (PhysicsService.config s)
                             o1 dt))
                (dt / IZR (PhysicsService.subSteps (PhysicsService.config s)
                             o1 dt)) o1)
      as [H1 [H2 [H3 [H4 [H5 [H6 H7]]]]]].
    rewrite H1, H2, H3, H4, H5, H6, H7. repeat split; reflexivity.
Qed.

Lemma update_bookkeeping_witness :
  exists o' : PhysicsObject.t,
    JS.get "player-ball"
      (PhysicsService.objects
         (PhysicsService.update (1 / 60) Examples.serviceWithFalling))
    = Some o'
    /\ PhysicsObject.previousPosition o'
       = PhysicsObject.position Examples.falling
    /\ PhysicsObject.previousVelocity o'
       = PhysicsObject.velocity Examples.falling
    /\ PhysicsObject.mass o' = PhysicsObject.mass Examples.falling
    /\ PhysicsObject.restitution o' = PhysicsObject.restitution Examples.falling
    /\ PhysicsObject.friction o' = PhysicsObject.friction Examples.falling
    /\ PhysicsObject.acceleration o'
       = PhysicsObject.acceleration Examples.falling
    /\ PhysicsObject.radius o' = PhysicsObject.radius Examples.falling.
Proof.
  apply (update_bookkeeping Examples.serviceWithFalling (1 / 60) "player-ball"
           Examples.falling).
  reflexivity.
Defined.

(** ** Gravity and reset *)

(** X12.  After [setGravity(g)] every stored body has the vertical
    acceleration [-g] and is otherwise as before, a body added later gets
    the acceleration [(0, -g, 0)], and so does a body that is reset. *)
Theorem setGravity_reaches_every_body (g : R) (s : PhysicsService.t)
  (id : string) (o : PhysicsObject.t) :
  JS.get id (PhysicsService.objects s) = Some o ->
  (exists o' : PhysicsObject.t,
     JS.get id (PhysicsService.objects (PhysicsService.setGravity g s))
     = Some o'
     /\ PhysicsObject.acceleration o'
        = Vector3.with_y (PhysicsObject.acceleration o) (- g)
     /\ PhysicsObject.mesh o' = PhysicsObject.mesh o
     /\ PhysicsObject.velocity o' = PhysicsObject.velocity o
     /\ PhysicsObject.mass o' = PhysicsObject.mass o)
  /\ (forall (id' : string) (mesh : SphereMesh.t) (options : PhysicsOptions.t),
        exists o' : PhysicsObject.t,
          JS.get id'
            (PhysicsService.objects
               (PhysicsService.addObject id' mesh options
                  (PhysicsService.setGravity g s)))
          = Some o'
          /\ PhysicsObject.acceleration o' = Vector3.mk 0 (- g) 0)
  /\ (exists o' : PhysicsObject.t,
        JS.get id
          (PhysicsService.objects
             (PhysicsService.resetObject id (PhysicsService.setGravity g s)))
        = Some o'
        /\ PhysicsObject.acceleration o' = Vector3.mk 0 (- g) 0
        /\ PhysicsObject.velocity o' = Vector3.mk 0 0 0).
Proof.
  intros Hget.
  assert (Hset : JS.get id
                   (PhysicsService.objects (PhysicsService.setGravity g s))
                 = Some
                     (PhysicsObject.mk (PhysicsObject.mesh o)
                        (PhysicsObject.velocity o)
                        (Vector3.with_y (PhysicsObject.acceleration o) (- g))
                        (PhysicsObject.mass o) (PhysicsObject.restitution o)
                        (PhysicsObject.friction o)
                        (PhysicsObject.previousPosition o)
                        (PhysicsObject.previousVelocity o))).
  { unfold PhysicsService.setGravity. simpl.
    rewrite get_forEachValue, Hget. reflexivity. }
  split; [| split].
  - eexists. split; [exact Hset |]. repeat split; reflexivity.
  - intros id' mesh options. unfold PhysicsService.addObject.
    eexists. split; [apply get_set_same | reflexivity].
  - unfold PhysicsService.resetObject. rewrite Hset.
    eexists. split; [apply get_set_same |]. split; reflexivity.
Qed.

Lemma setGravity_reaches_every_body_witness :
  exists o' : PhysicsObject.t,
    JS.get "player-ball"
      (PhysicsService.objects
         (PhysicsService.setGravity 10 Examples.serviceWithFalling))
    = Some o'
    /\ PhysicsObject.acceleration o'
       = Vector3.with_y (PhysicsObject.acceleration Examples.falling) (- 10)
    /\ PhysicsObject.mesh o' = PhysicsObject.mesh Examples.falling
    /\ PhysicsObject.velocity o' = PhysicsObject.velocity Examples.falling
    /\ PhysicsObject.mass o' = PhysicsObject.mass Examples.falling.
Proof.
  refine (proj1 (setGravity_reaches_every_body 10 Examples.serviceWithFalling
                   "player-ball" Examples.falling _)).
  reflexivity.
Defined.

(** Any number of updates leaves a stored body with zero velocity where it
    is. *)
Lemma updates_at_rest (s : PhysicsService.t) (dt : R) (id : string)
  (o : PhysicsObject.t) (n : nat) :
  (0 <= PhysicsConfig.maxPredictionSteps (PhysicsService.config s))%Z ->
  JS.get id (PhysicsService.objects s) = Some o ->
  PhysicsObject.velocity o = Vector3.mk 0 0 0 ->
  exists o' : PhysicsObject.t,
    JS.get id (PhysicsService.objects (Nat.iter n (PhysicsService.update dt) s))
    = Some o'
    /\ PhysicsObject.mesh o' = PhysicsObject.mesh o
    /\ PhysicsObject.velocity o' = Vector3.mk 0 0 0.
Proof.
  intros Hmax Hget Hv.
  assert (Hcfg : forall k, PhysicsService.config
                   (Nat.iter k (PhysicsService.update dt) s)
                 = PhysicsService.config s).
  { induction k; simpl; [reflexivity | assumption]. }
  induction n as [| n IH]; simpl.
  - exists o. repeat split; assumption.
  - destruct IH as [o1 [Hget1 [Hm Hv1]]].
    unfold PhysicsService.update at 1. simpl.
    rewrite get_forEachValue, Hget1. simpl.
    eexists. split; [reflexivity |]. rewrite Hcfg.
    destruct (updateOne_at_rest (PhysicsService.config s) o1 dt Hmax Hv1)
      as [Hm2 [Hv2 _]].
    rewrite Hm2, Hv2. split; assumption.
Qed.

(** X13.  A body that has been reset does not move: after [resetObject(id)]
    any number of updates leaves the body at the position it had, with zero
    velocity, although its acceleration is gravity.  For an unknown [id]
    the reset changes nothing. *)
Theorem reset_body_stays (s : PhysicsService.t) (dt : R) (id : string)
  (o : PhysicsObject.t) (n : nat) :
  (0 <= PhysicsConfig.maxPredictionSteps (PhysicsService.config s))%Z ->
  JS.get id (PhysicsService.objects s) = Some o ->
  exists o' : PhysicsObject.t,
    JS.get id
      (PhysicsService.objects
         (Nat.iter n (PhysicsService.update dt)
            (PhysicsService.resetObject id s)))
    = Some o'
    /\ PhysicsObject.position o' = PhysicsObject.position o
    /\ PhysicsObject.velocity o' = Vector3.mk 0 0 0.
Proof.
  intros Hmax Hget.
  destruct (updates_at_rest (PhysicsService.resetObject id s) dt id
              (PhysicsObject.mk (PhysicsObject.mesh o) (Vector3.mk 0 0 0)
                 (Vector3.mk 0
                    (- PhysicsConfig.gravity (PhysicsService.config s)) 0)
                 (PhysicsObject.mass o) (PhysicsObject.restitution o)
                 (PhysicsObject.friction o) (PhysicsObject.previousPosition o)
                 (PhysicsObject.previousVelocity o)) n)
    as [o' [Hget' [Hm Hv]]].
  - unfold PhysicsService.resetObject. rewrite Hget. exact Hmax.
  - unfold PhysicsService.resetObject. rewrite Hget. simpl.
    apply get_set_same.
  - reflexivity.
  - exists o'. split; [exact Hget' |]. split; [| exact Hv].
    unfold PhysicsObject.position. rewrite Hm. reflexivity.
Qed.

Lemma reset_body_stays_witness :
  exists o' : PhysicsObject.t,
    JS.get "player-ball"
      (PhysicsService.objects
         (Nat.iter 5 (PhysicsService.update (1 / 60))
            (PhysicsService.resetObject "player-ball"
               Examples.serviceWithFalling)))
    = Some o'
    /\ PhysicsObject.position o' = PhysicsObject.position Examples.falling
    /\ PhysicsObject.velocity o' = Vector3.mk 0 0 0.
Proof.
  apply (reset_body_stays Examples.serviceWithFalling (1 / 60) "player-ball"
           Examples.falling 5).
  - simpl. lia.
  - reflexivity.
Defined.

Lemma resetObject_unknown (id : string) (s : PhysicsService.t) :
  JS.get id (PhysicsService.objects s) = None ->
  PhysicsService.resetObject id s = s.
Proof.
  intros H. unfold PhysicsService.resetObject. rewrite H. reflexivity.
Qed.

(** ** The grid of the level *)

Lemma round_integer (k : Z) : JS.round (IZR k) = k.
Proof. unfold JS.round. apply Zfloor_eq. lra. Qed.

(** [Math.round] is within a half of its argument. *)
Lemma round_near (a : R) : - (1 / 2) < IZR (JS.round a) - a <= 1 / 2.
Proof.
  unfold JS.round. pose proof (Zfloor_bound (a + 1 / 2)). lra.
Qed.

(** X14.  With a non-zero grid size, converting a grid position with whole
    lane, section and layer numbers to world coordinates and back gives the
    grid position again. *)
Theorem grid_round_trip (s : LevelService.t) (lane section layer : Z) :
  TrackConfig.gridSize (LevelService.trackConfig s) <> 0 ->
  LevelService.worldToGrid s
    (LevelService.gridToWorld s
       (GridPosition.mk (IZR lane) (IZR section) (IZR layer)))
  = GridPosition.mk (IZR lane) (IZR section) (IZR layer).
Proof.
  intros Hg. unfold LevelService.worldToGrid, LevelService.gridToWorld. simpl.
  set (c := LevelService.trackConfig s) in *.
  replace ((IZR lane - TrackConfig.lanes c / 2) * TrackConfig.gridSize c
           / TrackConfig.gridSize c + TrackConfig.lanes c / 2)
    with (IZR lane) by (field; exact Hg).
  replace (- (- IZR section * TrackConfig.gridSize c) / TrackConfig.gridSize c)
    with (IZR section) by (field; exact Hg).
  replace (IZR layer * TrackConfig.gridSize c / TrackConfig.gridSize c)
    with (IZR layer) by (field; exact Hg).
  rewrite !round_integer. reflexivity.
Qed.

Lemma grid_round_trip_witness :
  LevelService.worldToGrid LevelService.initial
    (LevelService.gridToWorld LevelService.initial
       (GridPosition.mk (IZR 5) (IZR 15) (IZR 1)))
  = GridPosition.mk (IZR 5) (IZR 15) (IZR 1).
Proof.
  apply (grid_round_trip LevelService.initial 5 15 1). simpl. lra.
Defined.

(** X15.  With a positive grid size, snapping a world position to the grid
    ([worldToGrid] followed by [gridToWorld]) moves it by at most half a
    grid cell along each axis. *)
Theorem grid_snap_is_near (s : LevelService.t) (w : Vector3.t) :
  0 < TrackConfig.gridSize (LevelService.trackConfig s) ->
  let snapped := LevelService.gridToWorld s (LevelService.worldToGrid s w) in
  let half := TrackConfig.gridSize (LevelService.trackConfig s) / 2 in
  Rabs (Vector3.x snapped - Vector3.x w) <= half
  /\ Rabs (Vector3.y snapped - Vector3.y w) <= half
  /\ Rabs (Vector3.z snapped - Vector3.z w) <= half.
Proof.
  intros Hg snapped half. subst snapped half.
  unfold LevelService.worldToGrid, LevelService.gridToWorld. simpl.
  set (c := LevelService.trackConfig s) in *.
  set (g := TrackConfig.gridSize c) in *.
  assert (Hnear : forall a k : R,
             - (1 / 2) < k - a / g <= 1 / 2 -> Rabs (k * g - a) <= g / 2).
  { intros a k Hk.
    replace (k * g - a) with ((k - a / g) * g) by (field; lra).
    apply Rabs_le. split; nra. }
  repeat split.
  - pose proof (round_near (Vector3.x w / g + TrackConfig.lanes c / 2)) as H.
    set (k := IZR (JS.round (Vector3.x w / g + TrackConfig.lanes c / 2))) in *.
    replace ((k - TrackConfig.lanes c / 2) * g - Vector3.x w)
      with ((k - TrackConfig.lanes c / 2) * g - Vector3.x w) by reflexivity.
    apply (Hnear (Vector3.x w) (k - TrackConfig.lanes c / 2)). lra.
  - apply Hnear. apply round_near.
  - pose proof (round_near (- Vector3.z w / g)) as H.
    set (k := IZR (JS.round (- Vector3.z w / g))) in *.
    replace (- k * g - Vector3.z w) with (- (k * g - - Vector3.z w)) by ring.
    rewrite Rabs_Ropp. apply Hnear. exact H.
Qed.

Lemma grid_snap_is_near_witness :
  let snapped :=
    LevelService.gridToWorld LevelService.initial
      (LevelService.worldToGrid LevelService.initial (Vector3.mk 1 2 3)) in
  Rabs (Vector3.x snapped - 1) <= 2 / 2
  /\ Rabs (Vector3.y snapped - 2) <= 2 / 2
  /\ Rabs (Vector3.z snapped - 3) <= 2 / 2.
Proof.
  apply (grid_snap_is_near LevelService.initial (Vector3.mk 1 2 3)).
  simpl. lra.
Defined.

(** ** The bounds of the track *)

Lemma abs_le_bounds (a b : R) : Rabs a <= b -> - b <= a <= b.
Proof. unfold Rabs. destruct (Rcase_abs a); lra. Qed.

(** X16.  For a track of non-negative width and length, [constrainPosition]
    returns a position inside the track bounds, leaves a position inside the
    bounds as it is, and so is idempotent. *)
Theorem constrainPosition_clamps (s : LevelService.t) (p : Vector3.t) :
  0 <= TrackConfig.width (LevelService.trackConfig s) ->
  0 <= TrackConfig.length (LevelService.trackConfig s) ->
  let inside (q : Vector3.t) :=
    Rabs (Vector3.x q) <= TrackConfig.width (LevelService.trackConfig s) / 2
    /\ 0 <= Vector3.y q
    /\ - TrackConfig.length (LevelService.trackConfig s) <= Vector3.z q <= 0 in
  inside (LevelService.constrainPosition s p)
  /\ (inside p -> LevelService.constrainPosition s p = p)
  /\ LevelService.constrainPosition s (LevelService.constrainPosition s p)
     = LevelService.constrainPosition s p.
Proof.
  intros Hw Hl inside.
  assert (Hin : inside (LevelService.constrainPosition s p)).
  { unfold inside, LevelService.constrainPosition. simpl.
    repeat split.
    - apply Rabs_le. unfold Rmax, Rmin.
      repeat match goal with
      | |- context [Rle_dec ?a ?b] => destruct (Rle_dec a b)
      end; lra.
    - apply Rmax_l.
    - apply Rmax_l.
    - unfold Rmax, Rmin.
      repeat match goal with
      | |- context [Rle_dec ?a ?b] => destruct (Rle_dec a b)
      end; lra. }
  assert (Hfix : forall q, inside q -> LevelService.constrainPosition s q = q).
  { intros q [Hx [Hy Hz]]. apply abs_le_bounds in Hx.
    unfold LevelService.constrainPosition.
    apply vector_eq; simpl.
    - rewrite Rmin_right by lra. apply Rmax_right. lra.
    - apply Rmax_right. lra.
    - rewrite Rmin_right by lra. apply Rmax_right. lra. }
  split; [exact Hin |]. split; [apply Hfix |]. apply Hfix. exact Hin.
Qed.

Lemma constrainPosition_clamps_witness :
  LevelService.constrainPosition LevelService.initial (Vector3.mk 15 (-1) 3)
  = LevelService.constrainPosition LevelService.initial
      (LevelService.constrainPosition LevelService.initial
         (Vector3.mk 15 (-1) 3)).
Proof.
  symmetry.
  refine (proj2 (proj2 (constrainPosition_clamps LevelService.initial
                          (Vector3.mk 15 (-1) 3) _ _))); simpl; lra.
Defined.

(** ** The engine's own velocity *)

Lemma resolveCollisions_at_rest
  (intersectBox : Ray.t -> Box3.t -> option Vector3.t)
  (platforms : JS.Map Platform.t) (dt : R) (o : EngineObject.t) :
  EngineObject.velocity o = Vector3.mk 0 0 0 ->
  GameEngine.object (GameEngine.resolveCollisions intersectBox platforms dt o)
  = o.
Proof.
  intros Hv. unfold GameEngine.resolveCollisions.
  assert (H : forall ps st,
             GameEngine.object st = o ->
             GameEngine.object
               (fold_left
                  (fun st platform =>
                     GameEngine.handleCollision platform
                       (Platform.checkSphereCollision intersectBox platform
                          (EngineObject.position o) (EngineObject.radius o)
                          (EngineObject.velocity (GameEngine.object st)) dt)
                       st)
                  ps st)
             = o).
  { induction ps as [| p ps IH]; intros st Hst; simpl; [exact Hst |].
    apply IH. rewrite handleCollision_at_rest; [exact Hst |].
    rewrite Hst. exact Hv. }
  apply H. reflexivity.
Qed.

(** X17.  The level-bounds block of [update] compares the constrained
    position with itself, so it never moves a body and never reflects its
    velocity: the callback leaves the body as the platform loop left it,
    also when the body is outside the track bounds. *)
Theorem level_bounds_block_is_idle
  (intersectBox : Ray.t -> Box3.t -> option Vector3.t)
  (level : LevelService.t) (dt : R) (o : EngineObject.t) :
  (forall position : Vector3.t,
     GameEngine.constrainToLevel level position o = o)
  /\ GameEngine.object (GameEngine.collideObject intersectBox level dt o)
     = GameEngine.object
         (GameEngine.resolveCollisions intersectBox
            (LevelService.platforms level) dt o).
Proof.
  assert (H : forall position b,
             GameEngine.constrainToLevel level position b = b).
  { intros position b. unfold GameEngine.constrainToLevel.
    rewrite equals_same. reflexivity. }
  split; [intros position; apply H |].
  unfold GameEngine.collideObject. cbn [GameEngine.object]. apply H.
Qed.

(** X18.  The engine calls the collision query with a velocity of its own,
    which is zero for an object when it is added.  For an object with zero
    engine velocity the callback of [update] changes nothing, whatever
    platforms it collides with, of whatever type: not its velocity and not
    its position. *)
Theorem collisions_leave_resting_engine_object
  (intersectBox : Ray.t -> Box3.t -> option Vector3.t)
  (level : LevelService.t) (dt : R) (o : EngineObject.t) :
  EngineObject.velocity o = Vector3.mk 0 0 0 ->
  GameEngine.object (GameEngine.collideObject intersectBox level dt o) = o.
Proof.
  intros Hv. unfold GameEngine.collideObject. cbn [GameEngine.object].
  unfold GameEngine.constrainToLevel. rewrite equals_same. simpl.
  apply resolveCollisions_at_rest. exact Hv.
Qed.

Lemma collisions_leave_resting_engine_object_witness :
  JS.get "player-ball"
    (GameEngine.trackObject "player-ball" Examples.ball Examples.ballOptions [])
  = Some (Examples.engineBall (Vector3.mk 0 5 0) (Vector3.mk 0 0 0))
  /\ GameEngine.object
       (GameEngine.collideObject Ray.intersectBox
          (LevelService.mk LevelService.defaultTrackConfig
             [("bounce"%string, Examples.slab BOUNCE)] 0)
          (1 / 60)
          (Examples.engineBall (Vector3.mk 0 5 0) (Vector3.mk 0 0 0)))
     = Examples.engineBall (Vector3.mk 0 5 0) (Vector3.mk 0 0 0).
Proof.
  split; [reflexivity |].
  apply (collisions_leave_resting_engine_object Ray.intersectBox
           (LevelService.mk LevelService.defaultTrackConfig
              [("bounce"%string, Examples.slab BOUNCE)] 0)
           (1 / 60)
           (Examples.engineBall (Vector3.mk 0 5 0) (Vector3.mk 0 0 0))).
  reflexivity.
Defined.

(** ** Draining the accumulator *)

Lemma whole_steps (a : R) :
  0 <= a ->
  exists n : nat,
    INR n * GameEngine.fixedTimeStep <= a
    < (INR n + 1) * GameEngine.fixedTimeStep.
Proof.
  intros Ha. unfold GameEngine.fixedTimeStep.
  pose proof (Zfloor_bound (a * 60)) as [Hlo Hhi].
  assert (Hk : (0 <= Zfloor (a * 60))%Z).
  { apply Zfloor_lub. simpl. lra. }
  exists (Z.to_nat (Zfloor (a * 60))).
  rewrite INR_IZR_INZ, Z2Nat.id by exact Hk. lra.
Qed.

(** X19.  A frame of a running loop whose accumulator is not negative and
    whose clock has not gone back ends, given fuel for its updates: it runs a
    whole number [n] of fixed-rate updates, each with the step [1/60], and
    leaves an accumulator that is not negative and holds less than one
    step. *)
Theorem gameLoop_drains (World : Type) (step : R -> World -> World)
  (currentTime : R) (s : GameEngine.Loop World) :
  GameEngine.isRunning s = true ->
  0 <= GameEngine.accumulator s ->
  GameEngine.lastFrameTime s <= currentTime ->
  exists n : nat,
    forall fuel : nat,
      (n <= fuel)%nat ->
      exists s' : GameEngine.Loop World,
        GameEngine.gameLoop World step fuel currentTime s = Some s'
        /\ GameEngine.world s' = Nat.iter n (step (1 / 60)) (GameEngine.world s)
        /\ 0 <= GameEngine.accumulator s' < GameEngine.fixedTimeStep
        /\ GameEngine.lastFrameTime s' = currentTime
        /\ GameEngine.frameCount s' = (GameEngine.frameCount s + 1)%Z
        /\ GameEngine.isRunning s' = true.
Proof.
  intros Hrun Hacc Htime.
  destruct (whole_steps (GameEngine.accumulator s
                         + (currentTime - GameEngine.lastFrameTime s) / 1000))
    as [n Hn]; [lra |].
  exists n. intros fuel Hfuel.
  unfold GameEngine.gameLoop. rewrite Hrun. cbn [negb].
  rewrite (drain_runs World step n _ _ fuel Hn Hfuel).
  eexists. split; [reflexivity |]. simpl.
  repeat split; lra.
Qed.

Lemma gameLoop_drains_witness :
  exists n : nat,
    forall fuel : nat,
      (n <= fuel)%nat ->
      exists s' : GameEngine.Loop (list R),
        GameEngine.gameLoop (list R) Examples.recordStep fuel 40
          Examples.idleLoop
        = Some s'
        /\ GameEngine.world s'
           = Nat.iter n (Examples.recordStep (1 / 60))
               (GameEngine.world Examples.idleLoop)
        /\ 0 <= GameEngine.accumulator s' < GameEngine.fixedTimeStep
        /\ GameEngine.lastFrameTime s' = 40
        /\ GameEngine.frameCount s'
           = (GameEngine.frameCount Examples.idleLoop + 1)%Z
        /\ GameEngine.isRunning s' = true.
Proof.
  apply (gameLoop_drains (list R) Examples.recordStep 40 Examples.idleLoop).
  - reflexivity.
  - simpl. lra.
  - simpl. lra.
Defined.

(** A stopped loop does nothing. *)
Lemma gameLoop_stopped (World : Type) (step : R -> World -> World)
  (fuel : nat) (currentTime : R) (s : GameEngine.Loop World) :
  GameEngine.isRunning s = false ->
  GameEngine.gameLoop World step fuel currentTime s = Some s.
Proof.
  intros H. unfold GameEngine.gameLoop. rewrite H. reflexivity.
Qed.

(** ** Input handling *)

(** X20.  A jump request acts only on the ground.  With only the jump key
    down, a grounded ball of non-zero mass [m] gains [5 / m] of vertical
    velocity and nothing else changes; when the ball is not grounded the
    physics service is left as it is.  A ball within [0.1] of the floor
    contact height counts as grounded whatever the platforms are. *)
Theorem jump_needs_ground
  (intersectBox : Ray.t -> Box3.t -> option Vector3.t)
  (platforms : JS.Map Platform.t) (dt : R) (objects : JS.Map EngineObject.t)
  (physics : PhysicsService.t) (ball : EngineObject.t) (b : PhysicsObject.t) :
  JS.get "player-ball" objects = Some ball ->
  JS.get "player-ball" (PhysicsService.objects physics) = Some b ->
  PhysicsObject.mass b <> 0 ->
  let input := InputState.mk false false false false true in
  let physics' :=
    GameEngine.handleInput intersectBox platforms input dt objects physics in
  (GameEngine.isGrounded intersectBox platforms dt ball = true ->
   exists b' : PhysicsObject.t,
     JS.get "player-ball" (PhysicsService.objects physics') = Some b'
     /\ Vector3.y (PhysicsObject.velocity b')
        = Vector3.y (PhysicsObject.velocity b) + 5 / PhysicsObject.mass b
     /\ Vector3.x (PhysicsObject.velocity b')
        = Vector3.x (PhysicsObject.velocity b)
     /\ Vector3.z (PhysicsObject.velocity b')
        = Vector3.z (PhysicsObject.velocity b)
     /\ PhysicsObject.mesh b' = PhysicsObject.mesh b)
  /\ (GameEngine.isGrounded intersectBox platforms dt ball = false ->
      physics' = physics)
  /\ (Vector3.y (EngineObject.position ball) <= EngineObject.radius ball + 1 / 10 ->
      GameEngine.isGrounded intersectBox platforms dt ball = true).
Proof.
  intros Hball Hb Hm input physics'. subst physics' input.
  unfold GameEngine.handleInput. rewrite Hball.
  cbn [InputState.left InputState.right InputState.up InputState.down
       InputState.jump andb].
  split; [| split].
  - intros Hg. rewrite Hg. unfold PhysicsService.applyImpulse. rewrite Hb.
    cbn [PhysicsService.objects]. rewrite get_set_same.
    eexists. split; [reflexivity |].
    unfold GameEngine.jumpForce. simpl.
    repeat split; try lra; try (field; exact Hm).
  - intros Hg. rewrite Hg. reflexivity.
  - intros Hy. unfold GameEngine.isGrounded.
    rewrite (proj2 (leb_true _ _) Hy). reflexivity.
Qed.

Lemma jump_needs_ground_witness :
  exists b' : PhysicsObject.t,
    JS.get "player-ball"
      (PhysicsService.objects
         (GameEngine.handleInput Ray.intersectBox []
            (InputState.mk false false false false true) (1 / 60)
            [("player-ball"%string,
              Examples.engineBall (Vector3.mk 0 (1 / 2) 0) (Vector3.mk 0 0 0))]
            Examples.serviceWithBall))
    = Some b'
    /\ Vector3.y (PhysicsObject.velocity b')
       = Vector3.y (PhysicsObject.velocity Examples.restingBall)
         + 5 / PhysicsObject.mass Examples.restingBall
    /\ Vector3.x (PhysicsObject.velocity b')
       = Vector3.x (PhysicsObject.velocity Examples.restingBall)
    /\ Vector3.z (PhysicsObject.velocity b')
       = Vector3.z (PhysicsObject.velocity Examples.restingBall)
    /\ PhysicsObject.mesh b' = PhysicsObject.mesh Examples.restingBall.
Proof.
  assert (Hm : PhysicsObject.mass Examples.restingBall <> 0)
    by (simpl; lra).
  pose proof (jump_needs_ground Ray.intersectBox [] (1 / 60)
                [("player-ball"%string,
                  Examples.engineBall (Vector3.mk 0 (1 / 2) 0)
                    (Vector3.mk 0 0 0))]
                Examples.serviceWithBall
                (Examples.engineBall (Vector3.mk 0 (1 / 2) 0)
                   (Vector3.mk 0 0 0))
                Examples.restingBall eq_refl eq_refl Hm) as [Hjump [_ Hfloor]].
  apply Hjump. apply Hfloor.
  unfold Examples.engineBall, EngineObject.position, EngineObject.radius.
  cbn [EngineObject.mesh SphereMesh.position SphereMesh.radius Vector3.y].
  lra.
Defined.

(** X21.  Steering is weaker in the air.  With exactly one steering key
    down, [handleInput] gives the 'player-ball' of the physics service one
    impulse: the force [5 * dt * c] along x, negated for the left key, or
    along z, negated for the up key, where [c] is [1] on the ground and the
    air control [0.3] otherwise; the body is as [applyImpulse] leaves it for
    that force, and nothing else of it changes. *)
Theorem steering_uses_air_control
  (intersectBox : Ray.t -> Box3.t -> option Vector3.t)
  (platforms : JS.Map Platform.t) (dt : R) (objects : JS.Map EngineObject.t)
  (physics : PhysicsService.t) (ball : EngineObject.t) (b : PhysicsObject.t) :
  JS.get "player-ball" objects = Some ball ->
  JS.get "player-ball" (PhysicsService.objects physics) = Some b ->
  PhysicsObject.mass b <> 0 ->
  let c :=
    if GameEngine.isGrounded intersectBox platforms dt ball then 1
    else 3 / 10 in
  let steered (input : InputState.t) (force : Vector3.t) :=
    JS.get "player-ball"
      (PhysicsService.objects
         (GameEngine.handleInput intersectBox platforms input dt objects
            physics))
    = Some
        (PhysicsObject.with_velocity b
           (Vector3.add (PhysicsObject.velocity b)
              (Vector3.multiplyScalar force (1 / PhysicsObject.mass b)))) in
  steered (InputState.mk true false false false false)
    (Vector3.mk (- (5 * dt) * c) 0 0)
  /\ steered (InputState.mk false true false false false)
       (Vector3.mk (5 * dt * c) 0 0)
  /\ steered (InputState.mk false false true false false)
       (Vector3.mk 0 0 (- (5 * dt) * c))
  /\ steered (InputState.mk false false false true false)
       (Vector3.mk 0 0 (5 * dt * c)).
Proof.
  intros Hball Hb Hm c steered. subst steered c.
  unfold GameEngine.handleInput. rewrite Hball.
  cbn [InputState.left InputState.right InputState.up InputState.down
       InputState.jump andb].
  unfold GameEngine.moveForce, GameEngine.airControl.
  unfold PhysicsService.applyImpulse. rewrite Hb.
  cbn [PhysicsService.objects]. rewrite !get_set_same.
  destruct (GameEngine.isGrounded intersectBox platforms dt ball);
    repeat split; reflexivity.
Qed.

Lemma steering_uses_air_control_witness :
  JS.get "player-ball"
    (PhysicsService.objects
       (GameEngine.handleInput Ray.intersectBox []
          (InputState.mk true false false false false) (1 / 60)
          [("player-ball"%string,
            Examples.engineBall (Vector3.mk 0 5 0) (Vector3.mk 0 0 0))]
          Examples.serviceWithBall))
  = Some
      (PhysicsObject.with_velocity Examples.restingBall
         (Vector3.add (PhysicsObject.velocity Examples.restingBall)
            (Vector3.multiplyScalar
               (Vector3.mk
                  (- (5 * (1 / 60))
                   * (if GameEngine.isGrounded Ray.intersectBox [] (1 / 60)
                           (Examples.engineBall (Vector3.mk 0 5 0)
                              (Vector3.mk 0 0 0))
                      then 1 else 3 / 10))
                  0 0)
               (1 / PhysicsObject.mass Examples.restingBall)))).
Proof.
  assert (Hm : PhysicsObject.mass Examples.restingBall <> 0)
    by (simpl; lra).
  exact (proj1 (steering_uses_air_control Ray.intersectBox [] (1 / 60)
                  [("player-ball"%string,
                    Examples.engineBall (Vector3.mk 0 5 0) (Vector3.mk 0 0 0))]
                  Examples.serviceWithBall
                  (Examples.engineBall (Vector3.mk 0 5 0) (Vector3.mk 0 0 0))
                  Examples.restingBall eq_refl eq_refl Hm)).
Defined.

(** Without a 'player-ball' among the engine's objects the input is
    ignored. *)
Lemma handleInput_without_ball
  (intersectBox : Ray.t -> Box3.t -> option Vector3.t)
  (platforms : JS.Map Platform.t) (input : InputState.t) (dt : R)
  (objects : JS.Map EngineObject.t) (physics : PhysicsService.t) :
  JS.get "player-ball" objects = None ->
  GameEngine.handleInput intersectBox platforms input dt objects physics
  = physics.
Proof.
  intros H. unfold GameEngine.handleInput. rewrite H. reflexivity.
Qed.

(** ** Keyboard state *)

Lemma updateState_unbound (key : string) (isDown : bool) (s : InputService.t) :
  InputService.isGameControl key s = false ->
  InputService.updateState key isDown s = s.
Proof.
  unfold InputService.isGameControl, InputService.updateState. intros H.
  repeat (apply orb_false_iff in H; destruct H as [H ?]).
  repeat match goal with Hk : InputService.includes _ _ = false |- _ =>
    rewrite Hk; clear Hk end.
  destruct s as [[] ? ? ?]. reflexivity.
Qed.

(** X22.  A key that no action is bound to changes nothing: neither its
    press nor its release alters the service. *)
Theorem unbound_key_is_ignored (key : string) (s : InputService.t) :
  InputService.isGameControl key s = false ->
  InputService.keydown key s = s /\ InputService.keyup key s = s.
Proof.
  intros H.
  unfold InputService.keydown, InputService.keyup, InputService.handleKeyDown,
    InputService.handleKeyUp.
  destruct (InputService.isEnabled s), (InputService.isEditorModalOpen s);
    split; try reflexivity; apply updateState_unbound; exact H.
Qed.

Lemma unbound_key_is_ignored_witness :
  InputService.keydown "x" (InputService.enable InputService.initial)
  = InputService.enable InputService.initial
  /\ InputService.keyup "x" (InputService.enable InputService.initial)
     = InputService.enable InputService.initial.
Proof.
  apply (unbound_key_is_ignored "x"
           (InputService.enable InputService.initial)).
  reflexivity.
Defined.

(** X23.  While the service is enabled and the editor modal is closed, the
    press of a key bound to an action makes that action active and its
    release makes it inactive; and a press followed by the release of the
    same key leaves the service as the release alone does. *)
Theorem bound_key_sets_action (key : string) (input : InputAction)
  (s : InputService.t) :
  InputService.isEnabled s = true ->
  InputService.isEditorModalOpen s = false ->
  InputService.includes key
    (InputService.bindingsFor input (InputService.keyBindings s)) = true ->
  InputService.isActive input (InputService.keydown key s) = true
  /\ InputService.isActive input (InputService.keyup key s) = false
  /\ InputService.keyup key (InputService.keydown key s)
     = InputService.keyup key s.
Proof.
  intros He Hm Hk.
  unfold InputService.keydown, InputService.keyup, InputService.handleKeyDown,
    InputService.handleKeyUp.
  rewrite He, Hm.
  assert (He' : forall b, InputService.isEnabled
                            (InputService.updateState key b s) = true)
    by (intros b; exact He).
  assert (Hm' : forall b, InputService.isEditorModalOpen
                            (InputService.updateState key b s) = false)
    by (intros b; exact Hm).
  rewrite He', Hm'.
  split; [| split].
  - unfold InputService.isActive. rewrite Hm'.
    unfold InputService.updateState.
    destruct input; cbn [InputService.bindingsFor] in Hk;
      cbn [InputService.state InputState.left InputState.right InputState.up
           InputState.down InputState.jump];
      rewrite Hk; reflexivity.
  - unfold InputService.isActive. rewrite Hm'.
    unfold InputService.updateState.
    destruct input; cbn [InputService.bindingsFor] in Hk;
      cbn [InputService.state InputState.left InputState.right InputState.up
           InputState.down InputState.jump];
      rewrite Hk; reflexivity.
  - unfold InputService.updateState.
    cbn [InputService.keyBindings InputService.state InputService.isEnabled
         InputService.isEditorModalOpen InputState.left InputState.right
         InputState.up InputState.down InputState.jump].
    repeat match goal with
           | |- context [InputService.includes key ?l] =>
               destruct (InputService.includes key l)
           end; reflexivity.
Qed.

Lemma bound_key_sets_action_witness :
  InputService.isActive ActionJump
    (InputService.keydown " " (InputService.enable InputService.initial))
  = true
  /\ InputService.isActive ActionJump
       (InputService.keyup " " (InputService.enable InputService.initial))
     = false
  /\ InputService.keyup " "
       (InputService.keydown " " (InputService.enable InputService.initial))
     = InputService.keyup " " (InputService.enable InputService.initial).
Proof.
  apply (bound_key_sets_action " " ActionJump
           (InputService.enable InputService.initial));
    reflexivity.
Defined.

Lemma step_keeps_released (s : InputService.t) (e : InputService.Event) :
  (InputService.isEnabled s = false
   \/ InputService.isEditorModalOpen s = true ->
   InputService.state s = InputState.released) ->
  InputService.isEnabled (InputService.step s e) = false
  \/ InputService.isEditorModalOpen (InputService.step s e) = true ->
  InputService.state (InputService.step s e) = InputState.released.
Proof.
  destruct s as [st b en mo]. cbn [InputService.isEnabled
    InputService.isEditorModalOpen InputService.state].
  intros Hinv.
  destruct e as [| | isOpen | key | key | nb |];
    cbn [InputService.step]; unfold InputService.dispose, InputService.enable,
      InputService.disable, InputService.setEditorModalOpen,
      InputService.keydown, InputService.keyup, InputService.handleKeyDown,
      InputService.handleKeyUp, InputService.updateKeyBindings,
      InputService.resetState, InputService.updateState;
    cbn [InputService.isEnabled InputService.isEditorModalOpen
         InputService.state InputService.keyBindings];
    try destruct isOpen; destruct en, mo;
    cbn [negb InputService.isEnabled InputService.isEditorModalOpen
         InputService.state InputService.keyBindings];
    intros H; try reflexivity; try (apply Hinv; exact H);
    try (apply Hinv; tauto);
    destruct H; discriminate.
Qed.

(** X24.  The raw key state holds a pressed key only while the service is
    enabled and the editor modal is closed: after any sequence of method
    calls and key events on the freshly built service, a disabled service or
    one whose modal is open has every action released. *)
Theorem keys_held_only_while_listening (events : list InputService.Event) :
  let s := InputService.run events InputService.initial in
  InputService.isEnabled s = false
  \/ InputService.isEditorModalOpen s = true ->
  InputService.state s = InputState.released.
Proof.
  cbv zeta. unfold InputService.run.
  induction events as [| e events IH] using rev_ind.
  - intros _. reflexivity.
  - rewrite fold_left_app. cbn [fold_left].
    apply step_keeps_released. exact IH.
Qed.

Lemma keys_held_only_while_listening_witness :
  InputService.state
    (InputService.run
       [InputService.Enable; InputService.KeyDown "a";
        InputService.KeyDown " "; InputService.Disable]
       InputService.initial)
  = InputState.released.
Proof.
  apply (keys_held_only_while_listening
           [InputService.Enable; InputService.KeyDown "a";
            InputService.KeyDown " "; InputService.Disable]).
  left. reflexivity.
Defined.

(** ** Bounded histories *)

(** Pushing onto the last [max] elements of a list and shifting when there
    are more than [max] gives the last [max] elements of the longer list. *)
Lemma push_shift_last {A : Type} (max : nat) (l : list A) (e : A) :
  (0 < max)%nat ->
  (let pushed := skipn (List.length l - max) l ++ [e] in
   if (max <? List.length pushed)%nat then List.tl pushed else pushed)
  = skipn (List.length (l ++ [e]) - max) (l ++ [e]).
Proof.
  intros Hmax. cbv zeta.
  rewrite !length_app, length_skipn. cbn [List.length].
  destruct (Nat.ltb_spec max
              (List.length l - (List.length l - max) + 1)) as [Hlt | Hge].
  - assert (Hlen : (max <= List.length l)%nat) by lia.
    replace (List.length l + 1 - max)%nat
      with (1 + (List.length l - max))%nat by lia.
    rewrite <- skipn_skipn.
    rewrite (skipn_app (List.length l - max)).
    remember (skipn (List.length l - max) l) as kept eqn:Hkept.
    assert (Hk : List.length kept = max)
      by (rewrite Hkept, length_skipn; lia).
    destruct kept as [| a kept]; [cbn in Hk; lia |].
    replace (List.length l - max - List.length l)%nat with 0%nat by lia.
    reflexivity.
  - replace (List.length l - max)%nat with 0%nat by lia.
    replace (List.length l + 1 - max)%nat with 0%nat by lia.
    reflexivity.
Qed.

(** X25.  The error service keeps the last [maxStoredErrors] (100) errors:
    after any sequence of [handleError] calls on a fresh service,
    [getErrors()] is that sequence without all but its last 100 entries, in
    the order of the calls. *)
Theorem errors_keep_last_hundred (reported : list GameEngineError.t) :
  ErrorService.getErrors
    (fold_left (fun s error => ErrorService.handleError error s) reported
       ErrorService.initial)
  = skipn (List.length reported - ErrorService.maxStoredErrors) reported.
Proof.
  unfold ErrorService.getErrors.
  induction reported as [| e reported IH] using rev_ind.
  - reflexivity.
  - rewrite fold_left_app. cbn [fold_left].
    unfold ErrorService.handleError at 1.
    cbn [ErrorService.errors]. rewrite IH.
    apply (push_shift_last ErrorService.maxStoredErrors reported e).
    unfold ErrorService.maxStoredErrors. lia.
Qed.

(** X26.  The debug service keeps the last [maxLogs] (1000) entries: after
    any sequence of [log] calls on a service started at clock reading
    [start], [getLogs()] holds the entries of the last 1000 calls in the
    order of the calls, each stamped with its clock reading less [start]. *)
Theorem logs_keep_last_thousand (Data : Type) (start : R)
  (calls : list (R * string * string * option Data)) :
  DebugService.getLogs Data
    (fold_left
       (fun s '(now, component, message, data) =>
          DebugService.log Data now component message data s)
       calls (DebugService.mk Data [] start))
  = skipn (List.length calls - DebugService.maxLogs)
      (map (fun '(now, component, message, data) =>
              DebugService.mkEntry Data (now - start) component message data)
         calls).
Proof.
  unfold DebugService.getLogs.
  assert (Hstart : forall cs,
    DebugService.startTime Data
      (fold_left
         (fun s '(now, component, message, data) =>
            DebugService.log Data now component message data s)
         cs (DebugService.mk Data [] start)) = start).
  { intros cs. induction cs as [| c cs IHc] using rev_ind; [reflexivity |].
    rewrite fold_left_app. destruct c as [[[now component] message] data].
    cbn [fold_left]. unfold DebugService.log at 1.
    cbn [DebugService.startTime]. exact IHc. }
  induction calls as [| c calls IH] using rev_ind.
  - reflexivity.
  - rewrite fold_left_app. destruct c as [[[now component] message] data].
    cbn [fold_left]. unfold DebugService.log at 1.
    cbn [DebugService.logs]. rewrite IH, Hstart.
    rewrite map_app. cbn [map].
    match goal with |- context [map ?f calls] => set (entry := f) end.
    replace (List.length (calls ++ [(now, component, message, data)]))
      with (List.length
              (map entry calls
               ++ [DebugService.mkEntry Data (now - start) component message
                     data]))
      by (rewrite !length_app, length_map; reflexivity).
    replace (List.length calls) with (List.length (map entry calls))
      by apply length_map.
    apply (push_shift_last DebugService.maxLogs).
    unfold DebugService.maxLogs. lia.
Qed.

(** ** Placing platforms in the editor *)

(** Different counters give different identifiers. *)
Lemma platformId_inj (n m : nat) :
  TrackEditorService.platformId n = TrackEditorService.platformId m -> n = m.
Proof.
  unfold TrackEditorService.platformId, JS.numberText. intros H.
  cbn [String.append] in H. injection H as H.
  apply (f_equal NilEmpty.uint_of_string) in H.
  rewrite !NilEmpty.usu in H. injection H as H.
  apply Unsigned.to_uint_inj. exact H.
Qed.

Lemma set_fresh {V : Type} (k : string) (v : V) (m : JS.Map V) :
  JS.get k m = None -> JS.set k v m = m ++ [(k, v)].
Proof.
  induction m as [| [k0 v0] m IH]; cbn [JS.get JS.set app]; [reflexivity |].
  destruct (String.eqb k k0); [discriminate |].
  intros H. rewrite (IH H). reflexivity.
Qed.

Lemma visit_keeps_valid (acc : TrackEditorService.Tally)
  (entry : string * Platform.t) :
  TrackEditorService.hasStart acc = true ->
  TrackEditorService.hasFinish acc = true ->
  (0 < List.length (TrackEditorService.checkpoints acc))%nat ->
  TrackEditorService.hasStart (TrackEditorService.visit acc entry) = true
  /\ TrackEditorService.hasFinish (TrackEditorService.visit acc entry) = true
  /\ (0 < List.length
            (TrackEditorService.checkpoints
               (TrackEditorService.visit acc entry)))%nat.
Proof.
  intros Hs Hf Hc. unfold TrackEditorService.visit.
  destruct (Platform.getType (snd entry));
    cbn [TrackEditorService.hasStart TrackEditorService.hasFinish
         TrackEditorService.checkpoints];
    repeat split; try assumption.
  rewrite length_app. lia.
Qed.

(** X27.  [createPlatform(position)] needs a scene.  Without one it reports
    'Scene not initialized' and changes neither the level nor the counter.
    With one it puts a platform of the selected type at [position] under the
    identifier made from the counter, advances the counter, marks the track
    as modified, reports nothing, and leaves the platforms stored under the
    identifiers of all other counters as they were. *)
Theorem createPlatform_places (position : Vector3.t)
  (s : TrackEditorService.t) (level : LevelService.t) :
  let result := TrackEditorService.createPlatform position s level in
  (TrackEditorService.sceneReady s = false ->
   snd result = level
   /\ TrackEditorService.reported (fst result)
      = TrackEditorService.reported s ++ ["Scene not initialized"%string]
   /\ TrackEditorService.nextPlatformId (fst result)
      = TrackEditorService.nextPlatformId s
   /\ TrackEditorService.state (fst result) = TrackEditorService.state s)
  /\ (TrackEditorService.sceneReady s = true ->
      (exists platform : Platform.t,
         JS.get
           (TrackEditorService.platformId
              (TrackEditorService.nextPlatformId s))
           (LevelService.platforms (snd result)) = Some platform
         /\ Platform.getType platform
            = TrackEditorService.selectedPlatformType
                (TrackEditorService.state s)
         /\ Platform.getPosition platform = position)
      /\ TrackEditorService.nextPlatformId (fst result)
         = S (TrackEditorService.nextPlatformId s)
      /\ TrackEditorService.isModified
           (TrackEditorService.state (fst result)) = true
      /\ TrackEditorService.reported (fst result)
         = TrackEditorService.reported s
      /\ (forall n : nat,
            n <> TrackEditorService.nextPlatformId s ->
            JS.get (TrackEditorService.platformId n)
              (LevelService.platforms (snd result))
            = JS.get (TrackEditorService.platformId n)
                (LevelService.platforms level))).
Proof.
  cbv zeta. unfold TrackEditorService.createPlatform. split; intros Hscene;
    rewrite Hscene; cbn [negb].
  - repeat split.
  - unfold Platform.constructor, LevelService.addPlatform,
      TrackEditorService.setModified.
    cbn [fst snd LevelService.platforms TrackEditorService.nextPlatformId
         TrackEditorService.state TrackEditorService.isModified
         TrackEditorService.reported
         TrackEditorService.selectedPlatformType].
    repeat split.
    + eexists. split; [apply get_set_same |]. split; reflexivity.
    + intros n Hn. apply get_set_other.
      intros Heq. apply Hn. apply platformId_inj. exact Heq.
Qed.

Lemma createPlatform_places_witness :
  snd (TrackEditorService.createPlatform (Vector3.mk 1 0 2)
         TrackEditorService.initial LevelService.initial)
  = LevelService.initial
  /\ TrackEditorService.reported
       (fst (TrackEditorService.createPlatform (Vector3.mk 1 0 2)
               TrackEditorService.initial LevelService.initial))
     = TrackEditorService.reported TrackEditorService.initial
       ++ ["Scene not initialized"%string]
  /\ TrackEditorService.nextPlatformId
       (fst (TrackEditorService.createPlatform (Vector3.mk 1 0 2)
               TrackEditorService.initial LevelService.initial))
     = TrackEditorService.nextPlatformId TrackEditorService.initial
  /\ TrackEditorService.state
       (fst (TrackEditorService.createPlatform (Vector3.mk 1 0 2)
               TrackEditorService.initial LevelService.initial))
     = TrackEditorService.state TrackEditorService.initial.
Proof.
  apply (proj1 (createPlatform_places (Vector3.mk 1 0 2)
                  TrackEditorService.initial LevelService.initial)).
  reflexivity.
Defined.

(** X28.  Placing a platform cannot make a valid track invalid, as long as
    the identifier made from the counter is not in use in the level: a level
    that [validateTrack] accepts is accepted after [createPlatform] as
    well. *)
Theorem created_platform_keeps_track_valid (position : Vector3.t)
  (s : TrackEditorService.t) (level : LevelService.t) :
  JS.get (TrackEditorService.platformId (TrackEditorService.nextPlatformId s))
    (LevelService.platforms level) = None ->
  TrackEditorService.validateTrack (LevelService.platforms level) = true ->
  TrackEditorService.validateTrack
    (LevelService.platforms
       (snd (TrackEditorService.createPlatform position s level))) = true.
Proof.
  intros Hfresh Hvalid. unfold TrackEditorService.createPlatform.
  destruct (negb (TrackEditorService.sceneReady s)); [exact Hvalid |].
  unfold Platform.constructor, LevelService.addPlatform.
  cbn [snd LevelService.platforms].
  rewrite (set_fresh _ _ _ Hfresh).
  unfold TrackEditorService.validateTrack in *.
  rewrite fold_left_app. cbn [fold_left].
  apply andb_true_iff in Hvalid. destruct Hvalid as [Hvalid Hc].
  apply andb_true_iff in Hvalid. destruct Hvalid as [Hs Hf].
  apply Nat.ltb_lt in Hc.
  match goal with
  | |- context [TrackEditorService.visit ?acc ?entry] =>
      destruct (visit_keeps_valid acc entry Hs Hf Hc) as [Hs' [Hf' Hc']]
  end.
  rewrite Hs', Hf'. apply Nat.ltb_lt in Hc'. rewrite Hc'. reflexivity.
Qed.

Lemma created_platform_keeps_track_valid_witness :
  TrackEditorService.validateTrack
    (LevelService.platforms
       (snd (TrackEditorService.createPlatform (Vector3.mk 1 0 2)
               (TrackEditorService.initialize TrackEditorService.initial)
               (LevelService.mk LevelService.defaultTrackConfig
                  [("start"%string, Examples.slab START);
                   ("gate"%string, Examples.slab CHECKPOINT);
                   ("finish"%string, Examples.slab FINISH)] 0))))
  = true.
Proof.
  apply (created_platform_keeps_track_valid (Vector3.mk 1 0 2)
           (TrackEditorService.initialize TrackEditorService.initial)
           (LevelService.mk LevelService.defaultTrackConfig
              [("start"%string, Examples.slab START);
               ("gate"%string, Examples.slab CHECKPOINT);
               ("finish"%string, Examples.slab FINISH)] 0));
    reflexivity.
Defined.

(** ** The editor camera *)

Lemma clamp_bounds (lo hi a : R) :
  lo <= hi -> lo <= Rmax lo (Rmin hi a) <= hi.
Proof.
  intros H. split; [apply Rmax_l |].
  apply Rmax_lub; [exact H | apply Rmin_l].
Qed.

(** X30.  Dragging with the middle button keeps the camera between heights
    5 and 30.  In editor mode, after a press of button 1 every mouse move
    leaves the camera height in that range and remembers the pointer; a move
    to where the pointer already is leaves a camera in that range where it
    is; and after the button is released a move changes nothing. *)
Theorem drag_keeps_camera_height (x0 y0 x y x' y' : R)
  (s : EditorGameEngine.t) :
  EditorGameEngine.isEditorMode s = true ->
  let pressed := EditorGameEngine.handleEditorMouseDown 1 x0 y0 s in
  let moved := EditorGameEngine.handleEditorMouseMove x y pressed in
  let released := EditorGameEngine.handleEditorMouseUp moved in
  5 <= Vector3.y (EditorGameEngine.cameraPosition moved) <= 30
  /\ EditorGameEngine.previousMouseX moved = x
  /\ EditorGameEngine.previousMouseY moved = y
  /\ (5 <= Vector3.y (EditorGameEngine.cameraPosition s) <= 30 ->
      EditorGameEngine.cameraPosition
        (EditorGameEngine.handleEditorMouseMove x0 y0 pressed)
      = EditorGameEngine.cameraPosition s)
  /\ EditorGameEngine.handleEditorMouseMove x' y' released = released.
Proof.
  intros Hmode pressed moved released. subst released moved pressed.
  unfold EditorGameEngine.handleEditorMouseDown. rewrite Hmode.
  cbn [negb Z.eqb Pos.eqb].
  unfold EditorGameEngine.handleEditorMouseUp,
    EditorGameEngine.handleEditorMouseMove.
  cbn [EditorGameEngine.isEditorMode EditorGameEngine.isDragging
       EditorGameEngine.cameraPosition EditorGameEngine.previousMouseX
       EditorGameEngine.previousMouseY].
  cbn [negb orb].
  cbn [EditorGameEngine.isEditorMode EditorGameEngine.isDragging
       EditorGameEngine.cameraPosition EditorGameEngine.previousMouseX
       EditorGameEngine.previousMouseY].
  split; [| split; [reflexivity | split; [reflexivity | split]]].
  - unfold Vector3.with_y at 1. cbn [Vector3.y]. apply clamp_bounds. lra.
  - intros Hrange.
    replace ((x0 - x0) * (1 / 100)) with 0 by lra.
    replace ((y0 - y0) * (1 / 10)) with 0 by lra.
    rewrite cos_0, sin_0.
    destruct (EditorGameEngine.cameraPosition s) as [cx cy cz].
    cbn [Vector3.y] in Hrange.
    unfold Vector3.with_x, Vector3.with_y, Vector3.with_z.
    apply vector_eq; cbn [Vector3.x Vector3.y Vector3.z]; try lra.
    rewrite Rminus_0_r, (Rmin_right 30 cy) by lra.
    apply Rmax_right. lra.
  - reflexivity.
Qed.

Lemma drag_keeps_camera_height_witness :
  5 <= Vector3.y
         (EditorGameEngine.cameraPosition
            (EditorGameEngine.handleEditorMouseMove 40 (-500)
               (EditorGameEngine.handleEditorMouseDown 1 10 20
                  (EditorGameEngine.setEditorMode true
                     (EditorGameEngine.mk false (Vector3.mk 0 10 15) false 0
                        0)))))
    <= 30.
Proof.
  exact (proj1 (drag_keeps_camera_height 10 20 40 (-500) 0 0
                  (EditorGameEngine.setEditorMode true
                     (EditorGameEngine.mk false (Vector3.mk 0 10 15) false 0
                        0))
                  eq_refl)).
Defined.
